(** * The Telegram webhook relay, [api/telegram/webhook.js]

    The repository is one request handler that exists in two near-identical
    variants.  Both are embedded here: JavaScript strings are sequences of
    UTF-16 code units, JavaScript values are a datatype, [process.env] is a
    finite map, and the effects of the handler (outbound [fetch] calls,
    [console.error], reading the request body, thrown exceptions) are
    threaded through a small writer/exception monad.  The host functions
    that the code calls but does not define ([fetch], [JSON.parse]) are
    fields of a [host] record over which every statement quantifies. *)

From Stdlib Require Import NArith ZArith Ascii String List Lia Bool.
From Stdlib Require Import Floats.SpecFloat.
From stdpp Require Import gmap list.

(** ** JavaScript strings *)

(** A String value is a finite sequence of 16-bit code units. *)
Abbreviation jsstring := (list N).

Module Str.

(** An ASCII literal of the source as a sequence of code units. *)
Definition lit (s : String.string) : jsstring :=
  map N_of_ascii (list_ascii_of_string s).

(** A string between double quotes, as [JSON.stringify] prints a key. *)
Definition quoted (s : jsstring) : jsstring := 34%N :: s ++ [34%N].

(** [s.startsWith(p)], used by the search below. *)
Fixpoint starts_with (p s : jsstring) : bool :=
  match p, s with
  | [], _ => true
  | _ :: _, [] => false
  | a :: p', b :: s' => (a =? b)%N && starts_with p' s'
  end.

(** "the substring of [s] from [a] to [b]". *)
Definition substring (s : jsstring) (a b : nat) : jsstring :=
  take (b - a) (drop a s).

(** Offset of the first position of [s] at which [p] starts. *)
Fixpoint find (p s : jsstring) : option nat :=
  if starts_with p s then Some 0
  else match s with
       | [] => None
       | _ :: s' => option_map S (find p s')
       end.

(** StringIndexOf(string, searchValue, fromIndex) of ECMA-262: the
    smallest [i >= from] at which [p] occurs in [s], [None] for -1. *)
Definition StringIndexOf (s p : jsstring) (from : nat) : option nat :=
  if from <=? length s
  then option_map (fun k => from + k) (find p (drop from s))
  else None.

Definition dollar : N := 36.       (* $ *)
Definition ampersand : N := 38.    (* & *)
Definition backtick : N := 96.     (* ` *)
Definition apostrophe : N := 39.   (* ' *)

(** GetSubstitution(matched, str, position, captures, namedCaptures,
    replacementTemplate) of ECMA-262 for a string pattern: [captures] is
    empty and [namedCaptures] is undefined, so [$n], [$nn] and [$<]
    stand for themselves and only the four references below expand. *)
Fixpoint GetSubstitution (matched str : jsstring) (position : nat)
    (template : jsstring) : jsstring :=
  match template with
  | [] => []
  | c :: rest =>
    if (c =? dollar)%N then
      match rest with
      | [] => [c]
      | d :: rest' =>
        if (d =? dollar)%N then
          dollar :: GetSubstitution matched str position rest'
        else if (d =? ampersand)%N then
          matched ++ GetSubstitution matched str position rest'
        else if (d =? backtick)%N then
          take position str ++ GetSubstitution matched str position rest'
        else if (d =? apostrophe)%N then
          drop (Nat.min (position + length matched) (length str)) str
            ++ GetSubstitution matched str position rest'
        else c :: GetSubstitution matched str position rest
      end
    else c :: GetSubstitution matched str position rest
  end.

(** The search loop of String.prototype.replaceAll: starting at [pos],
    collect each match position and resume [advanceBy] after it.  Every
    round moves [pos] forward by at least one, so [length s + 1] rounds
    of [fuel] see the whole string. *)
Fixpoint matchPositions (fuel : nat) (s p : jsstring) (advanceBy pos : nat)
    : list nat :=
  match fuel with
  | O => []
  | S fuel' =>
    match StringIndexOf s p pos with
    | None => []
    | Some i => i :: matchPositions fuel' s p advanceBy (i + advanceBy)
    end
  end.

(** One round of the assembling loop: (endOfLastMatch, result). *)
Definition replace_step (s searchString replaceValue : jsstring)
    (acc : nat * jsstring) (p : nat) : nat * jsstring :=
  let preserved := substring s (fst acc) p in
  let replacement := GetSubstitution searchString s p replaceValue in
  (p + length searchString, snd acc ++ preserved ++ replacement).

(** Last step of the assembling loop: what follows the last match. *)
Definition replace_rest (s : jsstring) (acc : nat * jsstring) : jsstring :=
  if fst acc <? length s
  then snd acc ++ substring s (fst acc) (length s)
  else snd acc.

(** [s.replaceAll(searchString, replaceValue)] with both arguments
    strings (ECMA-262, String.prototype.replaceAll, steps 8-18). *)
Definition replaceAll (s searchString replaceValue : jsstring) : jsstring :=
  let searchLength := length searchString in
  let advanceBy := Nat.max 1 searchLength in
  let positions := matchPositions (S (length s)) s searchString advanceBy 0 in
  replace_rest s
    (fold_left (replace_step s searchString replaceValue) positions (0, [])).

(** WhiteSpace and LineTerminator code points, the ones
    String.prototype.trim strips. *)
Definition is_white_space (c : N) : bool :=
  ((c =? 0x9) || (c =? 0xA) || (c =? 0xB) || (c =? 0xC) || (c =? 0xD)
   || (c =? 0x20) || (c =? 0xA0) || (c =? 0x1680)
   || ((0x2000 <=? c) && (c <=? 0x200A))
   || (c =? 0x2028) || (c =? 0x2029) || (c =? 0x202F) || (c =? 0x205F)
   || (c =? 0x3000) || (c =? 0xFEFF))%N.

Fixpoint trimStart (s : jsstring) : jsstring :=
  match s with
  | [] => []
  | c :: s' => if is_white_space c then trimStart s' else s
  end.

Definition trimEnd (s : jsstring) : jsstring := rev (trimStart (rev s)).

(** [s.trim()]. *)
Definition trim (s : jsstring) : jsstring := trimEnd (trimStart s).

Fixpoint digits (d : Decimal.uint) : jsstring :=
  match d with
  | Decimal.Nil => []
  | Decimal.D0 d => 48%N :: digits d
  | Decimal.D1 d => 49%N :: digits d
  | Decimal.D2 d => 50%N :: digits d
  | Decimal.D3 d => 51%N :: digits d
  | Decimal.D4 d => 52%N :: digits d
  | Decimal.D5 d => 53%N :: digits d
  | Decimal.D6 d => 54%N :: digits d
  | Decimal.D7 d => 55%N :: digits d
  | Decimal.D8 d => 56%N :: digits d
  | Decimal.D9 d => 57%N :: digits d
  end.

(** ToString of a non-negative integer, as a template literal prints
    [res.status]. *)
Definition of_N (n : N) : jsstring := digits (N.to_uint n).

End Str.

(** ** JavaScript values *)

(** The values the handler manipulates: [undefined] and whatever
    [JSON.parse] can build.  A Number is an IEEE-754 binary64. *)
#[warnings="-register-all"] Inductive value :=
| VUndefined
| VNull
| VBool (b : bool)
| VNumber (x : spec_float)
| VString (s : jsstring)
| VArray (items : list value)
| VObject (props : list (jsstring * value)).

Module Val.

(** The Number nearest to an integer, for literals such as [42]. *)
Definition num (z : Z) : spec_float := binary_normalize 53 1024 z 0 false.

(** ToBoolean. *)
Definition truthy (v : value) : bool :=
  match v with
  | VUndefined | VNull => false
  | VBool b => b
  | VNumber (S754_zero _) | VNumber S754_nan => false
  | VNumber _ => true
  | VString [] => false
  | VString (_ :: _) => true
  | VArray _ | VObject _ => true
  end.

(** Own data property [k] of an object literal. *)
Fixpoint own (k : jsstring) (props : list (jsstring * value)) : value :=
  match props with
  | [] => VUndefined
  | (k', v) :: props' => if decide (k = k') then v else own k props'
  end.

(** [v?.k] for the identifiers the handler reads ([message], [chat],
    [id], [text], [candidates], [content], [parts], [reply_text]): none
    is an array index, [length], or inherited from a prototype, so only
    an object can hold one. *)
Definition opt_get (v : value) (k : jsstring) : value :=
  match v with
  | VObject props => own k props
  | _ => VUndefined
  end.

(** [v?.[0]]: first element of an array, first code unit of a string,
    property ["0"] of an object. *)
Definition opt_idx0 (v : value) : value :=
  match v with
  | VArray (x :: _) => x
  | VString (c :: _) => VString [c]
  | VObject props => own (Str.lit "0") props
  | _ => VUndefined
  end.

End Val.

(** ** Effects *)

(** What a [throw] or a rejected promise carries. *)
Inductive exn :=
| Error (message : jsstring)      (* new Error(message) *)
| SyntaxError                     (* raised by JSON.parse *)
| HostError (detail : jsstring).  (* a host promise rejected *)

(** The argument of an outbound [fetch(url, init)]; [call_body] is the
    value handed to [JSON.stringify]. *)
Record call := Call {
  call_url : jsstring;
  call_method : jsstring;
  call_headers : list (jsstring * jsstring);
  call_body : value
}.

Inductive logged :=
| LogValue (v : value)
| LogExn (e : exn).

(** Observable actions of one invocation, in program order. *)
Inductive event :=
| Fetch (c : call)                    (* fetch(...) was issued *)
| ConsoleError (args : list logged)   (* console.error(...) *)
| ReadBody.                           (* request.json() was invoked *)

(** A computation ends in a thrown exception or a value, and leaves the
    events it performed. *)
Definition M (A : Type) : Type := (exn + A) * list event.

Module Eff.

Definition ret {A} (a : A) : M A := (inr a, []).
Definition throw {A} (e : exn) : M A := (inl e, []).
Definition emit (ev : event) : M unit := (inr tt, [ev]).

Definition bind {A B} (m : M A) (k : A -> M B) : M B :=
  match m with
  | (inl e, t) => (inl e, t)
  | (inr a, t) => let (r, t') := k a in (r, t ++ t')
  end.

(** [try { m } catch (e) { handle e }]. *)
Definition try_catch {A} (m : M A) (handle : exn -> M A) : M A :=
  match m with
  | (inl e, t) => let (r, t') := handle e in (r, t ++ t')
  | (inr a, t) => (inr a, t)
  end.

(** Awaiting a promise that has settled. *)
Definition await {A} (p : exn + A) : M A := (p, []).

End Eff.

Notation "'run' x <- m ;; k" := (Eff.bind m (fun x => k))
  (at level 10, x name, m at level 99, k at level 200, only parsing).
Notation "'exec' m ;; k" := (Eff.bind m (fun _ => k))
  (at level 10, m at level 99, k at level 200, only parsing).

(** ** The host: fetch, Response, Request, JSON.parse, process.env *)

(** A fetch Response: its status and what reading its body gives. *)
Record http_response := HttpResponse {
  res_status : N;
  res_body : exn + jsstring
}.

(** What the runtime supplies: [JSON.parse] (applied to any value, which
    it first converts to a string; [None] is a SyntaxError) and the
    remote ends that answer [fetch]. *)
Record host := Host {
  JSON_parse : value -> option value;
  remote : call -> exn + http_response
}.

(** The inbound Request: method, headers, and how [request.json()]
    settles. *)
Record request := Request {
  req_method : jsstring;
  req_headers : gmap jsstring jsstring;
  req_json : exn + value
}.

(** [new Response(body, { status })]. *)
Record response := Response {
  resp_body : jsstring;
  resp_status : N
}.

Module Host.

(** [res.ok]: the status is in the range 200-299. *)
Definition ok (res : http_response) : bool :=
  ((200 <=? res_status res) && (res_status res <=? 299))%N.

Definition fetch (h : host) (c : call) : M http_response :=
  exec Eff.emit (Fetch c) ;; Eff.await (remote h c).

Definition text (res : http_response) : M jsstring :=
  Eff.await (res_body res).

Definition parse (h : host) (v : value) : M value :=
  match JSON_parse h v with
  | Some x => Eff.ret x
  | None => Eff.throw SyntaxError
  end.

(** [res.json()]: read the body, then parse it. *)
Definition json (h : host) (res : http_response) : M value :=
  run s <- text res ;; parse h (VString s).

Definition request_json (req : request) : M value :=
  exec Eff.emit ReadBody ;; Eff.await (req_json req).

(** [request.headers.get(name)], [None] for null. *)
Definition headers_get (req : request) (name : jsstring) : option jsstring :=
  req_headers req !! name.

Definition console_error (args : list logged) : M unit :=
  Eff.emit (ConsoleError args).

(** ToBoolean of an environment entry: unset and empty are falsy. *)
Definition set (o : option jsstring) : bool :=
  match o with
  | Some (_ :: _) => true
  | _ => false
  end.

(** [o || d] for an environment entry. *)
Definition or_default (o : option jsstring) (d : jsstring) : jsstring :=
  match o with
  | Some (c :: s) => c :: s
  | _ => d
  end.

(** The constant bodies the handler serialises. *)
Definition json_ok : jsstring :=
  Str.lit "{" ++ Str.quoted (Str.lit "ok") ++ Str.lit ":true}".
Definition json_ok_ignored : jsstring :=
  Str.lit "{" ++ Str.quoted (Str.lit "ok") ++ Str.lit ":true,"
    ++ Str.quoted (Str.lit "ignored") ++ Str.lit ":true}".

End Host.

(** ** First variant of the handler *)

Module V1.
Section Invocation.
Context (h : host) (env : gmap jsstring jsstring).

Definition TELEGRAM_API : jsstring := Str.lit "https://api.telegram.org".
Definition GEMINI_API : jsstring :=
  Str.lit "https://generativelanguage.googleapis.com/v1beta".

Definition mustEnv (name : jsstring) : M jsstring :=
  match env !! name with
  | Some (c :: v) => Eff.ret (c :: v)
  | _ => Eff.throw (Error (Str.lit "Missing env var: " ++ name))
  end.

Definition telegramSendMessage (botToken : jsstring) (chatId : value)
    (text : jsstring) : M unit :=
  let url := TELEGRAM_API ++ Str.lit "/bot" ++ botToken ++ Str.lit "/sendMessage" in
  run res <- Host.fetch h
    (Call url (Str.lit "POST")
       [(Str.lit "content-type", Str.lit "application/json")]
       (VObject [(Str.lit "chat_id", chatId);
                 (Str.lit "text", VString text);
                 (Str.lit "disable_web_page_preview", VBool true)])) ;;
  if negb (Host.ok res) then
    run t <- Host.text res ;;
    Eff.throw (Error (Str.lit "Telegram sendMessage failed: "
                        ++ Str.of_N (res_status res) ++ Str.lit " " ++ t))
  else Eff.ret tt.

Definition callGemini (apiKey model systemPrompt : jsstring) (userText : value)
    (bookingLink : jsstring) : M value :=
  let url := GEMINI_API ++ Str.lit "/models/" ++ model
               ++ Str.lit ":generateContent?key=" ++ apiKey in
  let prompt := Str.replaceAll systemPrompt (Str.lit "{{BOOKING_LINK}}") bookingLink in
  let body :=
    VObject
      [(Str.lit "systemInstruction",
         VObject [(Str.lit "parts", VArray [VObject [(Str.lit "text", VString prompt)]])]);
       (Str.lit "contents",
         VArray [VObject [(Str.lit "role", VString (Str.lit "user"));
                          (Str.lit "parts", VArray [VObject [(Str.lit "text", userText)]])]]);
       (Str.lit "generationConfig",
         VObject [(Str.lit "responseMimeType", VString (Str.lit "application/json"));
                  (Str.lit "temperature",
                    VNumber (S754_finite false 5404319552844595 (-53)))])] in
  run res <- Host.fetch h
    (Call url (Str.lit "POST")
       [(Str.lit "content-type", Str.lit "application/json")] body) ;;
  if negb (Host.ok res) then
    run t <- Host.text res ;;
    Eff.throw (Error (Str.lit "Gemini failed: "
                        ++ Str.of_N (res_status res) ++ Str.lit " " ++ t))
  else
    run data <- Host.json h res ;;
    let text :=
      Val.opt_get
        (Val.opt_idx0
           (Val.opt_get
              (Val.opt_get
                 (Val.opt_idx0 (Val.opt_get data (Str.lit "candidates")))
                 (Str.lit "content"))
              (Str.lit "parts")))
        (Str.lit "text") in
    if negb (Val.truthy text) then
      Eff.throw (Error (Str.lit "Gemini returned no text."))
    else Host.parse h text.

Definition fallback : jsstring :=
  Str.lit "Got you " ++ [0x2014%N] ++ Str.lit " what" ++ [0x2019%N]
    ++ Str.lit "s your website or IG link so I can take a look?".

Definition handler (request : request) : M response :=
  Eff.try_catch
    (if negb (bool_decide (req_method request = Str.lit "POST")) then
       Eff.ret (Response (Str.lit "Method Not Allowed") 405)
     else
       run BOT_TOKEN <- mustEnv (Str.lit "TELEGRAM_BOT_TOKEN") ;;
       run GEMINI_KEY <- mustEnv (Str.lit "GEMINI_API_KEY") ;;
       run SYSTEM_PROMPT <- mustEnv (Str.lit "AI_SYSTEM_PROMPT") ;;
       let BOOKING_LINK :=
         Host.or_default (env !! Str.lit "BOOKING_LINK")
           (Str.lit "https://calendly.com/your-link") in
       let GEMINI_MODEL :=
         Host.or_default (env !! Str.lit "GEMINI_MODEL") (Str.lit "gemini-2.5-flash") in
       let expectedSecret := env !! Str.lit "TELEGRAM_WEBHOOK_SECRET" in
       let got := Host.headers_get request (Str.lit "x-telegram-bot-api-secret-token") in
       if Host.set expectedSecret && negb (bool_decide (got = expectedSecret)) then
         Eff.ret (Response (Str.lit "Unauthorized") 401)
       else
         run update <- Host.request_json request ;;
         let msg := Val.opt_get update (Str.lit "message") in
         let chatId := Val.opt_get (Val.opt_get msg (Str.lit "chat")) (Str.lit "id") in
         let userText := Val.opt_get msg (Str.lit "text") in
         if negb (Val.truthy chatId) || negb (Val.truthy userText) then
           Eff.ret (Response Host.json_ok_ignored 200)
         else
           run ai <- callGemini GEMINI_KEY GEMINI_MODEL SYSTEM_PROMPT userText BOOKING_LINK ;;
           let replyText :=
             match Val.opt_get ai (Str.lit "reply_text") with
             | VString s =>
               if Val.truthy (VString (Str.trim s)) then Str.trim s else fallback
             | _ => fallback
             end in
           exec telegramSendMessage BOT_TOKEN chatId replyText ;;
           Eff.ret (Response Host.json_ok 200))
    (fun e =>
       exec Host.console_error [LogExn e] ;;
       Eff.ret (Response Host.json_ok 200)).

End Invocation.
End V1.

(** ** Second variant of the handler *)

Module V2.
Section Invocation.
Context (h : host) (env : gmap jsstring jsstring).

Definition TELEGRAM_API : jsstring := Str.lit "https://api.telegram.org".
Definition GEMINI_API : jsstring :=
  Str.lit "https://generativelanguage.googleapis.com/v1beta".

Definition mustEnv (name : jsstring) : M jsstring :=
  match env !! name with
  | Some (c :: v) => Eff.ret (c :: v)
  | _ => Eff.throw (Error (Str.lit "Missing required environment variable: " ++ name))
  end.

Definition telegramSendMessage (botToken : jsstring) (chatId : value)
    (text : jsstring) : M unit :=
  run res <- Host.fetch h
    (Call (TELEGRAM_API ++ Str.lit "/bot" ++ botToken ++ Str.lit "/sendMessage")
       (Str.lit "POST")
       [(Str.lit "content-type", Str.lit "application/json")]
       (VObject [(Str.lit "chat_id", chatId);
                 (Str.lit "text", VString text);
                 (Str.lit "disable_web_page_preview", VBool true)])) ;;
  if negb (Host.ok res) then
    run err <- Host.text res ;;
    Eff.throw (Error (Str.lit "Telegram sendMessage failed: "
                        ++ Str.of_N (res_status res) ++ Str.lit " " ++ err))
  else Eff.ret tt.

Definition callGemini (userText : value) (bookingLink : jsstring) : M value :=
  run JIM_API_KEY <- mustEnv (Str.lit "JIM_API_KEY") ;;
  run SYSTEM_PROMPT <- mustEnv (Str.lit "AI_SYSTEM_PROMPT") ;;
  let GEMINI_MODEL :=
    Host.or_default (env !! Str.lit "GEMINI_MODEL") (Str.lit "gemini-2.5-flash") in
  let prompt := Str.replaceAll SYSTEM_PROMPT (Str.lit "{{BOOKING_LINK}}") bookingLink in
  run res <- Host.fetch h
    (Call (GEMINI_API ++ Str.lit "/models/" ++ GEMINI_MODEL
             ++ Str.lit ":generateContent?key=" ++ JIM_API_KEY)
       (Str.lit "POST")
       [(Str.lit "content-type", Str.lit "application/json")]
       (VObject
          [(Str.lit "systemInstruction",
             VObject [(Str.lit "parts", VArray [VObject [(Str.lit "text", VString prompt)]])]);
           (Str.lit "contents",
             VArray [VObject [(Str.lit "role", VString (Str.lit "user"));
                              (Str.lit "parts", VArray [VObject [(Str.lit "text", userText)]])]]);
           (Str.lit "generationConfig",
             VObject [(Str.lit "responseMimeType", VString (Str.lit "application/json"));
                      (Str.lit "temperature",
                        VNumber (S754_finite false 5404319552844595 (-53)))])])) ;;
  if negb (Host.ok res) then
    run err <- Host.text res ;;
    Eff.throw (Error (Str.lit "Gemini API failed: "
                        ++ Str.of_N (res_status res) ++ Str.lit " " ++ err))
  else
    run data <- Host.json h res ;;
    let raw :=
      Val.opt_get
        (Val.opt_idx0
           (Val.opt_get
              (Val.opt_get
                 (Val.opt_idx0 (Val.opt_get data (Str.lit "candidates")))
                 (Str.lit "content"))
              (Str.lit "parts")))
        (Str.lit "text") in
    if negb (Val.truthy raw) then
      Eff.throw (Error (Str.lit "Gemini returned empty response."))
    else
      Eff.try_catch (Host.parse h raw)
        (fun e =>
           exec Host.console_error
                  [LogValue (VString (Str.lit "Invalid JSON from Gemini:")); LogValue raw] ;;
           Eff.throw (Error (Str.lit "Gemini returned malformed JSON."))).

Definition fallback : jsstring :=
  Str.lit "Quick question " ++ [0x2014%N] ++ Str.lit " what" ++ [0x2019%N]
    ++ Str.lit "s your website or IG link so I can take a look?".

Definition handler (request : request) : M response :=
  Eff.try_catch
    (if negb (bool_decide (req_method request = Str.lit "POST")) then
       Eff.ret (Response (Str.lit "Method Not Allowed") 405)
     else
       run BOT_TOKEN <- mustEnv (Str.lit "TELEGRAM_BOT_TOKEN") ;;
       let BOOKING_LINK :=
         Host.or_default (env !! Str.lit "BOOKING_LINK")
           (Str.lit "https://calendly.com/your-link") in
       let expectedSecret := env !! Str.lit "TELEGRAM_WEBHOOK_SECRET" in
       let receivedSecret :=
         Host.headers_get request (Str.lit "x-telegram-bot-api-secret-token") in
       if Host.set expectedSecret
          && negb (bool_decide (receivedSecret = expectedSecret)) then
         Eff.ret (Response (Str.lit "Unauthorized") 401)
       else
         run update <- Host.request_json request ;;
         let message := Val.opt_get update (Str.lit "message") in
         let chatId := Val.opt_get (Val.opt_get message (Str.lit "chat")) (Str.lit "id") in
         let userText := Val.opt_get message (Str.lit "text") in
         if negb (Val.truthy chatId) || negb (Val.truthy userText) then
           Eff.ret (Response Host.json_ok_ignored 200)
         else
           run ai <- callGemini userText BOOKING_LINK ;;
           let replyText :=
             match Val.opt_get ai (Str.lit "reply_text") with
             | VString s =>
               if Val.truthy (VString (Str.trim s)) then Str.trim s else fallback
             | _ => fallback
             end in
           exec telegramSendMessage BOT_TOKEN chatId replyText ;;
           Eff.ret (Response Host.json_ok 200))
    (fun err =>
       exec Host.console_error
              [LogValue (VString (Str.lit "Webhook Error:")); LogExn err] ;;
       Eff.ret (Response Host.json_ok 200)).

End Invocation.
End V2.

(** ** Vocabulary of the statements *)

Module Spec.

Inductive variant := First | Second.

Definition handler (v : variant) : host -> gmap jsstring jsstring -> request -> M response :=
  match v with
  | First => V1.handler
  | Second => V2.handler
  end.

Definition fallback (v : variant) : jsstring :=
  match v with
  | First => V1.fallback
  | Second => V2.fallback
  end.

(** The name under which a variant reads the completion credential. *)
Definition completion_key (v : variant) : jsstring :=
  match v with
  | First => Str.lit "GEMINI_API_KEY"
  | Second => Str.lit "JIM_API_KEY"
  end.

(** The environment values a variant reads through [mustEnv] ... *)
Definition mandatory (v : variant) : list jsstring :=
  [Str.lit "TELEGRAM_BOT_TOKEN"; completion_key v; Str.lit "AI_SYSTEM_PROMPT"].

(** ... and those among them it reads before the secret check. *)
Definition mandatory_at_start (v : variant) : list jsstring :=
  match v with
  | First => mandatory First
  | Second => [Str.lit "TELEGRAM_BOT_TOKEN"]
  end.

Definition all_set (env : gmap jsstring jsstring) (names : list jsstring) : bool :=
  forallb (fun name => Host.set (env !! name)) names.

Definition secret_configured (env : gmap jsstring jsstring) : bool :=
  Host.set (env !! Str.lit "TELEGRAM_WEBHOOK_SECRET").

Definition secret_matches (env : gmap jsstring jsstring) (req : request) : bool :=
  bool_decide (Host.headers_get req (Str.lit "x-telegram-bot-api-secret-token")
               = env !! Str.lit "TELEGRAM_WEBHOOK_SECRET").

Definition passes_secret_gate (env : gmap jsstring jsstring) (req : request) : bool :=
  negb (secret_configured env) || secret_matches env req.

(** The conditions under which an invocation gets as far as reading the
    request body. *)
Definition reaches_parse (v : variant) (env : gmap jsstring jsstring)
    (req : request) : bool :=
  bool_decide (req_method req = Str.lit "POST")
  && all_set env (mandatory_at_start v)
  && passes_secret_gate env req.

(** What [mustEnv] throws for a name, and what the top-level [catch]
    logs for an exception. *)
Definition missing (v : variant) (name : jsstring) : exn :=
  match v with
  | First => Error (Str.lit "Missing env var: " ++ name)
  | Second => Error (Str.lit "Missing required environment variable: " ++ name)
  end.

Definition caught (v : variant) (e : exn) : event :=
  match v with
  | First => ConsoleError [LogExn e]
  | Second => ConsoleError [LogValue (VString (Str.lit "Webhook Error:")); LogExn e]
  end.

Definition method_not_allowed : response := Response (Str.lit "Method Not Allowed") 405.
Definition unauthorized : response := Response (Str.lit "Unauthorized") 401.
Definition ignored : response := Response Host.json_ok_ignored 200.
Definition success : response := Response Host.json_ok 200.

(** The outbound calls of a run, in order. *)
Fixpoint calls (t : list event) : list call :=
  match t with
  | [] => []
  | Fetch c :: t' => c :: calls t'
  | _ :: t' => calls t'
  end.

Definition is_send_call (c : call) : bool :=
  Str.starts_with (Str.lit "https://api.telegram.org") (call_url c).

Definition is_completion_call (c : call) : bool :=
  Str.starts_with (Str.lit "https://generativelanguage.googleapis.com") (call_url c).

(** [update?.message?.chat?.id] and [update?.message?.text]. *)
Definition chat_id (update : value) : value :=
  Val.opt_get (Val.opt_get (Val.opt_get update (Str.lit "message")) (Str.lit "chat"))
    (Str.lit "id").

Definition message_text (update : value) : value :=
  Val.opt_get (Val.opt_get update (Str.lit "message")) (Str.lit "text").

(** The first candidate's first content part's text field of a
    completion response. *)
Definition candidate_text (data : value) : value :=
  Val.opt_get
    (Val.opt_idx0
       (Val.opt_get
          (Val.opt_get (Val.opt_idx0 (Val.opt_get data (Str.lit "candidates")))
             (Str.lit "content"))
          (Str.lit "parts")))
    (Str.lit "text").

(** The system instruction and the user turn a completion call carries,
    the destination and text of a send call. *)
Definition system_instruction (c : call) : value :=
  Val.opt_get
    (Val.opt_idx0 (Val.opt_get (Val.opt_get (call_body c) (Str.lit "systemInstruction"))
                     (Str.lit "parts")))
    (Str.lit "text").

Definition sent_chat (c : call) : value := Val.opt_get (call_body c) (Str.lit "chat_id").
Definition sent_text (c : call) : value := Val.opt_get (call_body c) (Str.lit "text").

(** The completion call for a credential, model, resolved prompt and user
    text, and the send call for a credential, chat and text, as section 6
    of the specification describes them. *)
Definition completion_request (apiKey model prompt : jsstring) (userText : value) : call :=
  Call (Str.lit "https://generativelanguage.googleapis.com/v1beta/models/" ++ model
          ++ Str.lit ":generateContent?key=" ++ apiKey)
    (Str.lit "POST")
    [(Str.lit "content-type", Str.lit "application/json")]
    (VObject
       [(Str.lit "systemInstruction",
          VObject [(Str.lit "parts", VArray [VObject [(Str.lit "text", VString prompt)]])]);
        (Str.lit "contents",
          VArray [VObject [(Str.lit "role", VString (Str.lit "user"));
                           (Str.lit "parts", VArray [VObject [(Str.lit "text", userText)]])]]);
        (Str.lit "generationConfig",
          VObject [(Str.lit "responseMimeType", VString (Str.lit "application/json"));
                   (Str.lit "temperature",
                     VNumber (S754_finite false 5404319552844595 (-53)))])]).

Definition send_request (botToken : jsstring) (chatId : value) (text : jsstring) : call :=
  Call (Str.lit "https://api.telegram.org/bot" ++ botToken ++ Str.lit "/sendMessage")
    (Str.lit "POST")
    [(Str.lit "content-type", Str.lit "application/json")]
    (VObject [(Str.lit "chat_id", chatId);
              (Str.lit "text", VString text);
              (Str.lit "disable_web_page_preview", VBool true)]).

(** The values of the configuration as the handler resolves them. *)
Definition setting (env : gmap jsstring jsstring) (name : jsstring) : jsstring :=
  default [] (env !! name).

Definition booking_link (env : gmap jsstring jsstring) : jsstring :=
  Host.or_default (env !! Str.lit "BOOKING_LINK") (Str.lit "https://calendly.com/your-link").

Definition model (env : gmap jsstring jsstring) : jsstring :=
  Host.or_default (env !! Str.lit "GEMINI_MODEL") (Str.lit "gemini-2.5-flash").

(** The reply the handler derives from a completion result. *)
Definition reply_text (v : variant) (ai : value) : jsstring :=
  match Val.opt_get ai (Str.lit "reply_text") with
  | VString s => if Val.truthy (VString (Str.trim s)) then Str.trim s else fallback v
  | _ => fallback v
  end.

(** The two calls of a complete run for an update. *)
Definition completion_call (v : variant) (env : gmap jsstring jsstring)
    (userText : value) : call :=
  completion_request (setting env (completion_key v)) (model env)
    (Str.replaceAll (setting env (Str.lit "AI_SYSTEM_PROMPT"))
       (Str.lit "{{BOOKING_LINK}}") (booking_link env))
    userText.

Definition send_call (v : variant) (env : gmap jsstring jsstring)
    (update ai : value) : call :=
  send_request (setting env (Str.lit "TELEGRAM_BOT_TOKEN")) (chat_id update)
    (reply_text v ai).

(** The ways a reply of the completion service makes the completion step
    fail: an exception, a non-success status, a body that cannot be read
    or is not JSON, no text, text that is not JSON. *)
Inductive completion_failure (h : host) : exn + http_response -> Prop :=
| failure_exception e :
    completion_failure h (inl e)
| failure_status res :
    Host.ok res = false ->
    completion_failure h (inr res)
| failure_body res e :
    Host.ok res = true -> res_body res = inl e ->
    completion_failure h (inr res)
| failure_body_json res s :
    Host.ok res = true -> res_body res = inr s ->
    JSON_parse h (VString s) = None ->
    completion_failure h (inr res)
| failure_no_text res s data :
    Host.ok res = true -> res_body res = inr s ->
    JSON_parse h (VString s) = Some data ->
    Val.truthy (candidate_text data) = false ->
    completion_failure h (inr res)
| failure_text_json res s data :
    Host.ok res = true -> res_body res = inr s ->
    JSON_parse h (VString s) = Some data ->
    Val.truthy (candidate_text data) = true ->
    JSON_parse h (candidate_text data) = None ->
    completion_failure h (inr res).

(** A reply whose text is the valid JSON [ai]. *)
Inductive completion_yields (h : host) : exn + http_response -> value -> Prop :=
| yields_json res s data ai :
    Host.ok res = true -> res_body res = inr s ->
    JSON_parse h (VString s) = Some data ->
    Val.truthy (candidate_text data) = true ->
    JSON_parse h (candidate_text data) = Some ai ->
    completion_yields h (inr res) ai.

(** A success reply whose text is [raw], present but not JSON. *)
Inductive completion_garbage (h : host) : exn + http_response -> value -> Prop :=
| garbage_text res s data :
    Host.ok res = true -> res_body res = inr s ->
    JSON_parse h (VString s) = Some data ->
    Val.truthy (candidate_text data) = true ->
    JSON_parse h (candidate_text data) = None ->
    completion_garbage h (inr res) (candidate_text data).

(** The placeholder of the system instruction template. *)
Definition placeholder : jsstring := Str.lit "{{BOOKING_LINK}}".

(** Left-to-right substitution of [rep] for every occurrence of [pat]:
    [skip] counts the code units of a replaced occurrence still to pass. *)
Fixpoint scan (pat rep : jsstring) (skip : nat) (s : jsstring) : jsstring :=
  match s with
  | [] => []
  | c :: s' =>
    match skip with
    | S k => scan pat rep k s'
    | O =>
      if Str.starts_with pat s
      then rep ++ scan pat rep (length pat - 1) s'
      else c :: scan pat rep 0 s'
    end
  end.

Definition substitute_every (pat rep s : jsstring) : jsstring := scan pat rep 0 s.

(** [pat] occurs somewhere in [s]. *)
Definition occurs_in (pat s : jsstring) : Prop := exists l r, s = l ++ pat ++ r.

(** The pieces of a text glued with a separator between them. *)
Fixpoint join (sep : jsstring) (pieces : list jsstring) : jsstring :=
  match pieces with
  | [] => []
  | [x] => x
  | x :: rest => x ++ sep ++ join sep rest
  end.

(** A replacement value holds one of the references [$$], [$&], [$`],
    [$']. *)
Fixpoint has_reference (template : jsstring) : bool :=
  match template with
  | [] => false
  | c :: rest =>
    match rest with
    | d :: _ =>
      ((c =? Str.dollar)%N
       && ((d =? Str.dollar) || (d =? Str.ampersand)
           || (d =? Str.backtick) || (d =? Str.apostrophe))%N)
      || has_reference rest
    | [] => false
    end
  end.

(** A booking link and the placeholder can be laid over one another:
    one occurs in the other (the empty link occurs in every text), or a
    non-empty end of one is the start of the other. *)
Definition overlap (link pat : jsstring) : Prop :=
  occurs_in pat link
  \/ occurs_in link pat
  \/ (exists e, e <> [] /\ e `suffix_of` pat /\ e `prefix_of` link)
  \/ (exists e, e <> [] /\ e `suffix_of` link /\ e `prefix_of` pat).

(** The same as a test: from some position of [a] on, one of [a] and [b]
    reads as the start of the other. *)
Definition laps (a b : jsstring) : bool :=
  existsb (fun k => Str.starts_with (drop k a) b || Str.starts_with b (drop k a))
    (seq 0 (length a)).

Definition overlapb (link pat : jsstring) : bool := laps pat link || laps link pat.

(** [t] is [s] without its leading and trailing white space. *)
Definition stripped (s t : jsstring) : Prop :=
  exists l r,
    s = l ++ t ++ r
    /\ forallb Str.is_white_space l = true
    /\ forallb Str.is_white_space r = true
    /\ (forall c, head t = Some c -> Str.is_white_space c = false)
    /\ (forall c, last t = Some c -> Str.is_white_space c = false).

(** Two outbound calls that agree, or are the same send call except that
    each carries the fallback text of its variant. *)
Definition calls_agree (c1 c2 : call) : Prop :=
  c1 = c2
  \/ exists botToken chatId,
       c1 = send_request botToken chatId (fallback First)
       /\ c2 = send_request botToken chatId (fallback Second).

End Spec.

(** ** Concrete environments, requests and hosts *)

Module Samples.

Definition q (s : String.string) : jsstring := Str.quoted (Str.lit s).

(** A string literal's content with quotes and backslashes escaped. *)
Fixpoint escaped (s : jsstring) : jsstring :=
  match s with
  | [] => []
  | c :: s' =>
    if ((c =? 34) || (c =? 92))%N then 92%N :: c :: escaped s' else c :: escaped s'
  end.

(** The body of a completion response whose first candidate's first part
    has the given text, and the value it parses to. *)
Definition completion_body (text : jsstring) : jsstring :=
  Str.lit "{" ++ q "candidates" ++ Str.lit ":[{" ++ q "content" ++ Str.lit ":{"
    ++ q "parts" ++ Str.lit ":[{" ++ q "text" ++ Str.lit ":"
    ++ Str.quoted (escaped text) ++ Str.lit "}]}}]}".

Definition completion_data (text : jsstring) : value :=
  VObject [(Str.lit "candidates",
    VArray [VObject [(Str.lit "content",
      VObject [(Str.lit "parts",
        VArray [VObject [(Str.lit "text", VString text)]])])]])].

(** A completion result [{"reply_text": r}] as text and as value. *)
Definition reply_json (r : jsstring) : jsstring :=
  Str.lit "{" ++ q "reply_text" ++ Str.lit ":" ++ Str.quoted (escaped r) ++ Str.lit "}".

Definition reply_value (r : jsstring) : value :=
  VObject [(Str.lit "reply_text", VString r)].

Definition greeting : jsstring := Str.lit "Hi! How can I help?".
Definition padded : jsstring := Str.lit "  Hello there  ".
Definition garbage : jsstring := Str.lit "Sure, here is your answer".

(** [JSON.parse] on the texts the examples use; any other text is taken
    as malformed. *)
Definition parse_table : list (jsstring * value) :=
  [(reply_json greeting, reply_value greeting);
   (reply_json padded, reply_value padded);
   (Str.lit "{}", VObject []);
   (completion_body (reply_json greeting), completion_data (reply_json greeting));
   (completion_body (reply_json padded), completion_data (reply_json padded));
   (completion_body (Str.lit "{}"), completion_data (Str.lit "{}"));
   (completion_body garbage, completion_data garbage)].

Fixpoint lookup_text (s : jsstring) (table : list (jsstring * value)) : option value :=
  match table with
  | [] => None
  | (s', v) :: table' => if decide (s = s') then Some v else lookup_text s table'
  end.

Definition parse (v : value) : option value :=
  match v with
  | VString s => lookup_text s parse_table
  | _ => None
  end.

(** A host whose completion service answers every call with [reply] and
    whose messaging platform accepts every message. *)
Definition host_with (reply : exn + http_response) : host :=
  Host parse
    (fun c =>
       if Spec.is_completion_call c then reply
       else inr (HttpResponse 200 (inr (Str.lit "{" ++ q "ok" ++ Str.lit ":true}")))).

Definition answering (text : jsstring) : host :=
  host_with (inr (HttpResponse 200 (inr (completion_body text)))).

Definition overloaded : host :=
  host_with (inr (HttpResponse 503 (inr (Str.lit "overloaded")))).

Definition template : jsstring := Str.lit "You are Jim. Book a call: {{BOOKING_LINK}}".
Definition token : jsstring := Str.lit "123:abc".
Definition key : jsstring := Str.lit "k-1".
Definition secret : jsstring := Str.lit "s3cret".

(** An environment configured for the first variant, one for both, one
    for both with the inbound secret, and one without the template. *)
Definition env_first : gmap jsstring jsstring :=
  list_to_map [(Str.lit "TELEGRAM_BOT_TOKEN", token);
               (Str.lit "GEMINI_API_KEY", key);
               (Str.lit "AI_SYSTEM_PROMPT", template)].

Definition env_both : gmap jsstring jsstring :=
  <[Str.lit "JIM_API_KEY" := key]> env_first.

Definition env_secret : gmap jsstring jsstring :=
  <[Str.lit "TELEGRAM_WEBHOOK_SECRET" := secret]> env_both.

Definition env_no_template : gmap jsstring jsstring :=
  delete (Str.lit "AI_SYSTEM_PROMPT") env_both.

(** The update [{message: {chat: {id: 42}, text: "hi"}}] and variations. *)
Definition update (chatId text : value) : value :=
  VObject [(Str.lit "message",
    VObject [(Str.lit "chat", VObject [(Str.lit "id", chatId)]);
             (Str.lit "text", text)])].

Definition update_hi : value := update (VNumber (Val.num 42)) (VString (Str.lit "hi")).

(** A photo message: a chat but no text. *)
Definition update_photo : value :=
  VObject [(Str.lit "message",
    VObject [(Str.lit "chat", VObject [(Str.lit "id", VNumber (Val.num 42))]);
             (Str.lit "photo", VArray [])])].

Definition post (u : value) : request := Request (Str.lit "POST") ∅ (inr u).
Definition get (u : value) : request := Request (Str.lit "GET") ∅ (inr u).

Definition post_with_secret (s : jsstring) (u : value) : request :=
  Request (Str.lit "POST")
    {[Str.lit "x-telegram-bot-api-secret-token" := s]} (inr u).

End Samples.

(** ** What the handler makes of the replies *)

Module Outcome.

(** The texts of the errors the two variants throw. *)
Definition status_prefix (v : Spec.variant) : jsstring :=
  match v with
  | Spec.First => Str.lit "Gemini failed: "
  | Spec.Second => Str.lit "Gemini API failed: "
  end.

Definition no_text (v : Spec.variant) : jsstring :=
  match v with
  | Spec.First => Str.lit "Gemini returned no text."
  | Spec.Second => Str.lit "Gemini returned empty response."
  end.

(** The error for a non-success reply: prefix, status, a space, the body. *)
Definition status_error (prefix : jsstring) (res : http_response) (body : jsstring) : exn :=
  Error (prefix ++ Str.of_N (res_status res) ++ Str.lit " " ++ body).

(** What [telegramSendMessage] makes of the platform's reply. *)
Definition delivery (reply : exn + http_response) : exn + unit :=
  match reply with
  | inl e => inl e
  | inr res =>
    if Host.ok res then inr tt
    else match res_body res with
         | inl e => inl e
         | inr body => inl (status_error (Str.lit "Telegram sendMessage failed: ") res body)
         end
  end.

(** What [callGemini] makes of the service's reply: its result, and what
    it logs on the way. *)
Definition completion (v : Spec.variant) (h : host) (reply : exn + http_response)
    : (exn + value) * list event :=
  match reply with
  | inl e => (inl e, [])
  | inr res =>
    match res_body res with
    | inl e => (inl e, [])
    | inr body =>
      if Host.ok res then
        match JSON_parse h (VString body) with
        | None => (inl SyntaxError, [])
        | Some data =>
          if Val.truthy (Spec.candidate_text data) then
            match JSON_parse h (Spec.candidate_text data), v with
            | Some ai, _ => (inr ai, [])
            | None, Spec.First => (inl SyntaxError, [])
            | None, Spec.Second =>
              (inl (Error (Str.lit "Gemini returned malformed JSON.")),
               [ConsoleError [LogValue (VString (Str.lit "Invalid JSON from Gemini:"));
                              LogValue (Spec.candidate_text data)]])
            end
          else (inl (Error (no_text v)), [])
        end
      else (inl (status_error (status_prefix v) res body), [])
    end
  end.

(** The events of a run after the body was read, for an update with
    usable chat and text under a complete configuration. *)
Definition relay (v : Spec.variant) (h : host) (env : gmap jsstring jsstring)
    (update : value) : list event :=
  let c := Spec.completion_call v env (Spec.message_text update) in
  let outcome := completion v h (remote h c) in
  Fetch c :: snd outcome ++
  match fst outcome with
  | inl e => [Spec.caught v e]
  | inr ai =>
    Fetch (Spec.send_call v env update ai) ::
    match delivery (remote h (Spec.send_call v env update ai)) with
    | inl e => [Spec.caught v e]
    | inr _ => []
    end
  end.

(** The response as a table over the request and the environment. *)
Definition response (v : Spec.variant) (env : gmap jsstring jsstring)
    (req : request) : response :=
  if negb (bool_decide (req_method req = Str.lit "POST")) then Spec.method_not_allowed
  else if negb (Spec.all_set env (Spec.mandatory_at_start v)) then Spec.success
  else if negb (Spec.passes_secret_gate env req) then Spec.unauthorized
  else match req_json req with
       | inl _ => Spec.success
       | inr update =>
         if Val.truthy (Spec.chat_id update) && Val.truthy (Spec.message_text update)
         then Spec.success
         else Spec.ignored
       end.

(** An environment entry as the handler sees it: empty is unset. *)
Definition effective (o : option jsstring) : option jsstring :=
  match o with
  | Some (c :: s) => Some (c :: s)
  | _ => None
  end.

(** A run without a log entry. *)
Definition silent (t : list event) : Prop := forall args, ConsoleError args ∉ t.

(** The user turns of a completion call. *)
Definition contents (c : call) : value := Val.opt_get (call_body c) (Str.lit "contents").

(** The headers every outbound call carries. *)
Definition json_headers : list (jsstring * jsstring) :=
  [(Str.lit "content-type", Str.lit "application/json")].

End Outcome.

(** ** More hosts and requests *)

Module Cases.

(** The completion service answers with a greeting; the messaging
    platform refuses the message. *)
Definition blocked : host :=
  Host Samples.parse
    (fun c =>
       if Spec.is_completion_call c
       then inr (HttpResponse 200
                   (inr (Samples.completion_body (Samples.reply_json Samples.greeting))))
       else inr (HttpResponse 403 (inr (Str.lit "Forbidden: bot was blocked by the user")))).

(** The completion service answers 200 with the body [{}]. *)
Definition speechless : host :=
  Samples.host_with (inr (HttpResponse 200 (inr (Str.lit "{}")))).

(** The completion service cannot be reached: [fetch] rejects. *)
Definition unreachable : host :=
  Samples.host_with (inl (HostError (Str.lit "fetch failed"))).

(** A POST whose body is not JSON. *)
Definition post_unreadable : request := Request (Str.lit "POST") ∅ (inl SyntaxError).

(** A template without the placeholder. *)
Definition plain_template : jsstring := Str.lit "You are Jim. Keep it short.".

(** A booking link that shares letters with the placeholder, and an
    environment that sets it. *)
Definition named_link : jsstring := Str.lit "https://calendly.com/Bob".

Definition env_named : gmap jsstring jsstring :=
  <[Str.lit "BOOKING_LINK" := named_link]> Samples.env_both.

(** A booking link that holds the placeholder, and an environment with
    that link and a template of one line. *)
Definition looping_link : jsstring := Str.lit "https://x.example/{{BOOKING_LINK}}".

Definition env_looping : gmap jsstring jsstring :=
  <[Str.lit "BOOKING_LINK" := looping_link]>
    (<[Str.lit "AI_SYSTEM_PROMPT" := Str.lit "Book a call: {{BOOKING_LINK}}"]>
       Samples.env_both).

End Cases.

(** * Properties *)

Import Spec.

(** ** Substitution in strings *)

Section Strings.
Implicit Types (p pat rep s q : jsstring).

Lemma starts_with_spec p s : Str.starts_with p s = true <-> exists k, s = p ++ k.
Proof.
  revert s; induction p as [|a p IH]; intros s; simpl.
  - split; eauto.
  - destruct s as [|b s]; [split; [done|intros [k Hk]; done]|].
    rewrite andb_true_iff, N.eqb_eq, IH. split.
    + intros [-> [k ->]]. eauto.
    + intros [k Hk]. simplify_eq. eauto.
Qed.

Lemma starts_with_length p s : Str.starts_with p s = true -> length p <= length s.
Proof. intros [k ->]%starts_with_spec. rewrite length_app. lia. Qed.

Lemma scan_skip pat rep k s : scan pat rep k s = scan pat rep 0 (drop k s).
Proof.
  revert k; induction s as [|c s IH]; intros [|k]; try reflexivity.
  simpl. apply IH.
Qed.

Lemma substitute_every_nil pat rep : substitute_every pat rep [] = [].
Proof. reflexivity. Qed.

Lemma substitute_every_hit pat rep s :
  pat <> [] -> Str.starts_with pat s = true ->
  substitute_every pat rep s = rep ++ substitute_every pat rep (drop (length pat) s).
Proof.
  intros Hpat Hs. unfold substitute_every.
  destruct s as [|c s].
  - destruct pat; done.
  - cbn [scan]. rewrite Hs, scan_skip. f_equal.
    destruct pat as [|a pat]; [done|]. simpl. by rewrite Nat.sub_0_r.
Qed.

Lemma substitute_every_miss pat rep c s :
  Str.starts_with pat (c :: s) = false ->
  substitute_every pat rep (c :: s) = c :: substitute_every pat rep s.
Proof. intros Hs. unfold substitute_every. cbn [scan]. by rewrite Hs. Qed.

Lemma find_None pat rep s : Str.find pat s = None -> substitute_every pat rep s = s.
Proof.
  induction s as [|c s IH]; [done|].
  cbn [Str.find]. destruct (Str.starts_with pat (c :: s)) eqn:Hs; [done|].
  destruct (Str.find pat s); [done|]. intros _.
  rewrite substitute_every_miss by done. by rewrite IH.
Qed.

Lemma find_Some pat rep s k :
  pat <> [] -> Str.find pat s = Some k ->
  k + length pat <= length s
  /\ substitute_every pat rep s
     = take k s ++ rep ++ substitute_every pat rep (drop (k + length pat) s).
Proof.
  intros Hpat. revert k; induction s as [|c s IH]; intros k.
  - cbn [Str.find]. destruct (Str.starts_with pat []) eqn:Hs; [|done].
    destruct pat; done.
  - cbn [Str.find]. destruct (Str.starts_with pat (c :: s)) eqn:Hs.
    + intros [= <-]. split; [by apply starts_with_length|].
      by rewrite substitute_every_hit.
    + destruct (Str.find pat s) as [k'|] eqn:Hf; [|done]. intros [= <-].
      destruct (IH k' eq_refl) as [Hle Heq]. split; [simpl; lia|].
      rewrite substitute_every_miss by done. rewrite Heq. reflexivity.
Qed.

(** [find] returns the first occurrence: the text splits there, and
    the pattern does not occur before it. *)
Lemma find_Some_split pat s k :
  pat <> [] -> Str.find pat s = Some k ->
  s = take k s ++ pat ++ drop (k + length pat) s
  /\ ~ occurs_in pat (take k s).
Proof.
  intros Hpat. revert k; induction s as [|c s IH]; intros k.
  - cbn [Str.find]. destruct (Str.starts_with pat []) eqn:Hs; [|done].
    destruct pat; done.
  - cbn [Str.find]. destruct (Str.starts_with pat (c :: s)) eqn:Hs.
    + intros [= <-]. apply starts_with_spec in Hs as [r Hr]. split.
      * rewrite Hr at 1. cbn [take app Nat.add]. f_equal.
        by rewrite Hr, drop_app_length.
      * intros (l & r' & Hocc). destruct l, pat; done.
    + destruct (Str.find pat s) as [k'|] eqn:Hf; [|done]. intros [= <-].
      destruct (IH k' eq_refl) as [Hsplit Hfree]. split.
      * cbn [take app Nat.add drop]. by rewrite <- Hsplit.
      * intros (l & r & Hocc). cbn [take] in Hocc. destruct l as [|a l].
        -- assert (Str.starts_with pat (c :: s) = true); [|congruence].
           apply starts_with_spec. exists (r ++ drop k' s).
           rewrite <- (take_drop k' s) at 1.
           change (c :: take k' s ++ drop k' s) with ((c :: take k' s) ++ drop k' s).
           rewrite Hocc. cbn [app]. by rewrite <- app_assoc.
        -- injection Hocc as _ Hocc. apply Hfree. by exists l, r.
Qed.

Lemma find_None_free pat s : Str.find pat s = None -> ~ occurs_in pat s.
Proof.
  induction s as [|c s IH]; cbn [Str.find];
    destruct (Str.starts_with pat _) eqn:Hs; try done.
  - intros _ (l & r & Hocc).
    assert (Str.starts_with pat [] = true); [|congruence].
    apply starts_with_spec. destruct l, pat; done.
  - destruct (Str.find pat s) eqn:Hf; [done|]. intros _ (l & r & Hocc).
    destruct l as [|a l].
    + assert (Str.starts_with pat (c :: s) = true); [|congruence].
      apply starts_with_spec. by exists r.
    + injection Hocc as _ Hocc. apply IH; [done|]. by exists l, r.
Qed.

(** Substituting for every occurrence is cutting the text at the
    occurrences, into pieces free of the pattern, and gluing the pieces
    with the replacement. *)
Lemma substitute_every_pieces pat rep s :
  pat <> [] ->
  exists pieces,
    s = join pat pieces
    /\ Forall (fun piece => ~ occurs_in pat piece) pieces
    /\ substitute_every pat rep s = join rep pieces.
Proof.
  intros Hpat.
  remember (length s) as n eqn:Hn. revert s Hn.
  induction n as [n IH] using lt_wf_ind. intros s ->.
  destruct (Str.find pat s) as [k|] eqn:Hf.
  - destruct (find_Some pat rep s k Hpat Hf) as [Hle Heq].
    destruct (find_Some_split pat s k Hpat Hf) as [Hsplit Hfree].
    destruct (IH (length (drop (k + length pat) s))) with (s := drop (k + length pat) s)
      as (pieces & Hs & Hall & Hsub); [|done|].
    { rewrite length_drop. destruct pat; [done|]. simpl in *. lia. }
    destruct pieces as [|piece pieces].
    + exists [take k s; []]. cbn [join] in *. split; [|split].
      * rewrite Hsplit at 1. by rewrite Hs.
      * repeat constructor; [done|]. intros (l & r & Hocc). destruct l, pat; done.
      * by rewrite Heq, Hsub.
    + exists (take k s :: piece :: pieces).
      change (join pat (take k s :: piece :: pieces))
        with (take k s ++ pat ++ join pat (piece :: pieces)).
      change (join rep (take k s :: piece :: pieces))
        with (take k s ++ rep ++ join rep (piece :: pieces)).
      rewrite <- Hs, <- Hsub. split; [done|]. split; [|done].
      by constructor.
  - exists [s]. cbn [join]. split; [done|]. split.
    + constructor; [|constructor]. by apply find_None_free.
    + by apply (find_None pat rep).
Qed.

Lemma GetSubstitution_plain matched str position template :
  has_reference template = false ->
  Str.GetSubstitution matched str position template = template.
Proof.
  induction template as [|c rest IH]; [done|].
  cbn [has_reference Str.GetSubstitution].
  destruct rest as [|d rest'].
  - intros _. by destruct (c =? Str.dollar)%N.
  - intros [H1 H2]%orb_false_iff. specialize (IH H2).
    destruct (c =? Str.dollar)%N; [|by rewrite IH].
    cbn [andb] in H1. repeat apply orb_false_iff in H1 as [H1 ?].
    rewrite H1. repeat match goal with H : (d =? _)%N = false |- _ => rewrite H; clear H end.
    by rewrite IH.
Qed.

Lemma replace_loop s pat rep fuel pos r :
  pat <> [] -> has_reference rep = false ->
  pos <= length s -> length s - pos < fuel ->
  Str.replace_rest s (fold_left (Str.replace_step s pat rep)
              (Str.matchPositions fuel s pat (Nat.max 1 (length pat)) pos) (pos, r))
  = r ++ substitute_every pat rep (drop pos s).
Proof.
  intros Hpat Hrep. revert pos r; induction fuel as [|fuel IH]; intros pos r Hpos Hfuel; [lia|].
  cbn [Str.matchPositions]. unfold Str.StringIndexOf.
  destruct (Nat.leb_spec pos (length s)) as [_|]; [|lia].
  destruct (Str.find pat (drop pos s)) as [k|] eqn:Hf; cbn [option_map].
  - destruct (find_Some pat rep _ k Hpat Hf) as [Hle Heq].
    rewrite length_drop in Hle.
    assert (Hn : 1 <= length pat).
    { destruct pat; [done|]. simpl. lia. }
    cbn [fold_left]. unfold Str.replace_step at 2. cbn [fst snd].
    rewrite GetSubstitution_plain by done.
    replace (pos + k + Nat.max 1 (length pat)) with (pos + k + length pat) by lia.
    rewrite IH by lia.
    rewrite Heq, drop_drop. unfold Str.substring.
    replace (pos + k - pos) with k by lia.
    rewrite <- !app_assoc. by rewrite Nat.add_assoc.
  - cbn [fold_left]. unfold Str.replace_rest. cbn [fst snd].
    rewrite (find_None _ _ _ Hf). unfold Str.substring.
    destruct (Nat.ltb_spec pos (length s)).
    + rewrite take_ge; [done|]. rewrite length_drop. lia.
    + rewrite drop_ge by lia. by rewrite app_nil_r.
Qed.

Lemma replaceAll_substitute s pat rep :
  pat <> [] -> has_reference rep = false ->
  Str.replaceAll s pat rep = substitute_every pat rep s.
Proof.
  intros Hpat Hrep. unfold Str.replaceAll.
  change (Str.replace_rest s (fold_left (Str.replace_step s pat rep)
            (Str.matchPositions (S (length s)) s pat (Nat.max 1 (length pat)) 0) (0, []))
          = substitute_every pat rep s).
  rewrite replace_loop by (done || lia). reflexivity.
Qed.

Lemma StringIndexOf_bounds s p from i :
  Str.StringIndexOf s p from = Some i -> from <= i /\ from <= length s.
Proof.
  unfold Str.StringIndexOf. destruct (Nat.leb_spec from (length s)); [|done].
  destruct (Str.find p (drop from s)); [|done]. intros [= <-]. lia.
Qed.

(** The search loop never runs out of rounds: any larger [fuel] finds the
    same positions. *)
Lemma matchPositions_enough s p advanceBy fuel fuel' pos :
  1 <= advanceBy -> S (length s) - pos <= fuel -> fuel <= fuel' ->
  Str.matchPositions fuel s p advanceBy pos = Str.matchPositions fuel' s p advanceBy pos.
Proof.
  intros Hadv. revert fuel' pos.
  induction fuel as [|fuel IH]; intros fuel' pos Hfuel Hle.
  - destruct fuel' as [|fuel']; [done|]. cbn [Str.matchPositions].
    destruct (Str.StringIndexOf s p pos) as [i|] eqn:Hi; [|done].
    apply StringIndexOf_bounds in Hi. lia.
  - destruct fuel' as [|fuel']; [lia|]. cbn [Str.matchPositions].
    destruct (Str.StringIndexOf s p pos) as [i|] eqn:Hi; [|done].
    apply StringIndexOf_bounds in Hi. f_equal. apply IH; lia.
Qed.

Lemma starts_with_prefix p s : Str.starts_with p s = true <-> p `prefix_of` s.
Proof. apply starts_with_spec. Qed.

Lemma laps_at a b k :
  k < length a ->
  drop k a `prefix_of` b \/ b `prefix_of` drop k a ->
  laps a b = true.
Proof.
  intros Hk Hc. unfold laps. apply existsb_exists. exists k. split.
  - apply in_seq. lia.
  - apply orb_true_iff. by rewrite !starts_with_prefix.
Qed.

Lemma overlap_overlapb link pat : pat <> [] -> overlap link pat -> overlapb link pat = true.
Proof.
  intros Hpat Ho. unfold overlapb. apply orb_true_iff.
  destruct Ho as [(l & r & ->)|[(l & r & ->)|[(e & He & [a ->] & Hpre)|(e & He & [a ->] & Hpre)]]].
  - right. apply (laps_at _ _ (length l)).
    + rewrite !length_app. destruct pat; [done|]. simpl. lia.
    + right. rewrite drop_app_length. by exists r.
  - left. destruct link as [|c link].
    + apply (laps_at _ _ 0); [|right; apply prefix_nil].
      destruct l, r; try done; simpl; lia.
    + apply (laps_at _ _ (length l)).
      * rewrite !length_app. simpl. lia.
      * right. rewrite drop_app_length. by exists r.
  - left. apply (laps_at _ _ (length a)).
    + rewrite length_app. destruct e; [done|]. simpl. lia.
    + left. by rewrite drop_app_length.
  - right. apply (laps_at _ _ (length a)).
    + rewrite length_app. destruct e; [done|]. simpl. lia.
    + left. by rewrite drop_app_length.
Qed.

Lemma overlapb_false link pat : pat <> [] -> overlapb link pat = false -> ~ overlap link pat.
Proof. intros Hpat Hb Ho. by rewrite (overlap_overlapb link pat Hpat Ho) in Hb. Qed.

(** An occurrence of the pattern in two texts glued with the replacement
    lies in one of the texts, or lies over the replacement. *)
Lemma glued_free pat rep x R :
  ~ overlap rep pat ->
  ~ occurs_in pat x -> ~ occurs_in pat R ->
  ~ occurs_in pat (x ++ rep ++ R).
Proof.
  intros Hov Hx HR (l & r & Hocc).
  destruct (decide (length l + length pat <= length x)) as [Hin|Hout].
  { (* the occurrence lies in [x] *)
    apply Hx. exists l, (drop (length l + length pat) x).
    apply (f_equal (take (length l + length pat))) in Hocc.
    rewrite take_app_le in Hocc by done.
    rewrite (app_assoc l), take_app_length' in Hocc by (rewrite length_app; lia).
    rewrite (app_assoc l), <- Hocc. by rewrite take_drop. }
  destruct (decide (length x + length rep <= length l)) as [Hin|Hout'].
  { (* the occurrence lies in [R] *)
    apply HR. exists (drop (length x + length rep) l), r.
    apply (f_equal (drop (length x + length rep))) in Hocc.
    rewrite (drop_app_le l) in Hocc by done.
    rewrite (app_assoc x), drop_app_length' in Hocc by (rewrite length_app; lia).
    done. }
  destruct (decide (length x <= length l)) as [Hge|Hlt].
  - (* the occurrence starts inside the replacement *)
    apply (f_equal (drop (length l))) in Hocc.
    rewrite (drop_app_length l) in Hocc.
    rewrite drop_app_ge in Hocc by done.
    rewrite drop_app_le in Hocc by lia.
    set (k := length l - length x) in *.
    destruct (prefix_weak_total pat (drop k rep) (drop k rep ++ R)) as [Hp|Hp].
    + rewrite Hocc. by exists r.
    + by exists R.
    + apply Hov. left. destruct Hp as [w Hw].
      exists (take k rep), w. by rewrite <- Hw, take_drop.
    + apply Hov. right; right; right. exists (drop k rep). split; [|split; [|done]].
      * intros Hnil. apply (f_equal length) in Hnil. rewrite length_drop in Hnil.
        simpl in Hnil. lia.
      * exists (take k rep). by rewrite take_drop.
  - (* the replacement starts inside the occurrence *)
    apply (f_equal (drop (length x))) in Hocc.
    rewrite (drop_app_length x) in Hocc.
    rewrite drop_app_ge in Hocc by lia.
    rewrite drop_app_le in Hocc by lia.
    set (k := length x - length l) in *.
    destruct (prefix_weak_total rep (drop k pat) (rep ++ R)) as [Hp|Hp].
    + by exists R.
    + rewrite Hocc. by exists r.
    + apply Hov. right; left. destruct Hp as [w Hw].
      exists (take k pat), w. by rewrite <- Hw, take_drop.
    + apply Hov. right; right; left. exists (drop k pat). split; [|split; [|done]].
      * intros Hnil. apply (f_equal length) in Hnil. rewrite length_drop in Hnil.
        simpl in Hnil. lia.
      * exists (take k pat). by rewrite take_drop.
Qed.

Lemma join_free pat rep pieces :
  pat <> [] -> ~ overlap rep pat ->
  Forall (fun piece => ~ occurs_in pat piece) pieces ->
  ~ occurs_in pat (join rep pieces).
Proof.
  intros Hpat Hov. induction pieces as [|x pieces IH]; intros Hall.
  - intros (l & r & Hocc). destruct l, pat; done.
  - apply Forall_cons in Hall as [Hx Hall]. destruct pieces as [|y pieces]; [done|].
    change (join rep (x :: y :: pieces)) with (x ++ rep ++ join rep (y :: pieces)).
    apply glued_free; auto.
Qed.

End Strings.

(** ** Trimming *)

Section Trimming.
Implicit Types (s t : jsstring).

Lemma trimStart_split s :
  exists l, s = l ++ Str.trimStart s /\ forallb Str.is_white_space l = true.
Proof.
  induction s as [|c s (l & Hl & Hws)]; [by exists []|].
  cbn [Str.trimStart]. destruct (Str.is_white_space c) eqn:Hc.
  - exists (c :: l). split; [simpl; by f_equal|]. simpl. by rewrite Hc.
  - by exists [].
Qed.

Lemma trimStart_head s c :
  head (Str.trimStart s) = Some c -> Str.is_white_space c = false.
Proof.
  induction s as [|d s IH]; [done|].
  cbn [Str.trimStart]. destruct (Str.is_white_space d) eqn:Hd; [done|].
  simpl. congruence.
Qed.

Lemma trimStart_nil s :
  Str.trimStart s = [] <-> forallb Str.is_white_space s = true.
Proof.
  induction s as [|d s IH]; [done|].
  cbn [Str.trimStart forallb]. destruct (Str.is_white_space d); simpl; [done|].
  split; done.
Qed.

Lemma forallb_rev (f : N -> bool) s : forallb f (rev s) = forallb f s.
Proof.
  induction s as [|c s IH]; [done|].
  simpl. rewrite forallb_app, IH. simpl. rewrite andb_true_r. apply andb_comm.
Qed.

Lemma trim_nil s : Str.trim s = [] <-> forallb Str.is_white_space s = true.
Proof.
  unfold Str.trim, Str.trimEnd.
  destruct (trimStart_split s) as (l & Hs & Hl).
  split.
  - intros H. apply (f_equal (@rev N)) in H. rewrite rev_involutive in H. simpl in H.
    apply trimStart_nil in H. rewrite forallb_rev in H.
    rewrite Hs, forallb_app, Hl, H. done.
  - intros H. rewrite Hs, forallb_app in H. apply andb_true_iff in H as [_ H].
    rewrite <- forallb_rev in H. apply trimStart_nil in H. by rewrite H.
Qed.

Lemma trim_stripped s : stripped s (Str.trim s).
Proof.
  unfold Str.trim, Str.trimEnd.
  destruct (trimStart_split s) as (l & Hs & Hl).
  destruct (trimStart_split (rev (Str.trimStart s))) as (r & Ht & Hr).
  set (u := Str.trimStart (rev (Str.trimStart s))) in *.
  assert (Ht' : Str.trimStart s = rev u ++ rev r).
  { rewrite <- rev_app_distr, <- Ht. by rewrite rev_involutive. }
  exists l, (rev r). repeat split.
  - by rewrite <- Ht'.
  - done.
  - by rewrite forallb_rev.
  - intros c Hc. apply (trimStart_head s). rewrite Ht'.
    destruct (rev u); [done|]. exact Hc.
  - intros c Hc. apply (trimStart_head (rev (Str.trimStart s))). fold u.
    rewrite <- Hc, rev_alt. symmetry. apply (last_reverse u).
Qed.

End Trimming.

(** ** Outcomes of the two outbound steps *)

(** Unfold the host operations and run the monad on what is known. *)
Ltac eff :=
  unfold Host.fetch, Host.text, Host.json, Host.parse, Host.request_json,
    Host.console_error, Eff.await, Eff.emit, Eff.ret, Eff.throw;
  cbn [Eff.bind Eff.try_catch negb andb orb app fst snd].

Section Steps.
Context (h : host).

Lemma failure_excludes_result reply ai :
  completion_failure h reply -> completion_yields h reply ai -> False.
Proof. intros Hf Hy. destruct Hy. inversion Hf; congruence. Qed.

Lemma result_unique reply ai ai' :
  completion_yields h reply ai -> completion_yields h reply ai' -> ai = ai'.
Proof. intros Hy Hy'. destruct Hy. inversion Hy'; congruence. Qed.

Lemma garbage_is_failure reply raw :
  completion_garbage h reply raw -> completion_failure h reply.
Proof. intros []. by eapply failure_text_json. Qed.

Lemma set_Some (o : option jsstring) :
  Host.set o = true -> exists c v, o = Some (c :: v).
Proof. destruct o as [[|c v]|]; simpl; try done. eauto. Qed.

Lemma mustEnv_first_set env name :
  Host.set (env !! name) = true ->
  V1.mustEnv env name = (inr (setting env name), []).
Proof. intros (c & v & E)%set_Some. unfold V1.mustEnv, setting. by rewrite E. Qed.

Lemma mustEnv_first_unset env name :
  Host.set (env !! name) = false ->
  V1.mustEnv env name = (inl (missing First name), []).
Proof. unfold V1.mustEnv. by destruct (env !! name) as [[|c v]|]. Qed.

Lemma mustEnv_second_set env name :
  Host.set (env !! name) = true ->
  V2.mustEnv env name = (inr (setting env name), []).
Proof. intros (c & v & E)%set_Some. unfold V2.mustEnv, setting. by rewrite E. Qed.

Lemma mustEnv_second_unset env name :
  Host.set (env !! name) = false ->
  V2.mustEnv env name = (inl (missing Second name), []).
Proof. unfold V2.mustEnv. by destruct (env !! name) as [[|c v]|]. Qed.

Lemma send_first tok chat text :
  exists r, V1.telegramSendMessage h tok chat text
            = (r, [Fetch (send_request tok chat text)]).
Proof.
  unfold V1.telegramSendMessage.
  change (Call _ _ _ _) with (send_request tok chat text). eff.
  destruct (remote h (send_request tok chat text)) as [e|res]; eff; [eauto|].
  destruct (Host.ok res); eff; [eauto|].
  destruct (res_body res); eff; eauto.
Qed.

Lemma send_second tok chat text :
  exists r, V2.telegramSendMessage h tok chat text
            = (r, [Fetch (send_request tok chat text)]).
Proof.
  unfold V2.telegramSendMessage.
  change (Call _ _ _ _) with (send_request tok chat text). eff.
  destruct (remote h (send_request tok chat text)) as [e|res]; eff; [eauto|].
  destruct (Host.ok res); eff; [eauto|].
  destruct (res_body res); eff; eauto.
Qed.

(** Close a branch of a completion client that ends in a failure. *)
Ltac failed_with lem :=
  split; [by eapply lem|]; intros ? Hg; inversion Hg; congruence.

(** The first variant's completion client issues exactly the completion
    call; it throws on a failing reply, and the parser's own exception
    on text that is not JSON. *)
Lemma callGemini_first key model sp text link :
  exists r,
    V1.callGemini h key model sp text link
    = (r, [Fetch (completion_request key model
                    (Str.replaceAll sp (Str.lit "{{BOOKING_LINK}}") link) text)])
    /\ match r with
       | inl e =>
         completion_failure h
           (remote h (completion_request key model
                        (Str.replaceAll sp (Str.lit "{{BOOKING_LINK}}") link) text))
         /\ forall raw,
              completion_garbage h
                (remote h (completion_request key model
                             (Str.replaceAll sp (Str.lit "{{BOOKING_LINK}}") link) text)) raw ->
              e = SyntaxError
       | inr ai =>
         completion_yields h
           (remote h (completion_request key model
                        (Str.replaceAll sp (Str.lit "{{BOOKING_LINK}}") link) text)) ai
       end.
Proof.
  set (c := completion_request _ _ _ _).
  unfold V1.callGemini.
  change (Call _ _ _ _) with c. eff.
  destruct (remote h c) as [e|res] eqn:Hr; eff.
  { eexists; split; [done|]. failed_with failure_exception. }
  destruct (Host.ok res) eqn:Hok; eff.
  2:{ destruct (res_body res); eff; (eexists; split; [done|]);
        failed_with failure_status. }
  destruct (res_body res) as [e|s] eqn:Hb; eff.
  { eexists; split; [done|]. failed_with failure_body. }
  destruct (JSON_parse h (VString s)) as [data|] eqn:Hd; eff.
  2:{ eexists; split; [done|]. failed_with failure_body_json. }
  fold (candidate_text data).
  destruct (Val.truthy (candidate_text data)) eqn:Ht; eff.
  2:{ eexists; split; [done|]. failed_with failure_no_text. }
  destruct (JSON_parse h (candidate_text data)) as [ai|] eqn:Ha; eff.
  - eexists; split; [done|]. by eapply yields_json.
  - eexists; split; [done|]. split; [by eapply failure_text_json|]. done.
Qed.

Lemma callGemini_second_unset env text link :
  Host.set (env !! Str.lit "JIM_API_KEY") && Host.set (env !! Str.lit "AI_SYSTEM_PROMPT") = false ->
  exists name, V2.callGemini h env text link = (inl (missing Second name), []).
Proof.
  intros H. unfold V2.callGemini.
  destruct (Host.set (env !! Str.lit "JIM_API_KEY")) eqn:Hk.
  - rewrite (mustEnv_second_set _ _ Hk), (mustEnv_second_unset _ _ H). eff. eauto.
  - rewrite (mustEnv_second_unset _ _ Hk). eff. eauto.
Qed.

(** The second variant's completion client, once its two settings are
    present: the same call and outcomes, except that text that is not
    JSON is logged and reported as a malformed-JSON error. *)
Lemma callGemini_second env text link :
  Host.set (env !! Str.lit "JIM_API_KEY") = true ->
  Host.set (env !! Str.lit "AI_SYSTEM_PROMPT") = true ->
  exists r t,
    V2.callGemini h env text link
    = (r, Fetch (completion_request (setting env (Str.lit "JIM_API_KEY")) (model env)
                   (Str.replaceAll (setting env (Str.lit "AI_SYSTEM_PROMPT"))
                      (Str.lit "{{BOOKING_LINK}}") link) text) :: t)
    /\ calls t = []
    /\ match r with
       | inl e =>
         completion_failure h
           (remote h (completion_request (setting env (Str.lit "JIM_API_KEY")) (model env)
                        (Str.replaceAll (setting env (Str.lit "AI_SYSTEM_PROMPT"))
                           (Str.lit "{{BOOKING_LINK}}") link) text))
         /\ forall raw,
              completion_garbage h
                (remote h (completion_request (setting env (Str.lit "JIM_API_KEY")) (model env)
                             (Str.replaceAll (setting env (Str.lit "AI_SYSTEM_PROMPT"))
                                (Str.lit "{{BOOKING_LINK}}") link) text)) raw ->
              e = Error (Str.lit "Gemini returned malformed JSON.")
              /\ t = [ConsoleError [LogValue (VString (Str.lit "Invalid JSON from Gemini:"));
                                    LogValue raw]]
       | inr ai =>
         completion_yields h
           (remote h (completion_request (setting env (Str.lit "JIM_API_KEY")) (model env)
                        (Str.replaceAll (setting env (Str.lit "AI_SYSTEM_PROMPT"))
                           (Str.lit "{{BOOKING_LINK}}") link) text)) ai
       end.
Proof.
  intros Hk Hp.
  set (c := completion_request _ _ _ _).
  unfold V2.callGemini.
  rewrite (mustEnv_second_set _ _ Hk), (mustEnv_second_set _ _ Hp). eff.
  fold (model env). change (Call _ _ _ _) with c.
  destruct (remote h c) as [e|res] eqn:Hr; eff.
  { do 2 eexists; split; [done|]. split; [done|]. failed_with failure_exception. }
  destruct (Host.ok res) eqn:Hok; eff.
  2:{ destruct (res_body res); eff; (do 2 eexists; split; [done|]); (split; [done|]);
        failed_with failure_status. }
  destruct (res_body res) as [e|s] eqn:Hb; eff.
  { do 2 eexists; split; [done|]. split; [done|]. failed_with failure_body. }
  destruct (JSON_parse h (VString s)) as [data|] eqn:Hd; eff.
  2:{ do 2 eexists; split; [done|]. split; [done|]. failed_with failure_body_json. }
  fold (candidate_text data).
  destruct (Val.truthy (candidate_text data)) eqn:Ht; eff.
  2:{ do 2 eexists; split; [done|]. split; [done|]. failed_with failure_no_text. }
  destruct (JSON_parse h (candidate_text data)) as [ai|] eqn:Ha; eff.
  - do 2 eexists; split; [done|]. split; [done|]. by eapply yields_json.
  - do 2 eexists; split; [done|]. split; [done|]. split; [by eapply failure_text_json|].
    intros raw Hg. inversion Hg as [res0 s0 data0 ? Hb0 Hd0].
    assert (data0 = data) as -> by congruence. done.
Qed.

End Steps.

(** ** The runs of the handler, gate by gate *)

Section Runs.
Context (h : host) (env : gmap jsstring jsstring) (req : request).

Lemma secret_test :
  Host.set (env !! Str.lit "TELEGRAM_WEBHOOK_SECRET")
  && negb (bool_decide (Host.headers_get req (Str.lit "x-telegram-bot-api-secret-token")
                        = env !! Str.lit "TELEGRAM_WEBHOOK_SECRET"))
  = negb (passes_secret_gate env req).
Proof.
  unfold passes_secret_gate, secret_configured, secret_matches.
  by destruct (Host.set _), (bool_decide _).
Qed.

Lemma reaches_parse_inv v :
  reaches_parse v env req = true ->
  req_method req = Str.lit "POST"
  /\ all_set env (mandatory_at_start v) = true
  /\ passes_secret_gate env req = true.
Proof.
  unfold reaches_parse. intros [[Hm%bool_decide_eq_true ?]%andb_true_iff ?]%andb_true_iff.
  done.
Qed.

Lemma all_set_first :
  all_set env (mandatory_at_start First) = true ->
  Host.set (env !! Str.lit "TELEGRAM_BOT_TOKEN") = true
  /\ Host.set (env !! Str.lit "GEMINI_API_KEY") = true
  /\ Host.set (env !! Str.lit "AI_SYSTEM_PROMPT") = true.
Proof.
  unfold all_set. cbn [mandatory_at_start mandatory completion_key forallb].
  rewrite !andb_true_iff. tauto.
Qed.

Lemma all_set_second :
  all_set env (mandatory_at_start Second) = true ->
  Host.set (env !! Str.lit "TELEGRAM_BOT_TOKEN") = true.
Proof.
  unfold all_set. cbn [mandatory_at_start forallb].
  rewrite !andb_true_iff. tauto.
Qed.

(** Walk a POST request with the start-up settings present up to the
    secret check. *)
Ltac pass_start Hm Hs :=
  match goal with
  | |- context [handler First] =>
    let H1 := fresh in let H2 := fresh in let H3 := fresh in
    destruct (all_set_first Hs) as (H1 & H2 & H3);
    unfold handler, V1.handler;
    rewrite (bool_decide_eq_true_2 _ Hm); eff;
    rewrite (mustEnv_first_set _ _ H1), (mustEnv_first_set _ _ H2),
      (mustEnv_first_set _ _ H3); eff;
    rewrite secret_test
  | |- context [handler Second] =>
    unfold handler, V2.handler;
    rewrite (bool_decide_eq_true_2 _ Hm); eff;
    rewrite (mustEnv_second_set _ _ (all_set_second Hs)); eff;
    rewrite secret_test
  end.

Lemma run_wrong_method v :
  req_method req <> Str.lit "POST" ->
  handler v h env req = (inr method_not_allowed, []).
Proof.
  intros Hm. destruct v; unfold handler, V1.handler, V2.handler;
    rewrite bool_decide_eq_false_2 by done; reflexivity.
Qed.

Lemma run_unconfigured v :
  req_method req = Str.lit "POST" ->
  all_set env (mandatory_at_start v) = false ->
  exists name,
    name ∈ mandatory_at_start v /\ Host.set (env !! name) = false
    /\ handler v h env req = (inr success, [caught v (missing v name)]).
Proof.
  intros Hm Hs.
  destruct v; unfold handler, V1.handler, V2.handler;
    rewrite (bool_decide_eq_true_2 _ Hm); eff;
    revert Hs; unfold all_set; cbn [mandatory_at_start mandatory completion_key forallb].
  - destruct (Host.set (env !! Str.lit "TELEGRAM_BOT_TOKEN")) eqn:H1.
    2:{ rewrite (mustEnv_first_unset _ _ H1). eff.
        exists (Str.lit "TELEGRAM_BOT_TOKEN"). set_solver. }
    rewrite (mustEnv_first_set _ _ H1). eff.
    destruct (Host.set (env !! Str.lit "GEMINI_API_KEY")) eqn:H2.
    2:{ rewrite (mustEnv_first_unset _ _ H2). eff.
        exists (Str.lit "GEMINI_API_KEY"). set_solver. }
    rewrite (mustEnv_first_set _ _ H2). eff.
    destruct (Host.set (env !! Str.lit "AI_SYSTEM_PROMPT")) eqn:H3; [done|].
    rewrite (mustEnv_first_unset _ _ H3). eff.
    exists (Str.lit "AI_SYSTEM_PROMPT"). set_solver.
  - destruct (Host.set (env !! Str.lit "TELEGRAM_BOT_TOKEN")) eqn:H1; [done|].
    rewrite (mustEnv_second_unset _ _ H1). eff.
    exists (Str.lit "TELEGRAM_BOT_TOKEN"). set_solver.
Qed.

Lemma calls_app t t' : calls (t ++ t') = calls t ++ calls t'.
Proof. induction t as [|[] t IH]; cbn [app calls]; by rewrite ?IH. Qed.

Lemma run_bad_secret v :
  req_method req = Str.lit "POST" ->
  all_set env (mandatory_at_start v) = true ->
  passes_secret_gate env req = false ->
  handler v h env req = (inr unauthorized, []).
Proof.
  intros Hm Hs Hg.
  destruct v; pass_start Hm Hs; rewrite Hg; reflexivity.
Qed.

Lemma run_unreadable v e :
  reaches_parse v env req = true -> req_json req = inl e ->
  handler v h env req = (inr success, [ReadBody; caught v e]).
Proof.
  intros (Hm & Hs & Hg)%reaches_parse_inv Hj.
  destruct v; pass_start Hm Hs; rewrite Hg, Hj; reflexivity.
Qed.

Lemma run_ignored v update :
  reaches_parse v env req = true -> req_json req = inr update ->
  Val.truthy (chat_id update) && Val.truthy (message_text update) = false ->
  handler v h env req = (inr ignored, [ReadBody]).
Proof.
  intros (Hm & Hs & Hg)%reaches_parse_inv Hj Ht.
  assert (negb (Val.truthy (chat_id update)) || negb (Val.truthy (message_text update)) = true)
    as Ht' by (by destruct (Val.truthy (chat_id update)), (Val.truthy (message_text update))).
  destruct v; pass_start Hm Hs; rewrite Hg, Hj; eff;
    fold (chat_id update) (message_text update); rewrite Ht'; reflexivity.
Qed.

Lemma run_valid v update :
  reaches_parse v env req = true -> req_json req = inr update ->
  Val.truthy (chat_id update) = true -> Val.truthy (message_text update) = true ->
  exists t,
    handler v h env req = (inr success, ReadBody :: t)
    /\ ((all_set env (mandatory v) = false /\ calls t = [])
        \/ (all_set env (mandatory v) = true
            /\ completion_failure h (remote h (completion_call v env (message_text update)))
            /\ calls t = [completion_call v env (message_text update)])
        \/ (all_set env (mandatory v) = true
            /\ exists ai,
                 completion_yields h
                   (remote h (completion_call v env (message_text update))) ai
                 /\ calls t = [completion_call v env (message_text update);
                               send_call v env update ai])).
Proof.
  intros (Hm & Hs & Hg)%reaches_parse_inv Hj Hc Ht.
  destruct v.
  - assert (Hall : all_set env (mandatory First) = true) by exact Hs.
    pass_start Hm Hs. rewrite Hg, Hj; eff.
    fold (chat_id update) (message_text update). rewrite Hc, Ht; eff.
    fold (model env) (booking_link env).
    change (completion_call First env (message_text update))
      with (completion_request (setting env (Str.lit "GEMINI_API_KEY")) (model env)
              (Str.replaceAll (setting env (Str.lit "AI_SYSTEM_PROMPT"))
                 (Str.lit "{{BOOKING_LINK}}") (booking_link env))
              (message_text update)).
    destruct (callGemini_first h (setting env (Str.lit "GEMINI_API_KEY")) (model env)
                (setting env (Str.lit "AI_SYSTEM_PROMPT")) (message_text update)
                (booking_link env)) as (r & -> & Hr).
    destruct r as [e|ai]; eff.
    + eexists; split; [done|]. right; left. by destruct Hr.
    + change (V1.telegramSendMessage h ?a ?b _)
        with (V1.telegramSendMessage h a b (reply_text First ai)).
      destruct (send_first h (setting env (Str.lit "TELEGRAM_BOT_TOKEN"))
                  (chat_id update) (reply_text First ai)) as (r & ->).
      destruct r as [e|[]]; eff; (eexists; split; [done|]); right; right;
        (split; [done|]); exists ai; by split.
  - pose proof (all_set_second Hs) as Htok.
    pass_start Hm Hs. rewrite Hg, Hj; eff.
    fold (chat_id update) (message_text update). rewrite Hc, Ht; eff.
    fold (booking_link env).
    unfold all_set. cbn [mandatory completion_key forallb].
    rewrite Htok. cbn [andb]. rewrite andb_true_r.
    change (completion_call Second env (message_text update))
      with (completion_request (setting env (Str.lit "JIM_API_KEY")) (model env)
              (Str.replaceAll (setting env (Str.lit "AI_SYSTEM_PROMPT"))
                 (Str.lit "{{BOOKING_LINK}}") (booking_link env))
              (message_text update)).
    destruct (Host.set (env !! Str.lit "JIM_API_KEY")
              && Host.set (env !! Str.lit "AI_SYSTEM_PROMPT")) eqn:Hk.
    + apply andb_true_iff in Hk as [Hk1 Hk2].
      destruct (callGemini_second h env (message_text update) (booking_link env) Hk1 Hk2)
        as (r & t & -> & Hcalls & Hr).
      destruct r as [e|ai]; eff.
      * eexists; split; [done|]. right; left. split; [done|]. split; [by destruct Hr|].
        cbn [calls]. by rewrite calls_app, Hcalls.
      * change (V2.telegramSendMessage h ?a ?b _)
          with (V2.telegramSendMessage h a b (reply_text Second ai)).
        destruct (send_second h (setting env (Str.lit "TELEGRAM_BOT_TOKEN"))
                    (chat_id update) (reply_text Second ai)) as (r & ->).
        destruct r as [e|[]]; eff; (eexists; split; [done|]); right; right;
          (split; [done|]); exists ai; (split; [done|]); cbn [calls];
          by rewrite !calls_app, Hcalls.
    + destruct (callGemini_second_unset h env (message_text update) (booking_link env) Hk)
        as (name & ->).
      eff. eexists; split; [done|]. left. by split.
Qed.

Lemma completion_request_kind key model prompt text :
  is_completion_call (completion_request key model prompt text) = true
  /\ is_send_call (completion_request key model prompt text) = false.
Proof. split; reflexivity. Qed.

Lemma send_request_kind tok chat text :
  is_send_call (send_request tok chat text) = true
  /\ is_completion_call (send_request tok chat text) = false.
Proof. split; reflexivity. Qed.

(** Every run ends in a response; it reads the body exactly when the
    request passes the gates; and it performs an outbound call only for
    an update with usable chat and text under a complete configuration. *)
Lemma run_cases v :
  exists r t,
    handler v h env req = (inr r, t)
    /\ (reaches_parse v env req = false -> (ReadBody ∉ t) /\ calls t = [])
    /\ (reaches_parse v env req = true -> exists t', t = ReadBody :: t')
    /\ (calls t <> [] ->
        exists update,
          reaches_parse v env req = true /\ req_json req = inr update
          /\ Val.truthy (chat_id update) = true
          /\ Val.truthy (message_text update) = true
          /\ all_set env (mandatory v) = true).
Proof.
  destruct (reaches_parse v env req) eqn:Hp.
  - destruct (req_json req) as [e|update] eqn:Hj.
    { rewrite (run_unreadable v e Hp Hj). do 2 eexists. split; [done|].
      split; [done|]. split; [eauto|]. by destruct v. }
    destruct (Val.truthy (chat_id update) && Val.truthy (message_text update)) eqn:Ht.
    2:{ rewrite (run_ignored v update Hp Hj Ht). do 2 eexists. split; [done|].
        split; [done|]. split; [eauto|]. done. }
    apply andb_true_iff in Ht as [Hc Ht].
    destruct (run_valid v update Hp Hj Hc Ht) as (t & -> & Hcases).
    do 2 eexists. split; [done|]. split; [done|]. split; [eauto|].
    cbn [calls]. intros Hne. exists update. repeat split; try done.
    destruct Hcases as [[_ Hnil]|[[Hall _]|[Hall _]]]; done.
  - unfold reaches_parse in Hp.
    destruct (decide (req_method req = Str.lit "POST")) as [Hm|Hm].
    2:{ rewrite (run_wrong_method v Hm). do 2 eexists. split; [done|].
        split; [|done]. intros _. split; [apply not_elem_of_nil|done]. }
    rewrite (bool_decide_eq_true_2 _ Hm) in Hp. cbn [andb] in Hp.
    destruct (all_set env (mandatory_at_start v)) eqn:Hs; cbn [andb] in Hp.
    + rewrite (run_bad_secret v Hm Hs Hp). do 2 eexists. split; [done|].
      split; [|done]. intros _. split; [apply not_elem_of_nil|done].
    + destruct (run_unconfigured v Hm Hs) as (name & _ & _ & ->).
      do 2 eexists. split; [done|]. split; [|by destruct v].
      intros _. split; [|by destruct v].
      destruct v; cbn [caught]; by intros ?%list_elem_of_singleton.
Qed.

(** The body is read exactly when the request passes the method check,
    the start-up settings and the secret check. *)
Lemma body_read_iff v :
  ReadBody ∈ snd (handler v h env req) <-> reaches_parse v env req = true.
Proof.
  destruct (run_cases v) as (r & t & -> & Hno & Hyes & _). cbn [snd].
  destruct (reaches_parse v env req).
  - destruct Hyes as [t' ->]; [done|]. split; [done|]. intros _. left.
  - destruct Hno as [Hno _]; [done|]. split; [done|]. discriminate.
Qed.

End Runs.

(** ** The inbound gate *)

(** C3. A request whose method is not POST gets the response
    "Method Not Allowed" with status 405, and the run has no event at
    all: no outbound call is issued and the body is never read. *)
Theorem method_gate v h env req :
  req_method req <> Str.lit "POST" ->
  handler v h env req = (inr (Response (Str.lit "Method Not Allowed") 405), []).
Proof. apply run_wrong_method. Qed.

Lemma method_gate_witness :
  req_method (Samples.get Samples.update_hi) <> Str.lit "POST"
  /\ handler Second Samples.overloaded Samples.env_both (Samples.get Samples.update_hi)
     = (inr (Response (Str.lit "Method Not Allowed") 405), []).
Proof.
  split; [discriminate|].
  apply (method_gate Second Samples.overloaded Samples.env_both
           (Samples.get Samples.update_hi)).
  discriminate.
Defined.

(** C4, as stated, fails: with the secret configured and the header
    absent, a GET request is answered 405, not 401, because the method
    check comes first. *)
Lemma secret_gate_counterexample :
  Samples.env_secret !! Str.lit "TELEGRAM_WEBHOOK_SECRET" = Some Samples.secret
  /\ Host.headers_get (Samples.get Samples.update_hi)
       (Str.lit "x-telegram-bot-api-secret-token") = None
  /\ fst (handler First Samples.overloaded Samples.env_secret
            (Samples.get Samples.update_hi))
     = inr (Response (Str.lit "Method Not Allowed") 405)
  /\ fst (handler First Samples.overloaded Samples.env_secret
            (Samples.get Samples.update_hi))
     <> inr (Response (Str.lit "Unauthorized") 401).
Proof. repeat split; try (vm_compute; reflexivity). vm_compute. discriminate. Qed.

(** C4, amended. For a POST request, with the settings the variant reads
    at its start present: when a secret is configured and the header is
    absent or different, the response is "Unauthorized" with status 401
    and the run has no event, so no outbound call is issued and the body
    is not read. *)
Theorem secret_gate v h env req s :
  req_method req = Str.lit "POST" ->
  all_set env (mandatory_at_start v) = true ->
  env !! Str.lit "TELEGRAM_WEBHOOK_SECRET" = Some s -> s <> [] ->
  Host.headers_get req (Str.lit "x-telegram-bot-api-secret-token") <> Some s ->
  handler v h env req = (inr (Response (Str.lit "Unauthorized") 401), []).
Proof.
  intros Hm Hs He Hne Hh. apply run_bad_secret; try done.
  unfold passes_secret_gate, secret_configured, secret_matches. rewrite He.
  rewrite bool_decide_eq_false_2 by done. by destruct s.
Qed.

Lemma secret_gate_witness :
  req_method (Samples.post_with_secret (Str.lit "guess") Samples.update_hi) = Str.lit "POST"
  /\ all_set Samples.env_secret (mandatory_at_start First) = true
  /\ Samples.env_secret !! Str.lit "TELEGRAM_WEBHOOK_SECRET" = Some Samples.secret
  /\ Samples.secret <> []
  /\ Host.headers_get (Samples.post_with_secret (Str.lit "guess") Samples.update_hi)
       (Str.lit "x-telegram-bot-api-secret-token") <> Some Samples.secret
  /\ handler First Samples.overloaded Samples.env_secret
       (Samples.post_with_secret (Str.lit "guess") Samples.update_hi)
     = (inr (Response (Str.lit "Unauthorized") 401), []).
Proof.
  assert (H1 : Samples.env_secret !! Str.lit "TELEGRAM_WEBHOOK_SECRET" = Some Samples.secret)
    by (vm_compute; reflexivity).
  assert (H2 : all_set Samples.env_secret (mandatory_at_start First) = true)
    by (vm_compute; reflexivity).
  assert (H3 : Host.headers_get (Samples.post_with_secret (Str.lit "guess") Samples.update_hi)
                 (Str.lit "x-telegram-bot-api-secret-token") <> Some Samples.secret)
    by (vm_compute; discriminate).
  assert (H4 : Samples.secret <> []) by discriminate.
  exact (conj eq_refl (conj H2 (conj H1 (conj H4 (conj H3
           (secret_gate First Samples.overloaded Samples.env_secret
              (Samples.post_with_secret (Str.lit "guess") Samples.update_hi)
              Samples.secret eq_refl H2 H1 H4 H3)))))).
Defined.

(** C5. When the body parses to an update whose chat identifier or whose
    message text is absent, the response is [{ok:true, ignored:true}]
    with status 200 and the only event of the run is the reading of the
    body: no outbound call is issued. *)
Theorem missing_fields_are_ignored v h env req update :
  reaches_parse v env req = true ->
  req_json req = inr update ->
  chat_id update = VUndefined \/ message_text update = VUndefined ->
  handler v h env req = (inr (Response Host.json_ok_ignored 200), [ReadBody]).
Proof.
  intros Hp Hj Hu. apply (run_ignored h env req v update Hp Hj).
  destruct Hu as [-> | ->]; [done|]. apply andb_false_r.
Qed.

Lemma missing_fields_are_ignored_witness :
  reaches_parse Second Samples.env_both (Samples.post Samples.update_photo) = true
  /\ req_json (Samples.post Samples.update_photo) = inr Samples.update_photo
  /\ (chat_id Samples.update_photo = VUndefined
      \/ message_text Samples.update_photo = VUndefined)
  /\ handler Second Samples.overloaded Samples.env_both (Samples.post Samples.update_photo)
     = (inr (Response Host.json_ok_ignored 200), [ReadBody]).
Proof.
  assert (H1 : reaches_parse Second Samples.env_both (Samples.post Samples.update_photo) = true)
    by (vm_compute; reflexivity).
  assert (H2 : chat_id Samples.update_photo = VUndefined
               \/ message_text Samples.update_photo = VUndefined)
    by (right; vm_compute; reflexivity).
  exact (conj H1 (conj eq_refl (conj H2
           (missing_fields_are_ignored Second Samples.overloaded Samples.env_both
              (Samples.post Samples.update_photo) Samples.update_photo H1 eq_refl H2)))).
Defined.

(** C10. A chat identifier that is present but is the number 0 (of
    either sign) or the empty string, or a message text that is present
    but the empty string, is treated like an absent one: the response is
    [{ok:true, ignored:true}] with status 200 and no outbound call is
    issued. *)
Theorem falsy_fields_are_ignored v h env req update :
  reaches_parse v env req = true ->
  req_json req = inr update ->
  (exists sign, chat_id update = VNumber (S754_zero sign))
  \/ chat_id update = VString []
  \/ message_text update = VString [] ->
  handler v h env req = (inr (Response Host.json_ok_ignored 200), [ReadBody]).
Proof.
  intros Hp Hj Hu. apply (run_ignored h env req v update Hp Hj).
  destruct Hu as [[sign ->] | [-> | ->]]; [done|done|]. apply andb_false_r.
Qed.

Lemma falsy_fields_are_ignored_witness :
  reaches_parse First Samples.env_first
    (Samples.post (Samples.update (VNumber (Val.num 0)) (VString (Str.lit "hi")))) = true
  /\ req_json (Samples.post (Samples.update (VNumber (Val.num 0)) (VString (Str.lit "hi"))))
     = inr (Samples.update (VNumber (Val.num 0)) (VString (Str.lit "hi")))
  /\ ((exists sign,
         chat_id (Samples.update (VNumber (Val.num 0)) (VString (Str.lit "hi")))
         = VNumber (S754_zero sign))
      \/ chat_id (Samples.update (VNumber (Val.num 0)) (VString (Str.lit "hi"))) = VString []
      \/ message_text (Samples.update (VNumber (Val.num 0)) (VString (Str.lit "hi")))
         = VString [])
  /\ handler First Samples.overloaded Samples.env_first
       (Samples.post (Samples.update (VNumber (Val.num 0)) (VString (Str.lit "hi"))))
     = (inr (Response Host.json_ok_ignored 200), [ReadBody]).
Proof.
  assert (H1 : reaches_parse First Samples.env_first
                 (Samples.post (Samples.update (VNumber (Val.num 0)) (VString (Str.lit "hi"))))
               = true) by (vm_compute; reflexivity).
  assert (H2 : (exists sign,
                  chat_id (Samples.update (VNumber (Val.num 0)) (VString (Str.lit "hi")))
                  = VNumber (S754_zero sign))
               \/ chat_id (Samples.update (VNumber (Val.num 0)) (VString (Str.lit "hi")))
                  = VString []
               \/ message_text (Samples.update (VNumber (Val.num 0)) (VString (Str.lit "hi")))
                  = VString [])
    by (left; exists false; vm_compute; reflexivity).
  exact (conj H1 (conj eq_refl (conj H2
           (falsy_fields_are_ignored First Samples.overloaded Samples.env_first
              _ _ H1 eq_refl H2)))).
Defined.

(** ** Error containment *)

(** C1. For a POST request that passes the secret check and carries a
    usable chat identifier and text, the response is [{ok:true}] with
    status 200 whatever the two services answer, in particular when the
    completion call or the send call fails.  When the reply to the
    completion call is a failure (exception, non-success status,
    unreadable or non-JSON body, no text, text that is not JSON), the run
    contains no send call; indeed a send call is only ever issued after a
    completion call whose reply carried valid JSON. *)
Theorem failures_are_masked v h env req update :
  req_method req = Str.lit "POST" ->
  passes_secret_gate env req = true ->
  req_json req = inr update ->
  Val.truthy (chat_id update) = true ->
  Val.truthy (message_text update) = true ->
  exists t,
    handler v h env req = (inr (Response Host.json_ok 200), t)
    /\ (forall c,
          c ∈ calls t -> is_completion_call c = true ->
          completion_failure h (remote h c) ->
          forall c', c' ∈ calls t -> is_send_call c' = false)
    /\ (forall c',
          c' ∈ calls t -> is_send_call c' = true ->
          exists c ai,
            c ∈ calls t /\ is_completion_call c = true
            /\ completion_yields h (remote h c) ai).
Proof.
  intros Hm Hg Hj Hc Ht.
  destruct (all_set env (mandatory_at_start v)) eqn:Hs.
  - assert (Hp : reaches_parse v env req = true).
    { unfold reaches_parse. by rewrite (bool_decide_eq_true_2 _ Hm), Hs, Hg. }
    destruct (run_valid h env req v update Hp Hj Hc Ht) as (t & -> & Hcases).
    eexists; split; [done|]. cbn [calls].
    destruct Hcases as [[_ ->]|[(_ & _ & ->)|(_ & ai & Hy & ->)]].
    + split; intros c Hin; by apply elem_of_nil in Hin.
    + split.
      * intros c _ _ _ c' Hin. apply list_elem_of_singleton in Hin as ->.
        apply completion_request_kind.
      * intros c' Hin Hk. apply list_elem_of_singleton in Hin as ->.
        destruct (completion_request_kind (setting env (completion_key v)) (model env)
                    (Str.replaceAll (setting env (Str.lit "AI_SYSTEM_PROMPT"))
                       (Str.lit "{{BOOKING_LINK}}") (booking_link env))
                    (message_text update)) as [_ Hk'].
        unfold completion_call in Hk. congruence.
    + split.
      * intros c [->|Hin]%elem_of_cons Hk Hf.
        -- destruct (failure_excludes_result h _ _ Hf Hy).
        -- apply list_elem_of_singleton in Hin as ->.
           destruct (send_request_kind (setting env (Str.lit "TELEGRAM_BOT_TOKEN"))
                       (chat_id update) (reply_text v ai)) as [_ Hk'].
           unfold send_call in Hk. congruence.
      * intros c' _ _. exists (completion_call v env (message_text update)), ai.
        split; [left|]. split; [reflexivity|exact Hy].
  - destruct (run_unconfigured h env req v Hm Hs) as (name & _ & _ & ->).
    eexists; split; [done|].
    split; intros c Hin; destruct v; by apply elem_of_nil in Hin.
Qed.

Lemma failures_are_masked_witness :
  req_method (Samples.post Samples.update_hi) = Str.lit "POST"
  /\ passes_secret_gate Samples.env_both (Samples.post Samples.update_hi) = true
  /\ req_json (Samples.post Samples.update_hi) = inr Samples.update_hi
  /\ Val.truthy (chat_id Samples.update_hi) = true
  /\ Val.truthy (message_text Samples.update_hi) = true
  /\ exists t,
       handler Second Samples.overloaded Samples.env_both (Samples.post Samples.update_hi)
       = (inr (Response Host.json_ok 200), t)
       /\ (forall c,
             c ∈ calls t -> is_completion_call c = true ->
             completion_failure Samples.overloaded (remote Samples.overloaded c) ->
             forall c', c' ∈ calls t -> is_send_call c' = false)
       /\ (forall c',
             c' ∈ calls t -> is_send_call c' = true ->
             exists c ai,
               c ∈ calls t /\ is_completion_call c = true
               /\ completion_yields Samples.overloaded (remote Samples.overloaded c) ai).
Proof.
  assert (H1 : passes_secret_gate Samples.env_both (Samples.post Samples.update_hi) = true)
    by (vm_compute; reflexivity).
  assert (H2 : Val.truthy (chat_id Samples.update_hi) = true) by (vm_compute; reflexivity).
  assert (H3 : Val.truthy (message_text Samples.update_hi) = true)
    by (vm_compute; reflexivity).
  exact (conj eq_refl (conj H1 (conj eq_refl (conj H2 (conj H3
           (failures_are_masked Second Samples.overloaded Samples.env_both
              (Samples.post Samples.update_hi) Samples.update_hi
              eq_refl H1 eq_refl H2 H3)))))).
Defined.

(** With the completion service overloaded (status 503), the run is the
    completion call, the log entry of the handler, and a success
    response. *)
Example overloaded_completion_service v :
  exists e,
    handler v Samples.overloaded Samples.env_both (Samples.post Samples.update_hi)
    = (inr (Response Host.json_ok 200),
       [ReadBody;
        Fetch (completion_call v Samples.env_both (VString (Str.lit "hi")));
        caught v e]).
Proof. destruct v; eexists; vm_compute; reflexivity. Qed.

(** C2, as stated, fails: with the system instruction template unset, a
    POST request is answered [{ok:true}] with status 200; the error of
    [mustEnv] is caught and logged by the handler, not left unhandled. *)
Lemma missing_configuration_counterexample :
  Samples.env_no_template !! Str.lit "AI_SYSTEM_PROMPT" = None
  /\ handler First Samples.overloaded Samples.env_no_template
       (Samples.post Samples.update_hi)
     = (inr (Response Host.json_ok 200),
        [ConsoleError
           [LogExn (Error (Str.lit "Missing env var: AI_SYSTEM_PROMPT"))]]).
Proof. split; vm_compute; reflexivity. Qed.

(** ** The reply *)

Lemma reply_text_cases v ai :
  ((forall s, Val.opt_get ai (Str.lit "reply_text") <> VString s) ->
   reply_text v ai = fallback v)
  /\ forall s,
       Val.opt_get ai (Str.lit "reply_text") = VString s ->
       (forallb Str.is_white_space s = true -> reply_text v ai = fallback v)
       /\ (forallb Str.is_white_space s = false -> reply_text v ai = Str.trim s).
Proof.
  unfold reply_text. split.
  - intros Hno. destruct (Val.opt_get ai (Str.lit "reply_text")); try done.
    by destruct (Hno s).
  - intros s ->. split; intros Hws.
    + apply trim_nil in Hws. by rewrite Hws.
    + destruct (Str.trim s) eqn:Ht; [|done].
      apply trim_nil in Ht. congruence.
Qed.

(** ** Text of the completion service that is not JSON *)

(** The second variant does what C8 says: the text is logged, and the
    client fails with its own malformed-JSON error. *)
Lemma second_variant_reports_malformed_json h env text link raw :
  Host.set (env !! Str.lit "JIM_API_KEY") = true ->
  Host.set (env !! Str.lit "AI_SYSTEM_PROMPT") = true ->
  completion_garbage h
    (remote h (completion_request (setting env (Str.lit "JIM_API_KEY")) (model env)
                 (Str.replaceAll (setting env (Str.lit "AI_SYSTEM_PROMPT"))
                    (Str.lit "{{BOOKING_LINK}}") link) text)) raw ->
  V2.callGemini h env text link
  = (inl (Error (Str.lit "Gemini returned malformed JSON.")),
     [Fetch (completion_request (setting env (Str.lit "JIM_API_KEY")) (model env)
               (Str.replaceAll (setting env (Str.lit "AI_SYSTEM_PROMPT"))
                  (Str.lit "{{BOOKING_LINK}}") link) text);
      ConsoleError [LogValue (VString (Str.lit "Invalid JSON from Gemini:")); LogValue raw]]).
Proof.
  intros Hk Hp Hg.
  destruct (callGemini_second h env text link Hk Hp) as (r & t & -> & _ & Hr).
  destruct r as [e|ai].
  - destruct Hr as [_ Hr]. by destruct (Hr raw Hg) as [-> ->].
  - destruct (failure_excludes_result h _ _ (garbage_is_failure h _ _ Hg) Hr).
Qed.

(** The first variant does not: the parser's exception leaves the client
    as it is, and the client logs nothing. *)
Lemma first_variant_parser_exception h key model sp text link raw :
  completion_garbage h
    (remote h (completion_request key model
                 (Str.replaceAll sp (Str.lit "{{BOOKING_LINK}}") link) text)) raw ->
  V1.callGemini h key model sp text link
  = (inl SyntaxError,
     [Fetch (completion_request key model
               (Str.replaceAll sp (Str.lit "{{BOOKING_LINK}}") link) text)]).
Proof.
  intros Hg.
  destruct (callGemini_first h key model sp text link) as (r & -> & Hr).
  destruct r as [e|ai].
  - destruct Hr as [_ Hr]. by rewrite (Hr raw Hg).
  - destruct (failure_excludes_result h _ _ (garbage_is_failure h _ _ Hg) Hr).
Qed.

(** C8 fails in the first variant.  With a completion service that
    answers 200 with the text "Sure, here is your answer", the first
    variant's client throws the parser's SyntaxError and logs nothing;
    the only log entry of the whole run is the handler's, and its
    argument is that exception. *)
Theorem first_variant_propagates_parser_exception :
  completion_garbage (Samples.answering Samples.garbage)
    (remote (Samples.answering Samples.garbage)
       (completion_call First Samples.env_first (VString (Str.lit "hi"))))
    (VString Samples.garbage)
  /\ V1.callGemini (Samples.answering Samples.garbage) Samples.key
       (Str.lit "gemini-2.5-flash") Samples.template (VString (Str.lit "hi"))
       (Str.lit "https://calendly.com/your-link")
     = (inl SyntaxError,
        [Fetch (completion_call First Samples.env_first (VString (Str.lit "hi")))])
  /\ V1.handler (Samples.answering Samples.garbage) Samples.env_first
       (Samples.post Samples.update_hi)
     = (inr (Response Host.json_ok 200),
        [ReadBody;
         Fetch (completion_call First Samples.env_first (VString (Str.lit "hi")));
         ConsoleError [LogExn SyntaxError]]).
Proof.
  split; [|split; vm_compute; reflexivity].
  change (remote _ _)
    with (@inr exn _ (HttpResponse 200 (inr (Samples.completion_body Samples.garbage)))).
  change (VString Samples.garbage)
    with (candidate_text (Samples.completion_data Samples.garbage)).
  eapply garbage_text; vm_compute; reflexivity.
Qed.

(** On the same input the second variant logs the text and throws the
    malformed-JSON error. *)
Example second_variant_on_the_same_input :
  V2.handler (Samples.answering Samples.garbage) Samples.env_both
    (Samples.post Samples.update_hi)
  = (inr (Response Host.json_ok 200),
     [ReadBody;
      Fetch (completion_call Second Samples.env_both (VString (Str.lit "hi")));
      ConsoleError [LogValue (VString (Str.lit "Invalid JSON from Gemini:"));
                    LogValue (VString Samples.garbage)];
      ConsoleError [LogValue (VString (Str.lit "Webhook Error:"));
                    LogExn (Error (Str.lit "Gemini returned malformed JSON."))]]).
Proof. vm_compute. reflexivity. Qed.

(** ** The two variants *)

(** C9, as stated, fails: in an environment configured for the first
    variant (credential under GEMINI_API_KEY), the first variant issues
    the completion call and the send call, the second issues none. *)
Lemma variants_agree_counterexample :
  calls (snd (V1.handler (Samples.answering (Samples.reply_json Samples.greeting))
                Samples.env_first (Samples.post Samples.update_hi)))
  = [completion_call First Samples.env_first (VString (Str.lit "hi"));
     send_request Samples.token (VNumber (Val.num 42)) Samples.greeting]
  /\ calls (snd (V2.handler (Samples.answering (Samples.reply_json Samples.greeting))
                   Samples.env_first (Samples.post Samples.update_hi)))
     = [].
Proof. split; vm_compute; reflexivity. Qed.

Lemma reply_texts_agree tok chat ai :
  calls_agree (send_request tok chat (reply_text First ai))
    (send_request tok chat (reply_text Second ai)).
Proof.
  unfold reply_text.
  destruct (Val.opt_get ai (Str.lit "reply_text")); try (right; by exists tok, chat).
  destruct (Val.truthy (VString (Str.trim s))); [by left|right; by exists tok, chat].
Qed.

(** C9, amended. In every environment in which the system instruction
    template is set and the completion credential is set to the same
    value under both names, GEMINI_API_KEY and JIM_API_KEY, the two
    variants give the same response to every request, and their outbound
    calls agree one by one, except that a send call carrying the fallback
    text carries each variant's own wording. *)
Theorem variants_agree h env req :
  Host.set (env !! Str.lit "AI_SYSTEM_PROMPT") = true ->
  Host.set (env !! Str.lit "GEMINI_API_KEY") = true ->
  env !! Str.lit "JIM_API_KEY" = env !! Str.lit "GEMINI_API_KEY" ->
  exists r t1 t2,
    V1.handler h env req = (inr r, t1)
    /\ V2.handler h env req = (inr r, t2)
    /\ Forall2 calls_agree (calls t1) (calls t2).
Proof.
  intros Hsp Hkey Hjim.
  assert (Hstart : all_set env (mandatory_at_start First)
                   = all_set env (mandatory_at_start Second)).
  { unfold all_set. cbn [mandatory_at_start mandatory completion_key forallb].
    by rewrite Hsp, Hkey. }
  assert (Hall : forall v, all_set env (mandatory v)
                           = Host.set (env !! Str.lit "TELEGRAM_BOT_TOKEN")).
  { intros v. unfold all_set. cbn [mandatory forallb].
    destruct v; cbn [completion_key]; rewrite ?Hjim, Hsp, Hkey; by rewrite !andb_true_r. }
  assert (Hreach : reaches_parse First env req = reaches_parse Second env req).
  { unfold reaches_parse. by rewrite Hstart. }
  assert (Hcall : forall text, completion_call First env text = completion_call Second env text).
  { intros text. unfold completion_call, setting. cbn [completion_key]. by rewrite Hjim. }
  change V1.handler with (handler First). change V2.handler with (handler Second).
  destruct (reaches_parse First env req) eqn:Hp; symmetry in Hreach.
  - destruct (req_json req) as [e|update] eqn:Hj.
    { rewrite (run_unreadable h env req First e Hp Hj),
        (run_unreadable h env req Second e Hreach Hj).
      do 3 eexists. split; [done|]. split; [done|]. constructor. }
    destruct (Val.truthy (chat_id update) && Val.truthy (message_text update)) eqn:Ht.
    2:{ rewrite (run_ignored h env req First update Hp Hj Ht),
          (run_ignored h env req Second update Hreach Hj Ht).
        do 3 eexists. split; [done|]. split; [done|]. constructor. }
    apply andb_true_iff in Ht as [Hc Ht].
    destruct (run_valid h env req First update Hp Hj Hc Ht) as (t1 & -> & H1).
    destruct (run_valid h env req Second update Hreach Hj Hc Ht) as (t2 & -> & H2).
    do 3 eexists. split; [done|]. split; [done|]. cbn [calls].
    rewrite !Hall, <- Hcall in *.
    destruct H1 as [[Hb1 ->]|[(Hb1 & Hf1 & ->)|(Hb1 & ai1 & Hy1 & ->)]];
      destruct H2 as [[Hb2 ->]|[(Hb2 & Hf2 & ->)|(Hb2 & ai2 & Hy2 & ->)]];
      try congruence.
    + constructor.
    + repeat constructor.
    + destruct (failure_excludes_result h _ _ Hf1 Hy2).
    + destruct (failure_excludes_result h _ _ Hf2 Hy1).
    + rewrite (result_unique h _ _ _ Hy2 Hy1).
      constructor; [by left|]. constructor; [|constructor].
      apply reply_texts_agree.
  - unfold reaches_parse in Hp.
    destruct (decide (req_method req = Str.lit "POST")) as [Hm|Hm].
    2:{ rewrite !(run_wrong_method h env req _ Hm).
        do 3 eexists. split; [done|]. split; [done|]. constructor. }
    rewrite (bool_decide_eq_true_2 _ Hm) in Hp. cbn [andb] in Hp.
    destruct (all_set env (mandatory_at_start First)) eqn:Hs;
      symmetry in Hstart; cbn [andb] in Hp.
    + rewrite (run_bad_secret h env req First Hm Hs Hp),
        (run_bad_secret h env req Second Hm Hstart Hp).
      do 3 eexists. split; [done|]. split; [done|]. constructor.
    + destruct (run_unconfigured h env req First Hm Hs) as (n1 & _ & _ & ->).
      destruct (run_unconfigured h env req Second Hm Hstart) as (n2 & _ & _ & ->).
      do 3 eexists. split; [done|]. split; [done|]. constructor.
Qed.

Lemma variants_agree_witness :
  Host.set (Samples.env_both !! Str.lit "AI_SYSTEM_PROMPT") = true
  /\ Host.set (Samples.env_both !! Str.lit "GEMINI_API_KEY") = true
  /\ Samples.env_both !! Str.lit "JIM_API_KEY" = Samples.env_both !! Str.lit "GEMINI_API_KEY"
  /\ exists r t1 t2,
       V1.handler (Samples.answering (Str.lit "{}")) Samples.env_both
         (Samples.post Samples.update_hi) = (inr r, t1)
       /\ V2.handler (Samples.answering (Str.lit "{}")) Samples.env_both
            (Samples.post Samples.update_hi) = (inr r, t2)
       /\ Forall2 calls_agree (calls t1) (calls t2).
Proof.
  assert (H1 : Host.set (Samples.env_both !! Str.lit "AI_SYSTEM_PROMPT") = true)
    by (vm_compute; reflexivity).
  assert (H2 : Host.set (Samples.env_both !! Str.lit "GEMINI_API_KEY") = true)
    by (vm_compute; reflexivity).
  assert (H3 : Samples.env_both !! Str.lit "JIM_API_KEY"
               = Samples.env_both !! Str.lit "GEMINI_API_KEY")
    by (vm_compute; reflexivity).
  exact (conj H1 (conj H2 (conj H3
           (variants_agree (Samples.answering (Str.lit "{}")) Samples.env_both
              (Samples.post Samples.update_hi) H1 H2 H3)))).
Defined.

(** ** The resolved prompt *)


(** C6, as stated, fails: a booking link that holds the placeholder
    puts it back.  With the template "Book a call: {{BOOKING_LINK}}" and
    the link "https://x.example/{{BOOKING_LINK}}", which holds no
    reference, the handler issues a completion call whose system
    instruction still holds the placeholder. *)
Lemma resolved_prompt_counterexample :
  has_reference (booking_link Cases.env_looping) = false
  /\ (exists t,
        handler First (Samples.answering (Samples.reply_json Samples.greeting))
          Cases.env_looping (Samples.post Samples.update_hi)
        = (inr (Response Host.json_ok 200),
           ReadBody
           :: Fetch (completion_call First Cases.env_looping (VString (Str.lit "hi")))
           :: t))
  /\ system_instruction (completion_call First Cases.env_looping (VString (Str.lit "hi")))
     = VString (Str.lit "Book a call: https://x.example/{{BOOKING_LINK}}")
  /\ Str.replaceAll (Str.lit "Book a call: {{BOOKING_LINK}}") (Str.lit "{{BOOKING_LINK}}")
       (Str.lit "https://x.example/{{BOOKING_LINK}}")
     = Str.lit "Book a call: https://x.example/{{BOOKING_LINK}}"
  /\ occurs_in placeholder
       (Str.replaceAll (Str.lit "Book a call: {{BOOKING_LINK}}")
          (Str.lit "{{BOOKING_LINK}}") (Str.lit "https://x.example/{{BOOKING_LINK}}")).
Proof.
  split; [vm_compute; reflexivity|].
  split; [eexists; vm_compute; reflexivity|].
  split; [vm_compute; reflexivity|].
  split; [vm_compute; reflexivity|].
  exists (Str.lit "Book a call: https://x.example/"), []. vm_compute. reflexivity.
Qed.

(** So does a link that completes the text around an occurrence. *)
Example placeholder_joined_by_the_link :
  Str.replaceAll (Str.lit "{{BOO{{BOOKING_LINK}}_LINK}}") (Str.lit "{{BOOKING_LINK}}")
    (Str.lit "KING")
  = Str.lit "{{BOOKING_LINK}}".
Proof. vm_compute. reflexivity. Qed.

(** And [replaceAll] expands the references [$$], [$&], [$`], [$'] of
    its replacement: with [$&] in the link, the resolved prompt is not
    the template with the link put in place of the placeholder. *)
Example reference_in_the_link :
  Str.replaceAll (Str.lit "Book a call: {{BOOKING_LINK}}") (Str.lit "{{BOOKING_LINK}}")
    (Str.lit "https://x.example/?from=$&")
  = Str.lit "Book a call: https://x.example/?from={{BOOKING_LINK}}"
  /\ substitute_every placeholder (Str.lit "https://x.example/?from=$&")
       (Str.lit "Book a call: {{BOOKING_LINK}}")
     = Str.lit "Book a call: https://x.example/?from=$&".
Proof. split; vm_compute; reflexivity. Qed.

(** The completion call of a run carries the resolved prompt as its
    system instruction. *)
Lemma prompt_sent v h env req c :
  c ∈ calls (snd (handler v h env req)) ->
  is_completion_call c = true ->
  system_instruction c
  = VString (Str.replaceAll (setting env (Str.lit "AI_SYSTEM_PROMPT"))
               (Str.lit "{{BOOKING_LINK}}") (booking_link env)).
Proof.
  intros Hin Hk.
  destruct (run_cases h env req v) as (r & t & Heq & _ & _ & Hcalls).
  rewrite Heq in Hin. cbn [snd] in Hin.
  destruct Hcalls as (update & Hp & Hj & Hc & Ht & Hall).
  { intros Hnil. rewrite Hnil in Hin. by apply elem_of_nil in Hin. }
  destruct (run_valid h env req v update Hp Hj Hc Ht) as (t' & Heq' & Hcases).
  rewrite Heq in Heq'. injection Heq' as _ ->. cbn [calls] in Hin.
  destruct Hcases as [[_ Hnil]|[(_ & _ & Hone)|(_ & ai & _ & Htwo)]].
  - rewrite Hnil in Hin. by apply elem_of_nil in Hin.
  - rewrite Hone in Hin. by apply list_elem_of_singleton in Hin as ->.
  - rewrite Htwo in Hin. apply elem_of_cons in Hin as [->|Hin]; [done|].
    apply list_elem_of_singleton in Hin as ->.
    destruct (send_request_kind (setting env (Str.lit "TELEGRAM_BOT_TOKEN"))
                (chat_id update) (reply_text v ai)) as [_ Hk'].
    unfold send_call in Hk. congruence.
Qed.

(** ** The examples of the specification *)

(** End to end: the update [{message:{chat:{id:42}, text:"hi"}}] with a
    completion service answering [{"reply_text":"Hi! How can I help?"}]
    gives one completion call, one send call to chat 42 with that text,
    and a success response. *)
Example end_to_end v :
  handler v (Samples.answering (Samples.reply_json Samples.greeting)) Samples.env_both
    (Samples.post Samples.update_hi)
  = (inr (Response Host.json_ok 200),
     [ReadBody;
      Fetch (completion_call v Samples.env_both (VString (Str.lit "hi")));
      Fetch (send_request Samples.token (VNumber (Val.num 42))
               (Str.lit "Hi! How can I help?"))]).
Proof. destruct v; vm_compute; reflexivity. Qed.

(** [{"reply_text": "  Hello there  "}] is sent as "Hello there". *)
Example hello_there v :
  calls (snd (handler v (Samples.answering (Samples.reply_json Samples.padded))
                Samples.env_both (Samples.post Samples.update_hi)))
  = [completion_call v Samples.env_both (VString (Str.lit "hi"));
     send_request Samples.token (VNumber (Val.num 42)) (Str.lit "Hello there")].
Proof. destruct v; vm_compute; reflexivity. Qed.

(** A completion result without [reply_text] is answered with the
    fallback text. *)
Example empty_object_gets_the_fallback v :
  calls (snd (handler v (Samples.answering (Str.lit "{}")) Samples.env_both
                (Samples.post Samples.update_hi)))
  = [completion_call v Samples.env_both (VString (Str.lit "hi"));
     send_request Samples.token (VNumber (Val.num 42)) (fallback v)].
Proof. destruct v; vm_compute; reflexivity. Qed.

(** * The runs in full *)

Section Exact.
Context (h : host).

Lemma send_first_exact tok chat text :
  V1.telegramSendMessage h tok chat text
  = (Outcome.delivery (remote h (send_request tok chat text)),
     [Fetch (send_request tok chat text)]).
Proof.
  unfold V1.telegramSendMessage, Outcome.delivery, Outcome.status_error.
  change (Call _ _ _ _) with (send_request tok chat text). eff.
  destruct (remote h (send_request tok chat text)) as [e|res]; eff; [done|].
  destruct (Host.ok res); eff; [done|].
  destruct (res_body res); eff; done.
Qed.

Lemma send_second_exact tok chat text :
  V2.telegramSendMessage h tok chat text
  = (Outcome.delivery (remote h (send_request tok chat text)),
     [Fetch (send_request tok chat text)]).
Proof.
  unfold V2.telegramSendMessage, Outcome.delivery, Outcome.status_error.
  change (Call _ _ _ _) with (send_request tok chat text). eff.
  destruct (remote h (send_request tok chat text)) as [e|res]; eff; [done|].
  destruct (Host.ok res); eff; [done|].
  destruct (res_body res); eff; done.
Qed.

Lemma callGemini_first_exact key model sp text link :
  V1.callGemini h key model sp text link
  = (fst (Outcome.completion First h
            (remote h (completion_request key model
                         (Str.replaceAll sp (Str.lit "{{BOOKING_LINK}}") link) text))),
     Fetch (completion_request key model
              (Str.replaceAll sp (Str.lit "{{BOOKING_LINK}}") link) text)
     :: snd (Outcome.completion First h
               (remote h (completion_request key model
                            (Str.replaceAll sp (Str.lit "{{BOOKING_LINK}}") link) text)))).
Proof.
  set (c := completion_request _ _ _ _).
  unfold V1.callGemini, Outcome.completion, Outcome.status_error.
  change (Call _ _ _ _) with c. eff.
  destruct (remote h c) as [e|res]; eff; [done|].
  destruct (Host.ok res); eff; destruct (res_body res) as [e|body]; eff; try done.
  destruct (JSON_parse h (VString body)) as [data|]; eff; [|done].
  fold (candidate_text data).
  destruct (Val.truthy (candidate_text data)); eff; [|done].
  by destruct (JSON_parse h (candidate_text data)).
Qed.

Lemma callGemini_second_exact env text link :
  Host.set (env !! Str.lit "JIM_API_KEY") = true ->
  Host.set (env !! Str.lit "AI_SYSTEM_PROMPT") = true ->
  V2.callGemini h env text link
  = (fst (Outcome.completion Second h
            (remote h (completion_request (setting env (Str.lit "JIM_API_KEY")) (model env)
                         (Str.replaceAll (setting env (Str.lit "AI_SYSTEM_PROMPT"))
                            (Str.lit "{{BOOKING_LINK}}") link) text))),
     Fetch (completion_request (setting env (Str.lit "JIM_API_KEY")) (model env)
              (Str.replaceAll (setting env (Str.lit "AI_SYSTEM_PROMPT"))
                 (Str.lit "{{BOOKING_LINK}}") link) text)
     :: snd (Outcome.completion Second h
               (remote h (completion_request (setting env (Str.lit "JIM_API_KEY")) (model env)
                            (Str.replaceAll (setting env (Str.lit "AI_SYSTEM_PROMPT"))
                               (Str.lit "{{BOOKING_LINK}}") link) text)))).
Proof.
  intros Hk Hp.
  set (c := completion_request _ _ _ _).
  unfold V2.callGemini, Outcome.completion, Outcome.status_error.
  rewrite (mustEnv_second_set _ _ Hk), (mustEnv_second_set _ _ Hp). eff.
  fold (model env). change (Call _ _ _ _) with c.
  destruct (remote h c) as [e|res]; eff; [done|].
  destruct (Host.ok res); eff; destruct (res_body res) as [e|body]; eff; try done.
  destruct (JSON_parse h (VString body)) as [data|]; eff; [|done].
  fold (candidate_text data).
  destruct (Val.truthy (candidate_text data)); eff; [|done].
  by destruct (JSON_parse h (candidate_text data)).
Qed.

End Exact.

Section Relay.
Context (h : host) (env : gmap jsstring jsstring) (req : request).

(** Walk a request that reaches the body up to its reading. *)
Ltac enter Hp :=
  let Hm := fresh "Hm" in let Hs := fresh "Hs" in let Hg := fresh "Hg" in
  destruct (reaches_parse_inv env req _ Hp) as (Hm & Hs & Hg);
  match goal with
  | |- context [handler First] =>
    let H1 := fresh in let H2 := fresh in let H3 := fresh in
    destruct (all_set_first env Hs) as (H1 & H2 & H3);
    unfold handler, V1.handler;
    rewrite (bool_decide_eq_true_2 _ Hm); eff;
    rewrite (mustEnv_first_set _ _ H1), (mustEnv_first_set _ _ H2),
      (mustEnv_first_set _ _ H3); eff;
    rewrite secret_test, Hg; eff
  | |- context [handler Second] =>
    unfold handler, V2.handler;
    rewrite (bool_decide_eq_true_2 _ Hm); eff;
    rewrite (mustEnv_second_set _ _ (all_set_second env Hs)); eff;
    rewrite secret_test, Hg; eff
  end.

Lemma all_set_second_all :
  all_set env (mandatory Second) = true ->
  Host.set (env !! Str.lit "JIM_API_KEY") = true
  /\ Host.set (env !! Str.lit "AI_SYSTEM_PROMPT") = true.
Proof.
  unfold all_set. cbn [mandatory completion_key forallb].
  rewrite !andb_true_iff. tauto.
Qed.

(** The run for an update with usable chat and text, the configuration
    complete: the body is read, then the relay takes place. *)
Lemma run_relay v update :
  reaches_parse v env req = true -> req_json req = inr update ->
  Val.truthy (chat_id update) = true -> Val.truthy (message_text update) = true ->
  all_set env (mandatory v) = true ->
  handler v h env req = (inr success, ReadBody :: Outcome.relay v h env update).
Proof.
  intros Hp Hj Hc Ht Hall. unfold Outcome.relay.
  destruct v.
  - enter Hp. rewrite Hj; eff.
    fold (chat_id update) (message_text update). rewrite Hc, Ht; eff.
    fold (model env) (booking_link env).
    rewrite callGemini_first_exact.
    change (completion_request _ _ _ _)
      with (completion_call First env (message_text update)).
    destruct (Outcome.completion First h
                (remote h (completion_call First env (message_text update))))
      as [[e|ai] logs]; eff; [done|].
    change (V1.telegramSendMessage h ?a ?b _)
      with (V1.telegramSendMessage h a b (reply_text First ai)).
    rewrite send_first_exact.
    change (send_request _ _ _) with (send_call First env update ai).
    destruct (Outcome.delivery (remote h (send_call First env update ai))) as [e|[]]; eff;
      by rewrite <- ?app_assoc.
  - destruct (all_set_second_all Hall) as [Hk Hsp].
    enter Hp. rewrite Hj; eff.
    fold (chat_id update) (message_text update). rewrite Hc, Ht; eff.
    fold (booking_link env).
    rewrite (callGemini_second_exact h env _ _ Hk Hsp).
    change (completion_request _ _ _ _)
      with (completion_call Second env (message_text update)).
    destruct (Outcome.completion Second h
                (remote h (completion_call Second env (message_text update))))
      as [[e|ai] logs]; eff; [done|].
    change (V2.telegramSendMessage h ?a ?b _)
      with (V2.telegramSendMessage h a b (reply_text Second ai)).
    rewrite send_second_exact.
    change (send_request _ _ _) with (send_call Second env update ai).
    destruct (Outcome.delivery (remote h (send_call Second env update ai))) as [e|[]]; eff;
      by rewrite <- ?app_assoc.
Qed.

(** The second variant with a setting of the completion client unset:
    the body is read, the client's error is logged. *)
Lemma run_client_unconfigured v update :
  reaches_parse v env req = true -> req_json req = inr update ->
  Val.truthy (chat_id update) = true -> Val.truthy (message_text update) = true ->
  all_set env (mandatory v) = false ->
  exists name,
    name ∈ mandatory v /\ Host.set (env !! name) = false
    /\ handler v h env req = (inr success, [ReadBody; caught v (missing v name)]).
Proof.
  intros Hp Hj Hc Ht Hall.
  destruct v.
  { destruct (reaches_parse_inv env req _ Hp) as (_ & Hs & _).
    change (mandatory_at_start First) with (mandatory First) in Hs. congruence. }
  pose proof (reaches_parse_inv env req _ Hp) as (_ & Htok%all_set_second & _).
  revert Hall. unfold all_set. cbn [mandatory completion_key forallb].
  rewrite Htok. cbn [andb]. intros Hall.
  enter Hp. rewrite Hj; eff.
  fold (chat_id update) (message_text update). rewrite Hc, Ht; eff.
  unfold V2.callGemini.
  destruct (Host.set (env !! Str.lit "JIM_API_KEY")) eqn:Hk.
  - rewrite andb_true_r in Hall. cbn [andb] in Hall.
    rewrite (mustEnv_second_set _ _ Hk), (mustEnv_second_unset _ _ Hall). eff.
    exists (Str.lit "AI_SYSTEM_PROMPT"). split; [set_solver|]. by split.
  - rewrite (mustEnv_second_unset _ _ Hk). eff.
    exists (Str.lit "JIM_API_KEY"). split; [set_solver|]. by split.
Qed.

End Relay.

(** * What a run depends on *)

Section Dependence.
Context (h : host).

Lemma effective_set o o' :
  Outcome.effective o = Outcome.effective o' -> Host.set o = Host.set o'.
Proof. destruct o as [[|c s]|], o' as [[|c' s']|]; done. Qed.

Lemma or_default_ext o o' d :
  Outcome.effective o = Outcome.effective o' ->
  Host.or_default o d = Host.or_default o' d.
Proof. destruct o as [[|c s]|], o' as [[|c' s']|]; cbn; congruence. Qed.

Lemma mustEnv_first_ext env env' name :
  Outcome.effective (env !! name) = Outcome.effective (env' !! name) ->
  V1.mustEnv env name = V1.mustEnv env' name.
Proof.
  unfold V1.mustEnv.
  destruct (env !! name) as [[|c s]|], (env' !! name) as [[|c' s']|]; cbn; congruence.
Qed.

Lemma mustEnv_second_ext env env' name :
  Outcome.effective (env !! name) = Outcome.effective (env' !! name) ->
  V2.mustEnv env name = V2.mustEnv env' name.
Proof.
  unfold V2.mustEnv.
  destruct (env !! name) as [[|c s]|], (env' !! name) as [[|c' s']|]; cbn; congruence.
Qed.

(** Names other than the secret's. *)
Ltac other_name := intros Heq; vm_compute in Heq; discriminate Heq.

(** Two invocations run alike when their environments agree, empty
    taken as unset, on every variable but the secret, their requests
    have the same method and body, and the secret check has the same
    outcome. *)
Lemma handler_ext v env env' req req' :
  (forall name,
     name <> Str.lit "TELEGRAM_WEBHOOK_SECRET" ->
     Outcome.effective (env !! name) = Outcome.effective (env' !! name)) ->
  passes_secret_gate env req = passes_secret_gate env' req' ->
  req_method req = req_method req' ->
  req_json req = req_json req' ->
  handler v h env req = handler v h env' req'.
Proof.
  intros Henv Hg Hm Hj.
  assert (Hgate :
    Host.set (env !! Str.lit "TELEGRAM_WEBHOOK_SECRET")
    && negb (bool_decide (Host.headers_get req (Str.lit "x-telegram-bot-api-secret-token")
                          = env !! Str.lit "TELEGRAM_WEBHOOK_SECRET"))
    = Host.set (env' !! Str.lit "TELEGRAM_WEBHOOK_SECRET")
      && negb (bool_decide (Host.headers_get req' (Str.lit "x-telegram-bot-api-secret-token")
                            = env' !! Str.lit "TELEGRAM_WEBHOOK_SECRET"))).
  { by rewrite !secret_test, Hg. }
  destruct v; unfold handler.
  - unfold V1.handler, Host.request_json.
    rewrite Hgate, Hm, Hj.
    rewrite (mustEnv_first_ext env env' (Str.lit "TELEGRAM_BOT_TOKEN")) by (apply Henv; other_name).
    rewrite (mustEnv_first_ext env env' (Str.lit "GEMINI_API_KEY")) by (apply Henv; other_name).
    rewrite (mustEnv_first_ext env env' (Str.lit "AI_SYSTEM_PROMPT")) by (apply Henv; other_name).
    rewrite (or_default_ext (env !! Str.lit "BOOKING_LINK") (env' !! Str.lit "BOOKING_LINK"))
      by (apply Henv; other_name).
    rewrite (or_default_ext (env !! Str.lit "GEMINI_MODEL") (env' !! Str.lit "GEMINI_MODEL"))
      by (apply Henv; other_name).
    reflexivity.
  - unfold V2.handler, V2.callGemini, Host.request_json.
    rewrite Hgate, Hm, Hj.
    rewrite (mustEnv_second_ext env env' (Str.lit "TELEGRAM_BOT_TOKEN")) by (apply Henv; other_name).
    rewrite (mustEnv_second_ext env env' (Str.lit "JIM_API_KEY")) by (apply Henv; other_name).
    rewrite (mustEnv_second_ext env env' (Str.lit "AI_SYSTEM_PROMPT")) by (apply Henv; other_name).
    rewrite (or_default_ext (env !! Str.lit "BOOKING_LINK") (env' !! Str.lit "BOOKING_LINK"))
      by (apply Henv; other_name).
    rewrite (or_default_ext (env !! Str.lit "GEMINI_MODEL") (env' !! Str.lit "GEMINI_MODEL"))
      by (apply Henv; other_name).
    reflexivity.
Qed.

End Dependence.

(** * Further properties of the handler *)

Section Outcomes.
Context (h : host).

Lemma completion_result v reply ai :
  fst (Outcome.completion v h reply) = inr ai <-> completion_yields h reply ai.
Proof.
  unfold Outcome.completion. split.
  - destruct reply as [e|res]; [done|].
    destruct (res_body res) as [e|body] eqn:Hb; [done|].
    destruct (Host.ok res) eqn:Hok; [|done].
    destruct (JSON_parse h (VString body)) as [data|] eqn:Hd; [|done].
    destruct (Val.truthy (candidate_text data)) eqn:Ht; [|done].
    destruct (JSON_parse h (candidate_text data)) as [ai'|] eqn:Ha; [|by destruct v].
    cbn [fst]. intros [= ->]. by eapply yields_json.
  - intros [res body data ai' Hok Hb Hd Ht Ha]. by rewrite Hb, Hok, Hd, Ht, Ha.
Qed.

Lemma completion_result_quiet v reply ai :
  fst (Outcome.completion v h reply) = inr ai -> snd (Outcome.completion v h reply) = [].
Proof.
  unfold Outcome.completion.
  destruct reply as [e|res]; [done|].
  destruct (res_body res) as [e|body]; [done|].
  destruct (Host.ok res); [|done].
  destruct (JSON_parse h (VString body)) as [data|]; [|done].
  destruct (Val.truthy (candidate_text data)); [|done].
  destruct (JSON_parse h (candidate_text data)); [done|by destruct v].
Qed.

Lemma completion_logs_no_call v reply : calls (snd (Outcome.completion v h reply)) = [].
Proof.
  unfold Outcome.completion.
  destruct reply as [e|res]; [done|].
  destruct (res_body res) as [e|body]; [done|].
  destruct (Host.ok res); [|done].
  destruct (JSON_parse h (VString body)) as [data|]; [|done].
  destruct (Val.truthy (candidate_text data)); [|done].
  destruct (JSON_parse h (candidate_text data)); [done|by destruct v].
Qed.

Lemma delivery_ok reply :
  Outcome.delivery reply = inr tt <-> exists res, reply = inr res /\ Host.ok res = true.
Proof.
  unfold Outcome.delivery. split.
  - destruct reply as [e|res]; [done|].
    destruct (Host.ok res) eqn:Hok; [eauto|]. by destruct (res_body res).
  - intros (res & -> & ->). done.
Qed.

End Outcomes.

Lemma caught_is_a_log v e : exists args, caught v e = ConsoleError args.
Proof. destruct v; eauto. Qed.

Lemma success_is_not_ignored : success <> ignored.
Proof. intros H. vm_compute in H. discriminate H. Qed.

(** The response of every run, read off the gates. *)
Lemma response_of_run v h env req :
  fst (handler v h env req) = inr (Outcome.response v env req).
Proof.
  unfold Outcome.response.
  destruct (decide (req_method req = Str.lit "POST")) as [Hm|Hm].
  2:{ rewrite (run_wrong_method h env req v Hm), (bool_decide_eq_false_2 _ Hm). done. }
  rewrite (bool_decide_eq_true_2 _ Hm). cbn [negb].
  destruct (all_set env (mandatory_at_start v)) eqn:Hs; cbn [negb].
  2:{ by destruct (run_unconfigured h env req v Hm Hs) as (name & _ & _ & ->). }
  destruct (passes_secret_gate env req) eqn:Hg; cbn [negb].
  2:{ by rewrite (run_bad_secret h env req v Hm Hs Hg). }
  assert (Hp : reaches_parse v env req = true).
  { unfold reaches_parse. by rewrite (bool_decide_eq_true_2 _ Hm), Hs, Hg. }
  destruct (req_json req) as [e|update] eqn:Hj.
  { by rewrite (run_unreadable h env req v e Hp Hj). }
  destruct (Val.truthy (chat_id update) && Val.truthy (message_text update)) eqn:Ht.
  2:{ by rewrite (run_ignored h env req v update Hp Hj Ht). }
  apply andb_true_iff in Ht as [Hc Ht].
  by destruct (run_valid h env req v update Hp Hj Hc Ht) as (t & -> & _).
Qed.

(** * Configuration, prompt and reply *)

(** C2, amended. When a mandatory environment value is absent, the
    handler never fails: it ends in a response and issues no outbound
    call.  When the method is POST and the absent value is one the
    variant reads at its start (any of the three in the first variant,
    the bot credential in the second), the whole run is one log entry,
    the error of [mustEnv] naming an absent value, and the response
    [{ok:true}] with status 200: the secret is not checked and the body
    is not read.  Past the start only the second variant can still miss
    a value, the completion credential or the template, which it reads
    inside the completion client: for a request that passes the gates
    and whose payload has a usable chat and text, the body is read, the
    error of [mustEnv] naming such a value is logged, and the response
    is [{ok:true}] with status 200. *)
Theorem missing_configuration_is_masked v h env req :
  all_set env (mandatory v) = false ->
  (exists r t, handler v h env req = (inr r, t) /\ calls t = [])
  /\ (req_method req = Str.lit "POST" ->
      all_set env (mandatory_at_start v) = false ->
      exists name,
        name ∈ mandatory_at_start v
        /\ Host.set (env !! name) = false
        /\ handler v h env req
           = (inr (Response Host.json_ok 200), [caught v (missing v name)]))
  /\ (forall update,
        reaches_parse v env req = true ->
        req_json req = inr update ->
        Val.truthy (chat_id update) = true ->
        Val.truthy (message_text update) = true ->
        v = Second
        /\ exists name,
             name ∈ mandatory v
             /\ (name ∉ mandatory_at_start v)
             /\ Host.set (env !! name) = false
             /\ handler v h env req
                = (inr (Response Host.json_ok 200),
                   [ReadBody; caught v (missing v name)])).
Proof.
  intros Hall. split; [|split].
  - destruct (run_cases h env req v) as (r & t & Heq & _ & _ & Hcalls).
    exists r, t. split; [done|].
    destruct (calls t) as [|c l]; [done|].
    destruct Hcalls as (update & _ & _ & _ & _ & Hall'); [done|congruence].
  - apply run_unconfigured.
  - intros update Hp Hj Hc Ht.
    destruct (reaches_parse_inv env req v Hp) as (_ & Hs & _).
    destruct (run_client_unconfigured h env req v update Hp Hj Hc Ht Hall)
      as (name & Hin & Hunset & Heq).
    destruct v.
    { change (mandatory_at_start First) with (mandatory First) in Hs. congruence. }
    split; [done|]. exists name. split; [done|]. split; [|done].
    intros Hstart. apply list_elem_of_singleton in Hstart as ->.
    apply all_set_second in Hs. congruence.
Qed.

Lemma missing_configuration_is_masked_witness :
  (all_set Samples.env_no_template (mandatory First) = false
   /\ exists name,
        name ∈ mandatory_at_start First
        /\ Host.set (Samples.env_no_template !! name) = false
        /\ handler First Samples.overloaded Samples.env_no_template
             (Samples.post Samples.update_hi)
           = (inr (Response Host.json_ok 200), [caught First (missing First name)]))
  /\ (all_set Samples.env_first (mandatory Second) = false
      /\ exists name,
           name ∈ mandatory Second
           /\ (name ∉ mandatory_at_start Second)
           /\ Host.set (Samples.env_first !! name) = false
           /\ handler Second Samples.overloaded Samples.env_first
                (Samples.post Samples.update_hi)
              = (inr (Response Host.json_ok 200),
                 [ReadBody; caught Second (missing Second name)])).
Proof.
  assert (H1 : all_set Samples.env_no_template (mandatory First) = false)
    by (vm_compute; reflexivity).
  assert (H2 : all_set Samples.env_first (mandatory Second) = false)
    by (vm_compute; reflexivity).
  assert (H3 : reaches_parse Second Samples.env_first (Samples.post Samples.update_hi) = true)
    by (vm_compute; reflexivity).
  assert (H4 : Val.truthy (chat_id Samples.update_hi) = true) by (vm_compute; reflexivity).
  assert (H5 : Val.truthy (message_text Samples.update_hi) = true)
    by (vm_compute; reflexivity).
  exact (conj
           (conj H1
              (proj1 (proj2 (missing_configuration_is_masked First Samples.overloaded
                               Samples.env_no_template (Samples.post Samples.update_hi) H1))
                 eq_refl H1))
           (conj H2
              (proj2 (proj2 (proj2 (missing_configuration_is_masked Second Samples.overloaded
                                      Samples.env_first (Samples.post Samples.update_hi) H2))
                               Samples.update_hi H3 eq_refl H4 H5)))).
Defined.

(** The default booking link and a link that shares letters with the
    placeholder hold no reference and cannot be laid over the
    placeholder. *)
Lemma default_link_is_clear :
  has_reference (Str.lit "https://calendly.com/your-link") = false
  /\ ~ overlap (Str.lit "https://calendly.com/your-link") placeholder.
Proof.
  split; [vm_compute; reflexivity|].
  apply overlapb_false; [discriminate|]. vm_compute. reflexivity.
Qed.

Lemma named_link_is_clear :
  has_reference Cases.named_link = false /\ ~ overlap Cases.named_link placeholder.
Proof.
  split; [vm_compute; reflexivity|].
  apply overlapb_false; [discriminate|]. vm_compute. reflexivity.
Qed.

(** The placeholder does not occur a second time in a text made of a
    start of it followed by itself, nor in any proper end of it. *)
Lemma placeholder_found_once i :
  i < length placeholder ->
  Str.find placeholder (take i placeholder ++ placeholder) = Some i.
Proof.
  intros Hi.
  assert (Hall : forallb (fun i => bool_decide
                                     (Str.find placeholder (take i placeholder ++ placeholder)
                                      = Some i))
                   (seq 0 (length placeholder)) = true) by (vm_compute; reflexivity).
  rewrite forallb_forall in Hall. apply (bool_decide_eq_true_1 _), Hall, in_seq. lia.
Qed.

Lemma placeholder_end_free j :
  1 <= j -> Str.find placeholder (drop j placeholder) = None.
Proof.
  intros Hj. destruct (decide (j <= length placeholder)) as [Hle|Hgt].
  - assert (Hall : forallb (fun j => bool_decide
                                       (Str.find placeholder (drop j placeholder) = None))
                     (seq 1 (length placeholder)) = true) by (vm_compute; reflexivity).
    rewrite forallb_forall in Hall. apply (bool_decide_eq_true_1 _), Hall, in_seq. lia.
  - by rewrite drop_ge by lia.
Qed.

Lemma placeholder_rebuilt i m :
  i < length placeholder -> 1 <= m <= length placeholder ->
  substitute_every placeholder (take m (drop i placeholder))
    (take i placeholder ++ placeholder ++ drop (i + m) placeholder)
  = placeholder.
Proof.
  intros Hi Hm.
  assert (Hall : forallb (fun i =>
                    forallb (fun m => bool_decide
                      (substitute_every placeholder (take m (drop i placeholder))
                         (take i placeholder ++ placeholder ++ drop (i + m) placeholder)
                       = placeholder)) (seq 1 (length placeholder)))
                   (seq 0 (length placeholder)) = true) by (vm_compute; reflexivity).
  rewrite forallb_forall in Hall. specialize (Hall i).
  rewrite forallb_forall in Hall.
  apply (bool_decide_eq_true_1 _), Hall; apply in_seq; lia.
Qed.

(** Conversely, a link that can be laid over the placeholder leaves it
    in the prompt of some template. *)
Lemma overlap_is_needed link :
  has_reference link = false ->
  overlap link placeholder ->
  exists template,
    occurs_in placeholder (Str.replaceAll template (Str.lit "{{BOOKING_LINK}}") link).
Proof.
  intros Href Ho.
  assert (Hpat : placeholder <> []) by discriminate.
  assert (Hself : Str.starts_with placeholder placeholder = true) by reflexivity.
  destruct Ho as [(l & r & Hl)|[(l & r & Hl)|[(e & He & [a Ha] & [c Hc])|(e & He & [a Ha] & [c Hc])]]].
  - (* the placeholder occurs in the link *)
    exists placeholder.
    rewrite (replaceAll_substitute _ placeholder _ Hpat Href).
    rewrite substitute_every_hit by done.
    rewrite drop_all, substitute_every_nil, app_nil_r. by exists l, r.
  - (* the link occurs in the placeholder *)
    destruct link as [|u link'] eqn:Hlink.
    { exists (Str.lit "{{BOO" ++ placeholder ++ Str.lit "KING_LINK}}").
      exists [], []. vm_compute. reflexivity. }
    rewrite <- Hlink in *.
    assert (Hm : 1 <= length link) by (rewrite Hlink; simpl; lia).
    clear Hlink.
    exists (l ++ placeholder ++ r).
    rewrite (replaceAll_substitute _ placeholder _ Hpat Href).
    assert (Hlen : length l + length link + length r = length placeholder).
    { apply (f_equal length) in Hl. rewrite !length_app in Hl. lia. }
    assert (l = take (length l) placeholder) as Hl1.
    { rewrite Hl at 1. by rewrite take_app_length. }
    assert (link = take (length link) (drop (length l) placeholder)) as Hl2.
    { rewrite Hl at 1. by rewrite drop_app_length, take_app_length. }
    assert (r = drop (length l + length link) placeholder) as Hl3.
    { rewrite Hl at 1.
      by rewrite (app_assoc l), drop_app_length' by (rewrite length_app; lia). }
    rewrite Hl1 at 1. rewrite Hl2 at 1. rewrite Hl3.
    rewrite placeholder_rebuilt by lia. by exists [], [].
  - (* an end of the placeholder starts the link *)
    exists (a ++ placeholder).
    rewrite (replaceAll_substitute _ placeholder _ Hpat Href).
    assert (Hlen : length a < length placeholder).
    { assert (1 <= length e) by (destruct e; [done|]; cbn [length]; lia).
      apply (f_equal length) in Ha. rewrite length_app in Ha. lia. }
    assert (a = take (length a) placeholder) as Ha1.
    { rewrite Ha at 1. by rewrite take_app_length. }
    pose proof (placeholder_found_once (length a) Hlen) as Hf. rewrite <- Ha1 in Hf.
    destruct (find_Some placeholder link _ _ Hpat Hf) as [_ ->].
    rewrite take_app_length, (drop_ge (a ++ placeholder)) by (rewrite length_app; lia).
    rewrite substitute_every_nil, app_nil_r.
    exists [], c. rewrite Hc, Ha. by rewrite <- !app_assoc.
  - (* an end of the link starts the placeholder *)
    exists (placeholder ++ c).
    rewrite (replaceAll_substitute _ placeholder _ Hpat Href).
    rewrite substitute_every_hit; [|done|by apply starts_with_spec; exists c].
    rewrite drop_app_length.
    assert (c = drop (length e) placeholder) as Hc1.
    { rewrite Hc at 1. by rewrite drop_app_length. }
    assert (He1 : 1 <= length e) by (destruct e; [done|]; cbn [length]; lia).
    rewrite Hc1, (find_None _ _ _ (placeholder_end_free (length e) He1)).
    exists a, []. rewrite <- Hc1, Ha, Hc. by rewrite app_nil_r, <- app_assoc.
Qed.

(** C6, amended. For a request that passes the gates with a usable chat
    and text, under a complete configuration whose booking link holds
    none of the references [$$], [$&], [$`], [$']: the handler reads the
    body and then issues the completion call, the only one of the run,
    whose system instruction is the template with the link substituted,
    left to right, for every occurrence of the placeholder: the template
    is cut at the placeholders into pieces free of it, and the prompt is
    the pieces glued with the link.  When the link moreover cannot be
    laid over the placeholder, the placeholder does not occur in the
    prompt. *)
Theorem resolved_prompt_substitution v h env req update :
  reaches_parse v env req = true ->
  req_json req = inr update ->
  Val.truthy (chat_id update) = true ->
  Val.truthy (message_text update) = true ->
  all_set env (mandatory v) = true ->
  has_reference (booking_link env) = false ->
  exists c t prompt,
    handler v h env req = (inr (Response Host.json_ok 200), ReadBody :: Fetch c :: t)
    /\ is_completion_call c = true
    /\ Forall (fun c' => is_completion_call c' = false) (calls t)
    /\ system_instruction c = VString prompt
    /\ prompt
       = substitute_every placeholder (booking_link env)
           (setting env (Str.lit "AI_SYSTEM_PROMPT"))
    /\ (exists pieces,
          setting env (Str.lit "AI_SYSTEM_PROMPT") = join placeholder pieces
          /\ Forall (fun piece => ~ occurs_in placeholder piece) pieces
          /\ prompt = join (booking_link env) pieces)
    /\ (~ overlap (booking_link env) placeholder -> ~ occurs_in placeholder prompt).
Proof.
  intros Hp Hj Hc Ht Hall Href.
  rewrite (run_relay h env req v update Hp Hj Hc Ht Hall). unfold Outcome.relay.
  cbv zeta.
  exists (completion_call v env (message_text update)).
  eexists.
  exists (Str.replaceAll (setting env (Str.lit "AI_SYSTEM_PROMPT"))
            (Str.lit "{{BOOKING_LINK}}") (booking_link env)).
  split; [reflexivity|].
  split; [exact (proj1 (completion_request_kind _ _ _ _))|].
  split.
  { rewrite calls_app, completion_logs_no_call. cbn [app].
    destruct (fst (Outcome.completion v h _)) as [e|ai].
    - destruct v; constructor.
    - cbn [calls]. constructor; [exact (proj2 (send_request_kind _ _ _))|].
      destruct (Outcome.delivery _) as [e|[]]; [destruct v|]; constructor. }
  split; [reflexivity|].
  assert (Hpat : placeholder <> []) by discriminate.
  rewrite (replaceAll_substitute _ placeholder _ Hpat Href).
  split; [reflexivity|].
  destruct (substitute_every_pieces placeholder (booking_link env)
              (setting env (Str.lit "AI_SYSTEM_PROMPT")) Hpat)
    as (pieces & Hcut & Hfree & Hglue).
  split; [by exists pieces|].
  intros Hclear. rewrite Hglue. by apply join_free.
Qed.

Lemma resolved_prompt_substitution_witness :
  reaches_parse Second Cases.env_named (Samples.post Samples.update_hi) = true
  /\ req_json (Samples.post Samples.update_hi) = inr Samples.update_hi
  /\ Val.truthy (chat_id Samples.update_hi) = true
  /\ Val.truthy (message_text Samples.update_hi) = true
  /\ all_set Cases.env_named (mandatory Second) = true
  /\ has_reference (booking_link Cases.env_named) = false
  /\ exists c t prompt,
       handler Second (Samples.answering (Samples.reply_json Samples.greeting))
         Cases.env_named (Samples.post Samples.update_hi)
       = (inr (Response Host.json_ok 200), ReadBody :: Fetch c :: t)
       /\ is_completion_call c = true
       /\ Forall (fun c' => is_completion_call c' = false) (calls t)
       /\ system_instruction c = VString prompt
       /\ prompt
          = substitute_every placeholder (booking_link Cases.env_named)
              (setting Cases.env_named (Str.lit "AI_SYSTEM_PROMPT"))
       /\ (exists pieces,
             setting Cases.env_named (Str.lit "AI_SYSTEM_PROMPT") = join placeholder pieces
             /\ Forall (fun piece => ~ occurs_in placeholder piece) pieces
             /\ prompt = join (booking_link Cases.env_named) pieces)
       /\ (~ overlap (booking_link Cases.env_named) placeholder ->
           ~ occurs_in placeholder prompt).
Proof.
  assert (H1 : reaches_parse Second Cases.env_named (Samples.post Samples.update_hi) = true)
    by (vm_compute; reflexivity).
  assert (H2 : Val.truthy (chat_id Samples.update_hi) = true) by (vm_compute; reflexivity).
  assert (H3 : Val.truthy (message_text Samples.update_hi) = true)
    by (vm_compute; reflexivity).
  assert (H4 : all_set Cases.env_named (mandatory Second) = true)
    by (vm_compute; reflexivity).
  assert (H5 : has_reference (booking_link Cases.env_named) = false)
    by (vm_compute; reflexivity).
  exact (conj H1 (conj eq_refl (conj H2 (conj H3 (conj H4 (conj H5
           (resolved_prompt_substitution Second
              (Samples.answering (Samples.reply_json Samples.greeting))
              Cases.env_named (Samples.post Samples.update_hi) Samples.update_hi
              H1 eq_refl H2 H3 H4 H5))))))).
Defined.

(** With the link "https://calendly.com/Bob" the prompt of the sample
    template is sent with the link in place of the placeholder. *)
Example named_link_prompt v :
  exists t,
    snd (handler v (Samples.answering (Samples.reply_json Samples.greeting))
           Cases.env_named (Samples.post Samples.update_hi))
    = ReadBody :: Fetch (completion_call v Cases.env_named (VString (Str.lit "hi"))) :: t
    /\ system_instruction (completion_call v Cases.env_named (VString (Str.lit "hi")))
       = VString (Str.lit "You are Jim. Book a call: https://calendly.com/Bob").
Proof. destruct v; eexists; split; vm_compute; reflexivity. Qed.

(** C7. For a request that passes the gates with a usable chat and
    text, under a complete configuration, when the completion service
    answers the completion call with a success carrying text that parses
    to the JSON value [ai]: the run is the body read, the completion
    call, and then one send call to the update's chat, the only other
    call, whose text is: the variant's fallback text when [ai] has no
    string [reply_text]; the fallback text when that string is empty or
    only white space; and otherwise that string without its leading and
    trailing white space. *)
Theorem reply_text_selection v h env req update ai :
  reaches_parse v env req = true ->
  req_json req = inr update ->
  Val.truthy (chat_id update) = true ->
  Val.truthy (message_text update) = true ->
  all_set env (mandatory v) = true ->
  completion_yields h (remote h (completion_call v env (message_text update))) ai ->
  exists c' t,
    handler v h env req
    = (inr (Response Host.json_ok 200),
       ReadBody :: Fetch (completion_call v env (message_text update)) :: Fetch c' :: t)
    /\ calls t = []
    /\ is_completion_call (completion_call v env (message_text update)) = true
    /\ is_send_call c' = true
    /\ sent_chat c' = chat_id update
    /\ ((forall s, Val.opt_get ai (Str.lit "reply_text") <> VString s) ->
        sent_text c' = VString (fallback v))
    /\ forall s,
         Val.opt_get ai (Str.lit "reply_text") = VString s ->
         (forallb Str.is_white_space s = true -> sent_text c' = VString (fallback v))
         /\ (forallb Str.is_white_space s = false ->
             sent_text c' = VString (Str.trim s) /\ stripped s (Str.trim s)).
Proof.
  intros Hp Hj Hc Ht Hall Hy.
  rewrite (run_relay h env req v update Hp Hj Hc Ht Hall). unfold Outcome.relay.
  cbv zeta.
  pose proof (proj2 (completion_result h v _ ai) Hy) as Hdone.
  pose proof (completion_result_quiet h v _ ai Hdone) as Hq.
  rewrite Hdone, Hq. cbn [app].
  exists (send_call v env update ai). eexists.
  split; [reflexivity|].
  split. { destruct (Outcome.delivery _) as [e|[]]; [by destruct v|reflexivity]. }
  split; [exact (proj1 (completion_request_kind _ _ _ _))|].
  split; [exact (proj1 (send_request_kind _ _ _))|].
  split; [reflexivity|].
  destruct (reply_text_cases v ai) as [Hno Hstr].
  change (sent_text (send_call v env update ai)) with (VString (reply_text v ai)).
  split.
  - intros H. by rewrite Hno.
  - intros s Hs. destruct (Hstr s Hs) as [Hblank Htext]. split.
    + intros H. by rewrite Hblank.
    + intros H. rewrite Htext by done. split; [done|]. apply trim_stripped.
Qed.

Lemma reply_text_selection_witness :
  reaches_parse Second Samples.env_both (Samples.post Samples.update_hi) = true
  /\ req_json (Samples.post Samples.update_hi) = inr Samples.update_hi
  /\ Val.truthy (chat_id Samples.update_hi) = true
  /\ Val.truthy (message_text Samples.update_hi) = true
  /\ all_set Samples.env_both (mandatory Second) = true
  /\ completion_yields (Samples.answering (Samples.reply_json Samples.padded))
       (remote (Samples.answering (Samples.reply_json Samples.padded))
          (completion_call Second Samples.env_both (message_text Samples.update_hi)))
       (Samples.reply_value Samples.padded)
  /\ exists c' t,
       handler Second (Samples.answering (Samples.reply_json Samples.padded))
         Samples.env_both (Samples.post Samples.update_hi)
       = (inr (Response Host.json_ok 200),
          ReadBody
          :: Fetch (completion_call Second Samples.env_both (message_text Samples.update_hi))
          :: Fetch c' :: t)
       /\ calls t = []
       /\ is_completion_call
            (completion_call Second Samples.env_both (message_text Samples.update_hi)) = true
       /\ is_send_call c' = true
       /\ sent_chat c' = chat_id Samples.update_hi
       /\ ((forall s,
              Val.opt_get (Samples.reply_value Samples.padded) (Str.lit "reply_text")
              <> VString s) ->
           sent_text c' = VString (fallback Second))
       /\ forall s,
            Val.opt_get (Samples.reply_value Samples.padded) (Str.lit "reply_text")
            = VString s ->
            (forallb Str.is_white_space s = true -> sent_text c' = VString (fallback Second))
            /\ (forallb Str.is_white_space s = false ->
                sent_text c' = VString (Str.trim s) /\ stripped s (Str.trim s)).
Proof.
  assert (H1 : reaches_parse Second Samples.env_both (Samples.post Samples.update_hi) = true)
    by (vm_compute; reflexivity).
  assert (H2 : Val.truthy (chat_id Samples.update_hi) = true) by (vm_compute; reflexivity).
  assert (H3 : Val.truthy (message_text Samples.update_hi) = true)
    by (vm_compute; reflexivity).
  assert (H4 : all_set Samples.env_both (mandatory Second) = true)
    by (vm_compute; reflexivity).
  assert (H5 : completion_yields (Samples.answering (Samples.reply_json Samples.padded))
                 (remote (Samples.answering (Samples.reply_json Samples.padded))
                    (completion_call Second Samples.env_both
                       (message_text Samples.update_hi)))
                 (Samples.reply_value Samples.padded)).
  { change (remote _ _)
      with (@inr exn _ (HttpResponse 200
                          (inr (Samples.completion_body (Samples.reply_json Samples.padded))))).
    eapply yields_json; vm_compute; reflexivity. }
  exact (conj H1 (conj eq_refl (conj H2 (conj H3 (conj H4 (conj H5
           (reply_text_selection Second
              (Samples.answering (Samples.reply_json Samples.padded))
              Samples.env_both (Samples.post Samples.update_hi) Samples.update_hi
              (Samples.reply_value Samples.padded) H1 eq_refl H2 H3 H4 H5))))))).
Defined.

(** * Further properties of the runs *)

(** X1. The handler never fails, and its response follows from the
    request and the environment by a fixed table: 405 when the method is
    not POST; else [{ok:true}] when a setting read at the start is
    unset; else 401 when the secret check fails; else [{ok:true}] when
    the body cannot be parsed; else [{ok:true, ignored:true}] when the
    chat identifier or the text is falsy; else [{ok:true}]. *)
Theorem response_table v h env req :
  fst (handler v h env req)
  = inr (if negb (bool_decide (req_method req = Str.lit "POST"))
         then Response (Str.lit "Method Not Allowed") 405
         else if negb (all_set env (mandatory_at_start v))
         then Response Host.json_ok 200
         else if negb (passes_secret_gate env req)
         then Response (Str.lit "Unauthorized") 401
         else match req_json req with
              | inl _ => Response Host.json_ok 200
              | inr update =>
                if Val.truthy (chat_id update) && Val.truthy (message_text update)
                then Response Host.json_ok 200
                else Response Host.json_ok_ignored 200
              end).
Proof. apply response_of_run. Qed.

(** X2. The response does not depend on the two services: whatever they
    answer, and whether the calls fail or not, the caller is told the
    same. *)
Theorem response_hides_the_services v h h' env req :
  fst (handler v h env req) = fst (handler v h' env req).
Proof. by rewrite !response_of_run. Qed.

(** X3. The request body is read exactly when the method is POST, the
    settings read at the start are present and the secret check passes;
    it is then the first event of the run. *)
Theorem body_is_read_after_the_gates v h env req :
  (ReadBody ∈ snd (handler v h env req) <-> reaches_parse v env req = true)
  /\ (reaches_parse v env req = true ->
      exists t, snd (handler v h env req) = ReadBody :: t).
Proof.
  split; [apply body_read_iff|].
  destruct (run_cases h env req v) as (r & t & -> & _ & Hyes & _). exact Hyes.
Qed.

(** X4. A run whose response is not [{ok:true}] (405, 401, ignored) is
    silent: it logs nothing and issues no outbound call; at most it read
    the body. *)
Theorem rejections_are_silent v h env req :
  fst (handler v h env req) <> inr (Response Host.json_ok 200) ->
  Forall (fun ev => ev = ReadBody) (snd (handler v h env req)).
Proof.
  intros Hr.
  destruct (decide (req_method req = Str.lit "POST")) as [Hm|Hm].
  2:{ rewrite (run_wrong_method h env req v Hm). constructor. }
  destruct (all_set env (mandatory_at_start v)) eqn:Hs.
  2:{ destruct (run_unconfigured h env req v Hm Hs) as (name & _ & _ & Heq).
      rewrite Heq in Hr. by destruct Hr. }
  destruct (passes_secret_gate env req) eqn:Hg.
  2:{ rewrite (run_bad_secret h env req v Hm Hs Hg). constructor. }
  assert (Hp : reaches_parse v env req = true).
  { unfold reaches_parse. by rewrite (bool_decide_eq_true_2 _ Hm), Hs, Hg. }
  destruct (req_json req) as [e|update] eqn:Hj.
  { rewrite (run_unreadable h env req v e Hp Hj) in Hr. by destruct Hr. }
  destruct (Val.truthy (chat_id update) && Val.truthy (message_text update)) eqn:Ht.
  2:{ rewrite (run_ignored h env req v update Hp Hj Ht). by repeat constructor. }
  apply andb_true_iff in Ht as [Hc Ht].
  destruct (run_valid h env req v update Hp Hj Hc Ht) as (t & Heq & _).
  rewrite Heq in Hr. by destruct Hr.
Qed.

Lemma rejections_are_silent_witness :
  fst (handler First Samples.overloaded Samples.env_secret
         (Samples.post Samples.update_hi))
  <> inr (Response Host.json_ok 200)
  /\ Forall (fun ev => ev = ReadBody)
       (snd (handler First Samples.overloaded Samples.env_secret
               (Samples.post Samples.update_hi))).
Proof.
  assert (H1 : fst (handler First Samples.overloaded Samples.env_secret
                      (Samples.post Samples.update_hi))
               <> inr (Response Host.json_ok 200)).
  { intros H. vm_compute in H. discriminate H. }
  exact (conj H1
           (rejections_are_silent First Samples.overloaded Samples.env_secret
              (Samples.post Samples.update_hi) H1)).
Defined.

(** X5. When the body of a request that passed the gates cannot be
    parsed as JSON, the exception of [request.json()] is logged, the
    response is [{ok:true}] with status 200 and no outbound call is
    issued. *)
Theorem unreadable_body_is_masked v h env req e :
  reaches_parse v env req = true ->
  req_json req = inl e ->
  handler v h env req = (inr (Response Host.json_ok 200), [ReadBody; caught v e]).
Proof. apply run_unreadable. Qed.

Lemma unreadable_body_is_masked_witness :
  reaches_parse Second Samples.env_both Cases.post_unreadable = true
  /\ req_json Cases.post_unreadable = inl SyntaxError
  /\ handler Second Samples.overloaded Samples.env_both Cases.post_unreadable
     = (inr (Response Host.json_ok 200), [ReadBody; caught Second SyntaxError]).
Proof.
  assert (H1 : reaches_parse Second Samples.env_both Cases.post_unreadable = true)
    by (vm_compute; reflexivity).
  exact (conj H1 (conj eq_refl
           (unreadable_body_is_masked Second Samples.overloaded Samples.env_both
              Cases.post_unreadable SyntaxError H1 eq_refl))).
Defined.

(** X6. For a POST request with a setting read at the start unset (or
    empty), the run is one log entry, the error of [mustEnv] naming an
    unset variable, and the response [{ok:true}]: neither the secret nor
    the body is looked at. *)
Theorem missing_setting_is_named v h env req :
  req_method req = Str.lit "POST" ->
  all_set env (mandatory_at_start v) = false ->
  exists name,
    name ∈ mandatory_at_start v
    /\ Host.set (env !! name) = false
    /\ handler v h env req
       = (inr (Response Host.json_ok 200), [caught v (missing v name)]).
Proof. apply run_unconfigured. Qed.

Lemma missing_setting_is_named_witness :
  req_method (Samples.post Samples.update_hi) = Str.lit "POST"
  /\ all_set Samples.env_no_template (mandatory_at_start First) = false
  /\ exists name,
       name ∈ mandatory_at_start First
       /\ Host.set (Samples.env_no_template !! name) = false
       /\ handler First Samples.overloaded Samples.env_no_template
            (Samples.post Samples.update_hi)
          = (inr (Response Host.json_ok 200), [caught First (missing First name)]).
Proof.
  assert (H1 : all_set Samples.env_no_template (mandatory_at_start First) = false)
    by (vm_compute; reflexivity).
  exact (conj eq_refl (conj H1
           (missing_setting_is_named First Samples.overloaded Samples.env_no_template
              (Samples.post Samples.update_hi) eq_refl H1))).
Defined.

(** X7. The second variant reads the completion credential and the
    template only when there is a message to relay: with one of them
    unset, a request that passed the gates with usable chat and text
    has its body read, then the error of [mustEnv] logged, and gets
    [{ok:true}]; no outbound call is issued. *)
Theorem client_settings_are_read_late h env req update :
  reaches_parse Second env req = true ->
  req_json req = inr update ->
  Val.truthy (chat_id update) = true ->
  Val.truthy (message_text update) = true ->
  all_set env (mandatory Second) = false ->
  exists name,
    name ∈ mandatory Second
    /\ Host.set (env !! name) = false
    /\ handler Second h env req
       = (inr (Response Host.json_ok 200),
          [ReadBody; caught Second (missing Second name)]).
Proof. apply run_client_unconfigured. Qed.

Lemma client_settings_are_read_late_witness :
  reaches_parse Second Samples.env_first (Samples.post Samples.update_hi) = true
  /\ req_json (Samples.post Samples.update_hi) = inr Samples.update_hi
  /\ Val.truthy (chat_id Samples.update_hi) = true
  /\ Val.truthy (message_text Samples.update_hi) = true
  /\ all_set Samples.env_first (mandatory Second) = false
  /\ exists name,
       name ∈ mandatory Second
       /\ Host.set (Samples.env_first !! name) = false
       /\ handler Second Samples.overloaded Samples.env_first
            (Samples.post Samples.update_hi)
          = (inr (Response Host.json_ok 200),
             [ReadBody; caught Second (missing Second name)]).
Proof.
  assert (H1 : reaches_parse Second Samples.env_first (Samples.post Samples.update_hi) = true)
    by (vm_compute; reflexivity).
  assert (H2 : Val.truthy (chat_id Samples.update_hi) = true) by (vm_compute; reflexivity).
  assert (H3 : Val.truthy (message_text Samples.update_hi) = true)
    by (vm_compute; reflexivity).
  assert (H4 : all_set Samples.env_first (mandatory Second) = false)
    by (vm_compute; reflexivity).
  exact (conj H1 (conj eq_refl (conj H2 (conj H3 (conj H4
           (client_settings_are_read_late Samples.overloaded Samples.env_first
              (Samples.post Samples.update_hi) Samples.update_hi
              H1 eq_refl H2 H3 H4)))))).
Defined.

(** X8. A run issues at most two outbound calls: none, or the completion
    call alone, or the completion call followed by the send call, never
    a send call first or a second call of either kind; and every call is
    a POST with the JSON content type. *)
Theorem calls_are_ordered v h env req :
  (calls (snd (handler v h env req)) = []
   \/ (exists c,
         calls (snd (handler v h env req)) = [c] /\ is_completion_call c = true)
   \/ (exists c s,
         calls (snd (handler v h env req)) = [c; s]
         /\ is_completion_call c = true /\ is_send_call s = true))
  /\ Forall (fun c => call_method c = Str.lit "POST"
                      /\ call_headers c
                         = [(Str.lit "content-type", Str.lit "application/json")])
       (calls (snd (handler v h env req))).
Proof.
  destruct (run_cases h env req v) as (r & t & Heq & _ & _ & Hcalls).
  rewrite Heq. cbn [snd].
  destruct (calls t) as [|c0 l] eqn:Hc0; [split; [by left|constructor]|].
  destruct Hcalls as (update & Hp & Hj & Hc & Ht & Hall); [done|].
  destruct (run_valid h env req v update Hp Hj Hc Ht) as (t' & Heq' & Hcases).
  rewrite Heq in Heq'. injection Heq' as _ ->. cbn [calls] in Hc0.
  destruct Hcases as [[_ Hnil]|[(_ & _ & Hone)|(_ & ai & _ & Htwo)]].
  - congruence.
  - rewrite Hone in Hc0. injection Hc0 as <- <-. split.
    + right; left. eexists. split; [done|]. reflexivity.
    + repeat constructor.
  - rewrite Htwo in Hc0. injection Hc0 as <- <-. split.
    + right; right. do 2 eexists. split; [done|]. split; reflexivity.
    + repeat constructor.
Qed.

(** X9. A run ends in [{ok:true}] without a log entry exactly when the
    message was relayed: the body was read, the completion call's reply
    carried valid JSON, and the send call that followed was answered
    with a success status. *)
Theorem delivered_iff_silent v h env req :
  (fst (handler v h env req) = inr (Response Host.json_ok 200)
   /\ Outcome.silent (snd (handler v h env req)))
  <-> exists update ai res,
        req_json req = inr update
        /\ snd (handler v h env req)
           = [ReadBody;
              Fetch (completion_call v env (message_text update));
              Fetch (send_call v env update ai)]
        /\ completion_yields h
             (remote h (completion_call v env (message_text update))) ai
        /\ remote h (send_call v env update ai) = inr res
        /\ Host.ok res = true.
Proof.
  split.
  - intros [Hr Hquiet].
    destruct (decide (req_method req = Str.lit "POST")) as [Hm|Hm].
    2:{ rewrite (run_wrong_method h env req v Hm) in Hr. vm_compute in Hr. discriminate Hr. }
    destruct (all_set env (mandatory_at_start v)) eqn:Hs.
    2:{ destruct (run_unconfigured h env req v Hm Hs) as (name & _ & _ & Heq).
        rewrite Heq in Hquiet. cbn [snd] in Hquiet.
        destruct (caught_is_a_log v (missing v name)) as [args Ha].
        destruct (Hquiet args). rewrite Ha. left. }
    destruct (passes_secret_gate env req) eqn:Hg.
    2:{ rewrite (run_bad_secret h env req v Hm Hs Hg) in Hr.
        vm_compute in Hr. discriminate Hr. }
    assert (Hp : reaches_parse v env req = true).
    { unfold reaches_parse. by rewrite (bool_decide_eq_true_2 _ Hm), Hs, Hg. }
    destruct (req_json req) as [e|update] eqn:Hj.
    { rewrite (run_unreadable h env req v e Hp Hj) in Hquiet. cbn [snd] in Hquiet.
      destruct (caught_is_a_log v e) as [args Ha].
      destruct (Hquiet args). rewrite Ha. right; left. }
    destruct (Val.truthy (chat_id update) && Val.truthy (message_text update)) eqn:Ht.
    2:{ rewrite (run_ignored h env req v update Hp Hj Ht) in Hr. cbn [fst] in Hr.
        injection Hr as Hr. by destruct success_is_not_ignored. }
    apply andb_true_iff in Ht as [Hc Ht].
    destruct (all_set env (mandatory v)) eqn:Hall.
    2:{ destruct (run_client_unconfigured h env req v update Hp Hj Hc Ht Hall)
          as (name & _ & _ & Heq).
        rewrite Heq in Hquiet. cbn [snd] in Hquiet.
        destruct (caught_is_a_log v (missing v name)) as [args Ha].
        destruct (Hquiet args). rewrite Ha. right; left. }
    rewrite (run_relay h env req v update Hp Hj Hc Ht Hall) in Hquiet |- *.
    cbn [snd] in Hquiet |- *. unfold Outcome.relay in Hquiet |- *.
    destruct (Outcome.completion v h
                (remote h (completion_call v env (message_text update))))
      as [[e|ai] logs] eqn:Hdone; cbn [fst snd] in Hquiet |- *.
    { destruct (caught_is_a_log v e) as [args Ha].
      destruct (Hquiet args). rewrite Ha. set_solver. }
    assert (Hy : completion_yields h
                   (remote h (completion_call v env (message_text update))) ai).
    { apply (completion_result h v). by rewrite Hdone. }
    assert (logs = []) as ->.
    { pose proof (completion_result_quiet h v
                    (remote h (completion_call v env (message_text update))) ai) as Hq.
      rewrite Hdone in Hq. by apply Hq. }
    destruct (Outcome.delivery (remote h (send_call v env update ai))) as [e|[]] eqn:Hd.
    { destruct (caught_is_a_log v e) as [args Ha].
      destruct (Hquiet args). rewrite Ha. set_solver. }
    apply delivery_ok in Hd as (res & Hres & Hok).
    exists update, ai, res. done.
  - intros (update & ai & res & Hj & Ht & Hy & Hres & Hok).
    split.
    2:{ rewrite Ht. intros args Hin.
        repeat (apply elem_of_cons in Hin as [Hin|Hin]; [discriminate Hin|]).
        by apply elem_of_nil in Hin. }
    rewrite response_of_run. unfold Outcome.response.
    assert (Hp : reaches_parse v env req = true).
    { apply (body_read_iff h env req v). rewrite Ht. left. }
    destruct (reaches_parse_inv env req v Hp) as (Hm & Hs & Hg).
    rewrite (bool_decide_eq_true_2 _ Hm), Hs, Hg, Hj. cbn [negb].
    destruct (Val.truthy (chat_id update) && Val.truthy (message_text update)) eqn:Hu; [done|].
    rewrite (run_ignored h env req v update Hp Hj Hu) in Ht. discriminate Ht.
Qed.

(** X10. When the completion succeeded but the messaging platform
    answers the send call with a non-success status, the handler logs
    an error holding that status and the reply's body, and still
    responds [{ok:true}]; the send call is not repeated. *)
Theorem delivery_failure_is_logged v h env req update ai res body :
  reaches_parse v env req = true ->
  req_json req = inr update ->
  Val.truthy (chat_id update) = true ->
  Val.truthy (message_text update) = true ->
  all_set env (mandatory v) = true ->
  completion_yields h (remote h (completion_call v env (message_text update))) ai ->
  remote h (send_call v env update ai) = inr res ->
  Host.ok res = false ->
  res_body res = inr body ->
  handler v h env req
  = (inr (Response Host.json_ok 200),
     [ReadBody;
      Fetch (completion_call v env (message_text update));
      Fetch (send_call v env update ai);
      caught v (Error (Str.lit "Telegram sendMessage failed: "
                         ++ Str.of_N (res_status res) ++ Str.lit " " ++ body))]).
Proof.
  intros Hp Hj Hc Ht Hall Hy Hres Hok Hb.
  rewrite (run_relay h env req v update Hp Hj Hc Ht Hall). unfold Outcome.relay.
  pose proof (proj2 (completion_result h v _ ai) Hy) as Hdone.
  pose proof (completion_result_quiet h v _ ai Hdone) as Hq.
  rewrite Hdone, Hq, Hres. unfold Outcome.delivery. by rewrite Hok, Hb.
Qed.

Lemma delivery_failure_is_logged_witness :
  reaches_parse Second Samples.env_both (Samples.post Samples.update_hi) = true
  /\ req_json (Samples.post Samples.update_hi) = inr Samples.update_hi
  /\ Val.truthy (chat_id Samples.update_hi) = true
  /\ Val.truthy (message_text Samples.update_hi) = true
  /\ all_set Samples.env_both (mandatory Second) = true
  /\ completion_yields Cases.blocked
       (remote Cases.blocked
          (completion_call Second Samples.env_both (message_text Samples.update_hi)))
       (Samples.reply_value Samples.greeting)
  /\ remote Cases.blocked
       (send_call Second Samples.env_both Samples.update_hi
          (Samples.reply_value Samples.greeting))
     = inr (HttpResponse 403 (inr (Str.lit "Forbidden: bot was blocked by the user")))
  /\ handler Second Cases.blocked Samples.env_both (Samples.post Samples.update_hi)
     = (inr (Response Host.json_ok 200),
        [ReadBody;
         Fetch (completion_call Second Samples.env_both (message_text Samples.update_hi));
         Fetch (send_call Second Samples.env_both Samples.update_hi
                  (Samples.reply_value Samples.greeting));
         caught Second
           (Error (Str.lit "Telegram sendMessage failed: "
                     ++ Str.of_N 403 ++ Str.lit " "
                     ++ Str.lit "Forbidden: bot was blocked by the user"))]).
Proof.
  assert (H1 : reaches_parse Second Samples.env_both (Samples.post Samples.update_hi) = true)
    by (vm_compute; reflexivity).
  assert (H2 : Val.truthy (chat_id Samples.update_hi) = true) by (vm_compute; reflexivity).
  assert (H3 : Val.truthy (message_text Samples.update_hi) = true)
    by (vm_compute; reflexivity).
  assert (H4 : all_set Samples.env_both (mandatory Second) = true)
    by (vm_compute; reflexivity).
  assert (H5 : completion_yields Cases.blocked
                 (remote Cases.blocked
                    (completion_call Second Samples.env_both
                       (message_text Samples.update_hi)))
                 (Samples.reply_value Samples.greeting)).
  { change (remote _ _)
      with (@inr exn _ (HttpResponse 200
                          (inr (Samples.completion_body
                                  (Samples.reply_json Samples.greeting))))).
    eapply yields_json; vm_compute; reflexivity. }
  assert (H6 : remote Cases.blocked
                 (send_call Second Samples.env_both Samples.update_hi
                    (Samples.reply_value Samples.greeting))
               = inr (HttpResponse 403
                        (inr (Str.lit "Forbidden: bot was blocked by the user"))))
    by (vm_compute; reflexivity).
  exact (conj H1 (conj eq_refl (conj H2 (conj H3 (conj H4 (conj H5 (conj H6
           (delivery_failure_is_logged Second Cases.blocked Samples.env_both
              (Samples.post Samples.update_hi) Samples.update_hi
              (Samples.reply_value Samples.greeting)
              (HttpResponse 403 (inr (Str.lit "Forbidden: bot was blocked by the user")))
              (Str.lit "Forbidden: bot was blocked by the user")
              H1 eq_refl H2 H3 H4 H5 H6 eq_refl eq_refl)))))))).
Defined.

(** X11. When the completion service answers with a non-success status,
    the handler logs an error holding that status and the reply's body
    (after the variant's prefix), responds [{ok:true}], and issues no
    send call. *)
Theorem upstream_status_is_logged v h env req update res body :
  reaches_parse v env req = true ->
  req_json req = inr update ->
  Val.truthy (chat_id update) = true ->
  Val.truthy (message_text update) = true ->
  all_set env (mandatory v) = true ->
  remote h (completion_call v env (message_text update)) = inr res ->
  Host.ok res = false ->
  res_body res = inr body ->
  handler v h env req
  = (inr (Response Host.json_ok 200),
     [ReadBody;
      Fetch (completion_call v env (message_text update));
      caught v (Error ((match v with
                        | First => Str.lit "Gemini failed: "
                        | Second => Str.lit "Gemini API failed: "
                        end)
                       ++ Str.of_N (res_status res) ++ Str.lit " " ++ body))]).
Proof.
  intros Hp Hj Hc Ht Hall Hres Hok Hb.
  rewrite (run_relay h env req v update Hp Hj Hc Ht Hall). unfold Outcome.relay.
  rewrite Hres. unfold Outcome.completion. rewrite Hb, Hok. by destruct v.
Qed.

Lemma upstream_status_is_logged_witness :
  reaches_parse First Samples.env_first (Samples.post Samples.update_hi) = true
  /\ req_json (Samples.post Samples.update_hi) = inr Samples.update_hi
  /\ Val.truthy (chat_id Samples.update_hi) = true
  /\ Val.truthy (message_text Samples.update_hi) = true
  /\ all_set Samples.env_first (mandatory First) = true
  /\ remote Samples.overloaded
       (completion_call First Samples.env_first (message_text Samples.update_hi))
     = inr (HttpResponse 503 (inr (Str.lit "overloaded")))
  /\ handler First Samples.overloaded Samples.env_first (Samples.post Samples.update_hi)
     = (inr (Response Host.json_ok 200),
        [ReadBody;
         Fetch (completion_call First Samples.env_first (message_text Samples.update_hi));
         caught First
           (Error (Str.lit "Gemini failed: " ++ Str.of_N 503 ++ Str.lit " "
                     ++ Str.lit "overloaded"))]).
Proof.
  assert (H1 : reaches_parse First Samples.env_first (Samples.post Samples.update_hi) = true)
    by (vm_compute; reflexivity).
  assert (H2 : Val.truthy (chat_id Samples.update_hi) = true) by (vm_compute; reflexivity).
  assert (H3 : Val.truthy (message_text Samples.update_hi) = true)
    by (vm_compute; reflexivity).
  assert (H4 : all_set Samples.env_first (mandatory First) = true)
    by (vm_compute; reflexivity).
  assert (H5 : remote Samples.overloaded
                 (completion_call First Samples.env_first
                    (message_text Samples.update_hi))
               = inr (HttpResponse 503 (inr (Str.lit "overloaded"))))
    by (vm_compute; reflexivity).
  exact (conj H1 (conj eq_refl (conj H2 (conj H3 (conj H4 (conj H5
           (upstream_status_is_logged First Samples.overloaded Samples.env_first
              (Samples.post Samples.update_hi) Samples.update_hi
              (HttpResponse 503 (inr (Str.lit "overloaded"))) (Str.lit "overloaded")
              H1 eq_refl H2 H3 H4 H5 eq_refl eq_refl))))))).
Defined.

(** X12. When the completion service answers with a success status and
    a JSON body whose first candidate has no text (no candidates, no
    parts, a null or empty text, or a body that is no object at all),
    the handler logs the variant's no-text error, responds [{ok:true}],
    and issues no send call. *)
Theorem missing_text_is_logged v h env req update res body data :
  reaches_parse v env req = true ->
  req_json req = inr update ->
  Val.truthy (chat_id update) = true ->
  Val.truthy (message_text update) = true ->
  all_set env (mandatory v) = true ->
  remote h (completion_call v env (message_text update)) = inr res ->
  Host.ok res = true ->
  res_body res = inr body ->
  JSON_parse h (VString body) = Some data ->
  Val.truthy (candidate_text data) = false ->
  handler v h env req
  = (inr (Response Host.json_ok 200),
     [ReadBody;
      Fetch (completion_call v env (message_text update));
      caught v (Error (match v with
                       | First => Str.lit "Gemini returned no text."
                       | Second => Str.lit "Gemini returned empty response."
                       end))]).
Proof.
  intros Hp Hj Hc Ht Hall Hres Hok Hb Hd Hno.
  rewrite (run_relay h env req v update Hp Hj Hc Ht Hall). unfold Outcome.relay.
  rewrite Hres. unfold Outcome.completion. rewrite Hb, Hok, Hd, Hno. by destruct v.
Qed.

Lemma missing_text_is_logged_witness :
  reaches_parse Second Samples.env_both (Samples.post Samples.update_hi) = true
  /\ req_json (Samples.post Samples.update_hi) = inr Samples.update_hi
  /\ Val.truthy (chat_id Samples.update_hi) = true
  /\ Val.truthy (message_text Samples.update_hi) = true
  /\ all_set Samples.env_both (mandatory Second) = true
  /\ remote Cases.speechless
       (completion_call Second Samples.env_both (message_text Samples.update_hi))
     = inr (HttpResponse 200 (inr (Str.lit "{}")))
  /\ JSON_parse Cases.speechless (VString (Str.lit "{}")) = Some (VObject [])
  /\ Val.truthy (candidate_text (VObject [])) = false
  /\ handler Second Cases.speechless Samples.env_both (Samples.post Samples.update_hi)
     = (inr (Response Host.json_ok 200),
        [ReadBody;
         Fetch (completion_call Second Samples.env_both (message_text Samples.update_hi));
         caught Second (Error (Str.lit "Gemini returned empty response."))]).
Proof.
  assert (H1 : reaches_parse Second Samples.env_both (Samples.post Samples.update_hi) = true)
    by (vm_compute; reflexivity).
  assert (H2 : Val.truthy (chat_id Samples.update_hi) = true) by (vm_compute; reflexivity).
  assert (H3 : Val.truthy (message_text Samples.update_hi) = true)
    by (vm_compute; reflexivity).
  assert (H4 : all_set Samples.env_both (mandatory Second) = true)
    by (vm_compute; reflexivity).
  assert (H5 : remote Cases.speechless
                 (completion_call Second Samples.env_both
                    (message_text Samples.update_hi))
               = inr (HttpResponse 200 (inr (Str.lit "{}"))))
    by (vm_compute; reflexivity).
  assert (H6 : JSON_parse Cases.speechless (VString (Str.lit "{}")) = Some (VObject []))
    by (vm_compute; reflexivity).
  exact (conj H1 (conj eq_refl (conj H2 (conj H3 (conj H4 (conj H5 (conj H6 (conj eq_refl
           (missing_text_is_logged Second Cases.speechless Samples.env_both
              (Samples.post Samples.update_hi) Samples.update_hi
              (HttpResponse 200 (inr (Str.lit "{}"))) (Str.lit "{}") (VObject [])
              H1 eq_refl H2 H3 H4 H5 eq_refl eq_refl H6 eq_refl))))))))).
Defined.

(** X13. Second variant: when the completion service answers with a
    success status and a text that is present but not JSON, the client
    logs that text, the handler logs the client's malformed-JSON error,
    the response is [{ok:true}], and no send call is issued. *)
Theorem second_variant_logs_malformed_text h env req update raw :
  reaches_parse Second env req = true ->
  req_json req = inr update ->
  Val.truthy (chat_id update) = true ->
  Val.truthy (message_text update) = true ->
  all_set env (mandatory Second) = true ->
  completion_garbage h
    (remote h (completion_call Second env (message_text update))) raw ->
  handler Second h env req
  = (inr (Response Host.json_ok 200),
     [ReadBody;
      Fetch (completion_call Second env (message_text update));
      ConsoleError [LogValue (VString (Str.lit "Invalid JSON from Gemini:")); LogValue raw];
      ConsoleError [LogValue (VString (Str.lit "Webhook Error:"));
                    LogExn (Error (Str.lit "Gemini returned malformed JSON."))]]).
Proof.
  intros Hp Hj Hc Ht Hall Hg.
  rewrite (run_relay h env req Second update Hp Hj Hc Ht Hall). unfold Outcome.relay.
  destruct Hg as [res body data Hok Hb Hd Htxt Ha].
  unfold Outcome.completion. by rewrite Hb, Hok, Hd, Htxt, Ha.
Qed.

Lemma second_variant_logs_malformed_text_witness :
  reaches_parse Second Samples.env_both (Samples.post Samples.update_hi) = true
  /\ req_json (Samples.post Samples.update_hi) = inr Samples.update_hi
  /\ Val.truthy (chat_id Samples.update_hi) = true
  /\ Val.truthy (message_text Samples.update_hi) = true
  /\ all_set Samples.env_both (mandatory Second) = true
  /\ completion_garbage (Samples.answering Samples.garbage)
       (remote (Samples.answering Samples.garbage)
          (completion_call Second Samples.env_both (message_text Samples.update_hi)))
       (VString Samples.garbage)
  /\ handler Second (Samples.answering Samples.garbage) Samples.env_both
       (Samples.post Samples.update_hi)
     = (inr (Response Host.json_ok 200),
        [ReadBody;
         Fetch (completion_call Second Samples.env_both (message_text Samples.update_hi));
         ConsoleError [LogValue (VString (Str.lit "Invalid JSON from Gemini:"));
                       LogValue (VString Samples.garbage)];
         ConsoleError [LogValue (VString (Str.lit "Webhook Error:"));
                       LogExn (Error (Str.lit "Gemini returned malformed JSON."))]]).
Proof.
  assert (H1 : reaches_parse Second Samples.env_both (Samples.post Samples.update_hi) = true)
    by (vm_compute; reflexivity).
  assert (H2 : Val.truthy (chat_id Samples.update_hi) = true) by (vm_compute; reflexivity).
  assert (H3 : Val.truthy (message_text Samples.update_hi) = true)
    by (vm_compute; reflexivity).
  assert (H4 : all_set Samples.env_both (mandatory Second) = true)
    by (vm_compute; reflexivity).
  assert (H5 : completion_garbage (Samples.answering Samples.garbage)
                 (remote (Samples.answering Samples.garbage)
                    (completion_call Second Samples.env_both
                       (message_text Samples.update_hi)))
                 (VString Samples.garbage)).
  { change (remote _ _)
      with (@inr exn _ (HttpResponse 200 (inr (Samples.completion_body Samples.garbage)))).
    change (VString Samples.garbage)
      with (candidate_text (Samples.completion_data Samples.garbage)).
    eapply garbage_text; vm_compute; reflexivity. }
  exact (conj H1 (conj eq_refl (conj H2 (conj H3 (conj H4 (conj H5
           (second_variant_logs_malformed_text (Samples.answering Samples.garbage)
              Samples.env_both (Samples.post Samples.update_hi) Samples.update_hi
              (VString Samples.garbage) H1 eq_refl H2 H3 H4 H5))))))).
Defined.

(** X14. First variant: on the same kind of reply the exception of
    [JSON.parse] itself reaches the handler; [console.error] is called
    once, by the handler, with that exception as its only argument; the
    response is [{ok:true}], and no send call is issued. *)
Theorem first_variant_logs_the_parser_exception h env req update raw :
  reaches_parse First env req = true ->
  req_json req = inr update ->
  Val.truthy (chat_id update) = true ->
  Val.truthy (message_text update) = true ->
  completion_garbage h
    (remote h (completion_call First env (message_text update))) raw ->
  handler First h env req
  = (inr (Response Host.json_ok 200),
     [ReadBody;
      Fetch (completion_call First env (message_text update));
      ConsoleError [LogExn SyntaxError]]).
Proof.
  intros Hp Hj Hc Ht Hg.
  assert (Hall : all_set env (mandatory First) = true).
  { by destruct (reaches_parse_inv env req First Hp) as (_ & Hs & _). }
  rewrite (run_relay h env req First update Hp Hj Hc Ht Hall). unfold Outcome.relay.
  destruct Hg as [res body data Hok Hb Hd Htxt Ha].
  unfold Outcome.completion. by rewrite Hb, Hok, Hd, Htxt, Ha.
Qed.

Lemma first_variant_logs_the_parser_exception_witness :
  reaches_parse First Samples.env_first (Samples.post Samples.update_hi) = true
  /\ req_json (Samples.post Samples.update_hi) = inr Samples.update_hi
  /\ Val.truthy (chat_id Samples.update_hi) = true
  /\ Val.truthy (message_text Samples.update_hi) = true
  /\ completion_garbage (Samples.answering Samples.garbage)
       (remote (Samples.answering Samples.garbage)
          (completion_call First Samples.env_first (message_text Samples.update_hi)))
       (VString Samples.garbage)
  /\ handler First (Samples.answering Samples.garbage) Samples.env_first
       (Samples.post Samples.update_hi)
     = (inr (Response Host.json_ok 200),
        [ReadBody;
         Fetch (completion_call First Samples.env_first (message_text Samples.update_hi));
         ConsoleError [LogExn SyntaxError]]).
Proof.
  assert (H1 : reaches_parse First Samples.env_first (Samples.post Samples.update_hi) = true)
    by (vm_compute; reflexivity).
  assert (H2 : Val.truthy (chat_id Samples.update_hi) = true) by (vm_compute; reflexivity).
  assert (H3 : Val.truthy (message_text Samples.update_hi) = true)
    by (vm_compute; reflexivity).
  assert (H5 : completion_garbage (Samples.answering Samples.garbage)
                 (remote (Samples.answering Samples.garbage)
                    (completion_call First Samples.env_first
                       (message_text Samples.update_hi)))
                 (VString Samples.garbage)).
  { change (remote _ _)
      with (@inr exn _ (HttpResponse 200 (inr (Samples.completion_body Samples.garbage)))).
    change (VString Samples.garbage)
      with (candidate_text (Samples.completion_data Samples.garbage)).
    eapply garbage_text; vm_compute; reflexivity. }
  exact (conj H1 (conj eq_refl (conj H2 (conj H3 (conj H5
           (first_variant_logs_the_parser_exception (Samples.answering Samples.garbage)
              Samples.env_first (Samples.post Samples.update_hi) Samples.update_hi
              (VString Samples.garbage) H1 eq_refl H2 H3 H5)))))).
Defined.

(** * The environment and the secret *)

(** X15. A variable set to the empty string is the same as a variable
    that is not set: for every name, the run is the same with the name
    bound to the empty string as with the name removed. *)
Theorem empty_setting_is_unset v h env req name :
  handler v h (<[name := []]> env) req = handler v h (delete name env) req.
Proof.
  apply handler_ext; try done.
  - intros n _. destruct (decide (name = n)) as [->|Hne].
    + by rewrite lookup_insert_eq, lookup_delete_eq.
    + by rewrite lookup_insert_ne, lookup_delete_ne.
  - unfold passes_secret_gate, secret_configured, secret_matches.
    destruct (decide (name = Str.lit "TELEGRAM_WEBHOOK_SECRET")) as [->|Hne].
    + by rewrite lookup_insert_eq, lookup_delete_eq.
    + by rewrite lookup_insert_ne, lookup_delete_ne.
Qed.

(** X16. Without a secret configured (unset or empty), the request
    headers play no part: two requests with the same method and body
    run alike whatever their headers. *)
Theorem headers_are_ignored_without_secret v h env req req' :
  secret_configured env = false ->
  req_method req = req_method req' ->
  req_json req = req_json req' ->
  handler v h env req = handler v h env req'.
Proof.
  intros Hs Hm Hj. apply handler_ext; try done.
  unfold passes_secret_gate. by rewrite Hs.
Qed.

Lemma headers_are_ignored_without_secret_witness :
  secret_configured Samples.env_both = false
  /\ req_method (Samples.post Samples.update_hi)
     = req_method (Samples.post_with_secret (Str.lit "guess") Samples.update_hi)
  /\ req_json (Samples.post Samples.update_hi)
     = req_json (Samples.post_with_secret (Str.lit "guess") Samples.update_hi)
  /\ handler First Samples.overloaded Samples.env_both (Samples.post Samples.update_hi)
     = handler First Samples.overloaded Samples.env_both
         (Samples.post_with_secret (Str.lit "guess") Samples.update_hi).
Proof.
  assert (H1 : secret_configured Samples.env_both = false) by (vm_compute; reflexivity).
  exact (conj H1 (conj eq_refl (conj eq_refl
           (headers_are_ignored_without_secret First Samples.overloaded Samples.env_both
              (Samples.post Samples.update_hi)
              (Samples.post_with_secret (Str.lit "guess") Samples.update_hi)
              H1 eq_refl eq_refl)))).
Defined.

(** X17. A request whose header equals the configured secret runs
    exactly as it would with no secret configured: the check adds
    nothing to an authorised request. *)
Theorem matching_secret_is_transparent v h env req s :
  env !! Str.lit "TELEGRAM_WEBHOOK_SECRET" = Some s ->
  Host.headers_get req (Str.lit "x-telegram-bot-api-secret-token") = Some s ->
  handler v h env req
  = handler v h (delete (Str.lit "TELEGRAM_WEBHOOK_SECRET") env) req.
Proof.
  intros He Hh. apply handler_ext; try done.
  - intros n Hn. by rewrite lookup_delete_ne.
  - unfold passes_secret_gate, secret_configured, secret_matches.
    rewrite lookup_delete_eq, He, Hh. cbn [Host.set negb orb].
    rewrite bool_decide_eq_true_2 by done. apply orb_true_r.
Qed.

Lemma matching_secret_is_transparent_witness :
  Samples.env_secret !! Str.lit "TELEGRAM_WEBHOOK_SECRET" = Some Samples.secret
  /\ Host.headers_get (Samples.post_with_secret Samples.secret Samples.update_hi)
       (Str.lit "x-telegram-bot-api-secret-token") = Some Samples.secret
  /\ handler Second Samples.overloaded Samples.env_secret
       (Samples.post_with_secret Samples.secret Samples.update_hi)
     = handler Second Samples.overloaded
         (delete (Str.lit "TELEGRAM_WEBHOOK_SECRET") Samples.env_secret)
         (Samples.post_with_secret Samples.secret Samples.update_hi).
Proof.
  assert (H1 : Samples.env_secret !! Str.lit "TELEGRAM_WEBHOOK_SECRET"
               = Some Samples.secret) by (vm_compute; reflexivity).
  assert (H2 : Host.headers_get (Samples.post_with_secret Samples.secret Samples.update_hi)
                 (Str.lit "x-telegram-bot-api-secret-token") = Some Samples.secret)
    by (vm_compute; reflexivity).
  exact (conj H1 (conj H2
           (matching_secret_is_transparent Second Samples.overloaded Samples.env_secret
              (Samples.post_with_secret Samples.secret Samples.update_hi)
              Samples.secret H1 H2))).
Defined.

(** * What is sent *)

Lemma fallback_is_text v :
  fallback v <> []
  /\ (forall u, head (fallback v) = Some u -> Str.is_white_space u = false)
  /\ (forall u, last (fallback v) = Some u -> Str.is_white_space u = false).
Proof.
  destruct v; (split; [discriminate|]); split; vm_compute; by intros u [= <-].
Qed.

Lemma reply_text_is_text v ai :
  reply_text v ai <> []
  /\ (forall u, head (reply_text v ai) = Some u -> Str.is_white_space u = false)
  /\ (forall u, last (reply_text v ai) = Some u -> Str.is_white_space u = false).
Proof.
  destruct (reply_text_cases v ai) as [Hno Hstr].
  destruct (Val.opt_get ai (Str.lit "reply_text")) as [| |b|x|s|l|p] eqn:Hget;
    try (rewrite Hno by (intros s' [=]); apply fallback_is_text).
  destruct (Hstr s eq_refl) as [Hblank Htext].
  destruct (forallb Str.is_white_space s) eqn:Hws.
  - rewrite Hblank by done. apply fallback_is_text.
  - rewrite Htext by done.
    destruct (trim_stripped s) as (l & r & _ & _ & _ & Hhead & Hlast).
    split; [|by split]. intros Hnil%trim_nil. congruence.
Qed.

(** The send call of a run, if there is one. *)
Lemma send_call_of_run v h env req c :
  c ∈ calls (snd (handler v h env req)) ->
  is_send_call c = true ->
  exists update ai,
    req_json req = inr update
    /\ completion_yields h (remote h (completion_call v env (message_text update))) ai
    /\ c = send_call v env update ai.
Proof.
  intros Hin Hk.
  destruct (run_cases h env req v) as (r & t & Heq & _ & _ & Hcalls).
  rewrite Heq in Hin. cbn [snd] in Hin.
  destruct Hcalls as (update & Hp & Hj & Hc & Ht & Hall).
  { intros Hnil. rewrite Hnil in Hin. by apply elem_of_nil in Hin. }
  destruct (run_valid h env req v update Hp Hj Hc Ht) as (t' & Heq' & Hcases).
  rewrite Heq in Heq'. injection Heq' as _ ->. cbn [calls] in Hin.
  destruct Hcases as [[_ Hnil]|[(_ & _ & Hone)|(_ & ai & Hy & Htwo)]].
  - rewrite Hnil in Hin. by apply elem_of_nil in Hin.
  - rewrite Hone in Hin. apply list_elem_of_singleton in Hin as ->.
    assert (is_send_call (completion_call v env (message_text update)) = false)
      by reflexivity.
    congruence.
  - rewrite Htwo in Hin. apply elem_of_cons in Hin as [->|Hin].
    + assert (is_send_call (completion_call v env (message_text update)) = false)
        by reflexivity.
      congruence.
    + apply list_elem_of_singleton in Hin as ->. by exists update, ai.
Qed.

(** The completion call of a run, if there is one. *)
Lemma completion_call_of_run v h env req c :
  c ∈ calls (snd (handler v h env req)) ->
  is_completion_call c = true ->
  exists update,
    req_json req = inr update
    /\ Val.truthy (message_text update) = true
    /\ all_set env (mandatory v) = true
    /\ c = completion_call v env (message_text update).
Proof.
  intros Hin Hk.
  destruct (run_cases h env req v) as (r & t & Heq & _ & _ & Hcalls).
  rewrite Heq in Hin. cbn [snd] in Hin.
  destruct Hcalls as (update & Hp & Hj & Hc & Ht & Hall).
  { intros Hnil. rewrite Hnil in Hin. by apply elem_of_nil in Hin. }
  destruct (run_valid h env req v update Hp Hj Hc Ht) as (t' & Heq' & Hcases).
  rewrite Heq in Heq'. injection Heq' as _ ->. cbn [calls] in Hin.
  exists update. split; [done|]. split; [done|]. split; [done|].
  destruct Hcases as [[_ Hnil]|[(_ & _ & Hone)|(_ & ai & Hy & Htwo)]].
  - rewrite Hnil in Hin. by apply elem_of_nil in Hin.
  - rewrite Hone in Hin. by apply list_elem_of_singleton in Hin.
  - rewrite Htwo in Hin. apply elem_of_cons in Hin as [->|Hin]; [done|].
    apply list_elem_of_singleton in Hin as ->.
    assert (is_completion_call (send_call v env update ai) = false) by reflexivity.
    congruence.
Qed.

(** X18. The handler never sends a blank message: the text of every
    send call is a string that is not empty and neither starts nor ends
    with white space, and the call goes to the chat of the update. *)
Theorem reply_is_never_blank v h env req c :
  c ∈ calls (snd (handler v h env req)) ->
  is_send_call c = true ->
  exists update s,
    req_json req = inr update
    /\ sent_chat c = chat_id update
    /\ sent_text c = VString s
    /\ s <> []
    /\ (forall u, head s = Some u -> Str.is_white_space u = false)
    /\ (forall u, last s = Some u -> Str.is_white_space u = false).
Proof.
  intros Hin Hk.
  destruct (send_call_of_run v h env req c Hin Hk) as (update & ai & Hj & _ & ->).
  exists update, (reply_text v ai).
  split; [done|]. split; [reflexivity|]. split; [reflexivity|].
  apply reply_text_is_text.
Qed.

Lemma reply_is_never_blank_witness :
  send_call Second Samples.env_both Samples.update_hi (Samples.reply_value Samples.padded)
    ∈ calls (snd (handler Second (Samples.answering (Samples.reply_json Samples.padded))
                    Samples.env_both (Samples.post Samples.update_hi)))
  /\ is_send_call (send_call Second Samples.env_both Samples.update_hi
                     (Samples.reply_value Samples.padded)) = true
  /\ exists update s,
       req_json (Samples.post Samples.update_hi) = inr update
       /\ sent_chat (send_call Second Samples.env_both Samples.update_hi
                       (Samples.reply_value Samples.padded)) = chat_id update
       /\ sent_text (send_call Second Samples.env_both Samples.update_hi
                       (Samples.reply_value Samples.padded)) = VString s
       /\ s <> []
       /\ (forall u, head s = Some u -> Str.is_white_space u = false)
       /\ (forall u, last s = Some u -> Str.is_white_space u = false).
Proof.
  assert (H1 : send_call Second Samples.env_both Samples.update_hi
                 (Samples.reply_value Samples.padded)
               ∈ calls (snd (handler Second
                               (Samples.answering (Samples.reply_json Samples.padded))
                               Samples.env_both (Samples.post Samples.update_hi)))).
  { vm_compute. right. left. }
  assert (H2 : is_send_call (send_call Second Samples.env_both Samples.update_hi
                               (Samples.reply_value Samples.padded)) = true)
    by (vm_compute; reflexivity).
  exact (conj H1 (conj H2
           (reply_is_never_blank Second
              (Samples.answering (Samples.reply_json Samples.padded))
              Samples.env_both (Samples.post Samples.update_hi) _ H1 H2))).
Defined.

(** X19. The completion call of a run is addressed to the configured
    model (the default model when GEMINI_MODEL is unset or empty) with
    the variant's credential in the URL, carries the resolved prompt as
    system instruction, and carries the text of the update, unchanged,
    as its only user turn. *)
Theorem completion_call_contents v h env req c :
  c ∈ calls (snd (handler v h env req)) ->
  is_completion_call c = true ->
  exists update,
    req_json req = inr update
    /\ call_url c
       = Str.lit "https://generativelanguage.googleapis.com/v1beta/models/"
           ++ Host.or_default (env !! Str.lit "GEMINI_MODEL") (Str.lit "gemini-2.5-flash")
           ++ Str.lit ":generateContent?key=" ++ setting env (completion_key v)
    /\ Host.set (env !! completion_key v) = true
    /\ system_instruction c
       = VString (Str.replaceAll (setting env (Str.lit "AI_SYSTEM_PROMPT"))
                    (Str.lit "{{BOOKING_LINK}}")
                    (Host.or_default (env !! Str.lit "BOOKING_LINK")
                       (Str.lit "https://calendly.com/your-link")))
    /\ Outcome.contents c
       = VArray [VObject [(Str.lit "role", VString (Str.lit "user"));
                          (Str.lit "parts",
                            VArray [VObject [(Str.lit "text", message_text update)]])]].
Proof.
  intros Hin Hk.
  destruct (completion_call_of_run v h env req c Hin Hk) as (update & Hj & _ & Hall & ->).
  exists update. split; [done|]. split; [reflexivity|]. split; [|split; reflexivity].
  revert Hall. unfold all_set. cbn [mandatory forallb].
  rewrite !andb_true_iff. tauto.
Qed.

Lemma completion_call_contents_witness :
  completion_call First Samples.env_first (VString (Str.lit "hi"))
    ∈ calls (snd (handler First Samples.overloaded Samples.env_first
                    (Samples.post Samples.update_hi)))
  /\ is_completion_call (completion_call First Samples.env_first (VString (Str.lit "hi")))
     = true
  /\ exists update,
       req_json (Samples.post Samples.update_hi) = inr update
       /\ call_url (completion_call First Samples.env_first (VString (Str.lit "hi")))
          = Str.lit "https://generativelanguage.googleapis.com/v1beta/models/"
              ++ Host.or_default (Samples.env_first !! Str.lit "GEMINI_MODEL")
                   (Str.lit "gemini-2.5-flash")
              ++ Str.lit ":generateContent?key="
              ++ setting Samples.env_first (completion_key First)
       /\ Host.set (Samples.env_first !! completion_key First) = true
       /\ system_instruction (completion_call First Samples.env_first (VString (Str.lit "hi")))
          = VString (Str.replaceAll (setting Samples.env_first (Str.lit "AI_SYSTEM_PROMPT"))
                       (Str.lit "{{BOOKING_LINK}}")
                       (Host.or_default (Samples.env_first !! Str.lit "BOOKING_LINK")
                          (Str.lit "https://calendly.com/your-link")))
       /\ Outcome.contents (completion_call First Samples.env_first (VString (Str.lit "hi")))
          = VArray [VObject [(Str.lit "role", VString (Str.lit "user"));
                             (Str.lit "parts",
                               VArray [VObject [(Str.lit "text", message_text update)]])]].
Proof.
  assert (H1 : completion_call First Samples.env_first (VString (Str.lit "hi"))
                 ∈ calls (snd (handler First Samples.overloaded Samples.env_first
                                 (Samples.post Samples.update_hi)))).
  { vm_compute. left. }
  assert (H2 : is_completion_call
                 (completion_call First Samples.env_first (VString (Str.lit "hi"))) = true)
    by (vm_compute; reflexivity).
  exact (conj H1 (conj H2
           (completion_call_contents First Samples.overloaded Samples.env_first
              (Samples.post Samples.update_hi) _ H1 H2))).
Defined.

(** * The prompt of a template without placeholder *)

Lemma find_free pat s : ~ occurs_in pat s -> Str.find pat s = None.
Proof.
  intros Hfree. destruct (Str.find pat s) as [k|] eqn:Hf; [|done].
  destruct Hfree. destruct pat as [|a pat]; [by exists [], s|].
  destruct (find_Some_split (a :: pat) s k) as [Hsplit _]; [done|done|].
  eexists _, _. exact Hsplit.
Qed.

(** X20. A template in which the placeholder does not occur is sent as
    it is, whatever the booking link, references included: the link is
    not looked at. *)
Theorem plain_template_is_unchanged template link :
  ~ occurs_in placeholder template ->
  Str.replaceAll template (Str.lit "{{BOOKING_LINK}}") link = template.
Proof.
  intros Hfree%find_free. unfold Str.replaceAll.
  cbn [Str.matchPositions]. unfold Str.StringIndexOf.
  cbn [Nat.leb]. change (Str.lit "{{BOOKING_LINK}}") with placeholder.
  change (drop 0 template) with template.
  rewrite Hfree. cbn [option_map fold_left].
  unfold Str.replace_rest, Str.substring. cbn [fst snd app drop].
  destruct (Nat.ltb_spec 0 (length template)) as [Hlt|Hge].
  - rewrite Nat.sub_0_r. apply firstn_all.
  - destruct template; [done|]. simpl in Hge. lia.
Qed.

Lemma plain_template_is_unchanged_witness :
  ~ occurs_in placeholder Cases.plain_template
  /\ Str.replaceAll Cases.plain_template (Str.lit "{{BOOKING_LINK}}")
       (Str.lit "https://x.example/?from=$&")
     = Cases.plain_template.
Proof.
  assert (H1 : ~ occurs_in placeholder Cases.plain_template).
  { apply find_None_free. vm_compute. reflexivity. }
  exact (conj H1
           (plain_template_is_unchanged Cases.plain_template
              (Str.lit "https://x.example/?from=$&") H1)).
Defined.

(** X21. When the completion service cannot be reached ([fetch]
    rejects), the handler logs that very exception, responds
    [{ok:true}], and issues no send call. *)
Theorem unreachable_service_is_logged v h env req update e :
  reaches_parse v env req = true ->
  req_json req = inr update ->
  Val.truthy (chat_id update) = true ->
  Val.truthy (message_text update) = true ->
  all_set env (mandatory v) = true ->
  remote h (completion_call v env (message_text update)) = inl e ->
  handler v h env req
  = (inr (Response Host.json_ok 200),
     [ReadBody; Fetch (completion_call v env (message_text update)); caught v e]).
Proof.
  intros Hp Hj Hc Ht Hall Hres.
  rewrite (run_relay h env req v update Hp Hj Hc Ht Hall). unfold Outcome.relay.
  by rewrite Hres.
Qed.

Lemma unreachable_service_is_logged_witness :
  reaches_parse First Samples.env_first (Samples.post Samples.update_hi) = true
  /\ req_json (Samples.post Samples.update_hi) = inr Samples.update_hi
  /\ Val.truthy (chat_id Samples.update_hi) = true
  /\ Val.truthy (message_text Samples.update_hi) = true
  /\ all_set Samples.env_first (mandatory First) = true
  /\ remote Cases.unreachable
       (completion_call First Samples.env_first (message_text Samples.update_hi))
     = inl (HostError (Str.lit "fetch failed"))
  /\ handler First Cases.unreachable Samples.env_first (Samples.post Samples.update_hi)
     = (inr (Response Host.json_ok 200),
        [ReadBody;
         Fetch (completion_call First Samples.env_first (message_text Samples.update_hi));
         caught First (HostError (Str.lit "fetch failed"))]).
Proof.
  assert (H1 : reaches_parse First Samples.env_first (Samples.post Samples.update_hi) = true)
    by (vm_compute; reflexivity).
  assert (H2 : Val.truthy (chat_id Samples.update_hi) = true) by (vm_compute; reflexivity).
  assert (H3 : Val.truthy (message_text Samples.update_hi) = true)
    by (vm_compute; reflexivity).
  assert (H4 : all_set Samples.env_first (mandatory First) = true)
    by (vm_compute; reflexivity).
  assert (H5 : remote Cases.unreachable
                 (completion_call First Samples.env_first
                    (message_text Samples.update_hi))
               = inl (HostError (Str.lit "fetch failed")))
    by (vm_compute; reflexivity).
  exact (conj H1 (conj eq_refl (conj H2 (conj H3 (conj H4 (conj H5
           (unreachable_service_is_logged First Cases.unreachable Samples.env_first
              (Samples.post Samples.update_hi) Samples.update_hi
              (HostError (Str.lit "fetch failed")) H1 eq_refl H2 H3 H4 H5))))))).
Defined.

(** X22. The send call of a run is addressed to the sendMessage method
    of the configured bot, whose credential is set, and asks for link
    previews to be disabled. *)
Theorem send_call_contents v h env req c :
  c ∈ calls (snd (handler v h env req)) ->
  is_send_call c = true ->
  call_url c
  = Str.lit "https://api.telegram.org/bot"
      ++ setting env (Str.lit "TELEGRAM_BOT_TOKEN") ++ Str.lit "/sendMessage"
  /\ Host.set (env !! Str.lit "TELEGRAM_BOT_TOKEN") = true
  /\ Val.opt_get (call_body c) (Str.lit "disable_web_page_preview") = VBool true.
Proof.
  intros Hin Hk.
  destruct (send_call_of_run v h env req c Hin Hk) as (update & ai & _ & _ & ->).
  split; [reflexivity|]. split; [|reflexivity].
  assert (Hp : reaches_parse v env req = true).
  { destruct (reaches_parse v env req) eqn:Hp; [done|].
    destruct (run_cases h env req v) as (r & t & Heq & Hno & _).
    rewrite Heq in Hin. cbn [snd] in Hin.
    destruct (Hno Hp) as [_ Hnil]. rewrite Hnil in Hin.
    by apply elem_of_nil in Hin. }
  destruct (reaches_parse_inv env req v Hp) as (_ & Hs & _).
  destruct v; [by destruct (all_set_first env Hs)|by apply all_set_second].
Qed.

Lemma send_call_contents_witness :
  send_call First Samples.env_first Samples.update_hi (Samples.reply_value Samples.greeting)
    ∈ calls (snd (handler First (Samples.answering (Samples.reply_json Samples.greeting))
                    Samples.env_first (Samples.post Samples.update_hi)))
  /\ is_send_call (send_call First Samples.env_first Samples.update_hi
                     (Samples.reply_value Samples.greeting)) = true
  /\ call_url (send_call First Samples.env_first Samples.update_hi
                 (Samples.reply_value Samples.greeting))
     = Str.lit "https://api.telegram.org/bot"
         ++ setting Samples.env_first (Str.lit "TELEGRAM_BOT_TOKEN")
         ++ Str.lit "/sendMessage"
  /\ Host.set (Samples.env_first !! Str.lit "TELEGRAM_BOT_TOKEN") = true
  /\ Val.opt_get (call_body (send_call First Samples.env_first Samples.update_hi
                               (Samples.reply_value Samples.greeting)))
       (Str.lit "disable_web_page_preview") = VBool true.
Proof.
  assert (H1 : send_call First Samples.env_first Samples.update_hi
                 (Samples.reply_value Samples.greeting)
               ∈ calls (snd (handler First
                               (Samples.answering (Samples.reply_json Samples.greeting))
                               Samples.env_first (Samples.post Samples.update_hi)))).
  { vm_compute. right. left. }
  assert (H2 : is_send_call (send_call First Samples.env_first Samples.update_hi
                               (Samples.reply_value Samples.greeting)) = true)
    by (vm_compute; reflexivity).
  exact (conj H1 (conj H2
           (send_call_contents First
              (Samples.answering (Samples.reply_json Samples.greeting))
              Samples.env_first (Samples.post Samples.update_hi) _ H1 H2))).
Defined.
